(** * Timetable scheduler: the [ScheduleOptimizer] class of [app.py]

    A shallow embedding of the scheduling engine (constructor, randomized
    placement loop, metrics, suggestion generator) and the properties of
    its specification, followed by the routes of [app.py] that call the
    engine or hold its results ([generate_schedules], [approve_timetable],
    [get_suggestions]) and by the accounts ([init_db], [login], [logout],
    [register]), with their own conventions stated where they are defined.

    Modelling conventions.
    - Python [int] is [Z]; [len] returns a [Z].
    - Python [float] is idealised as an exact rational [Q]: the arithmetic
      of the metrics is carried out without binary64 rounding error, and
      [round(x, 1)] is rounding to the nearest tenth, ties to even.
      Equality of metric values is [Qeq].
    - A Python [dict] is an insertion-ordered association list with unique
      keys ([Dict.set] replaces in place or appends), a Python [set] of
      strings is a [gset string].
    - A Python call either returns or raises: [Result].  The [while] loop is
      run with fuel; [OutOfFuel] is the model's own "did not finish" and is
      proved unreachable.
    - The module-level [random] generator is an arbitrary stream of naturals
      [rnd : nat -> nat] read through a cursor; [random.choice] and
      [random.randint] reduce a draw modulo the size of the range, so every
      outcome of the real generator is the outcome of some stream. *)

From Stdlib Require Import ZArith QArith Qround Lqa Ascii String DecimalString.
From stdpp Require Import gmap strings list.

Close Scope Q_scope.
Local Open Scope string_scope.
Local Open Scope list_scope.
Local Open Scope Z_scope.

(** ** Exceptions and results *)

Inductive exn : Type :=
  | ValueError          (* random.randint on an empty range *)
  | IndexError          (* random.choice on an empty sequence *)
  | KeyError            (* d[k] with k missing *)
  | ZeroDivisionError.  (* x / 0 *)

Inductive Result (A : Type) : Type :=
  | Ok (a : A)
  | Raise (e : exn)
  | OutOfFuel.
Arguments Ok {A} a.
Arguments Raise {A} e.
Arguments OutOfFuel {A}.

#[global] Instance Result_ret : MRet Result := @Ok.
#[global] Instance Result_bind : MBind Result := fun A B f m =>
  match m with
  | Ok a => f a
  | Raise e => Raise e
  | OutOfFuel => OutOfFuel
  end.

Definition returns {A} (m : Result A) : Prop := exists a, m = Ok a.
Definition raises {A} (m : Result A) : Prop := exists e, m = Raise e.

(** [for x in l: acc = body(acc, x)], stopping at the first exception. *)
Fixpoint for_each {A S} (body : S -> A -> Result S) (l : list A) (s : S) : Result S :=
  match l with
  | [] => Ok s
  | x :: l' => s' ← body s x; for_each body l' s'
  end.

(** [[f(x) for x in l]] where [f] may raise. *)
Fixpoint comprehension {A B} (f : A -> Result B) (l : list A) : Result (list B) :=
  match l with
  | [] => Ok []
  | x :: l' => y ← f x; ys ← comprehension f l'; Ok (y :: ys)
  end.

(** ** Python dictionaries *)

Module Dict.
Section dict.
Context {K : Type} `{EqDecision K} {V : Type}.

Definition t := list (K * V).

Fixpoint get (d : list (K * V)) (k : K) : option V :=
  match d with
  | [] => None
  | (k', v) :: d' => if decide (k' = k) then Some v else get d' k
  end.

(** [d[k] = v] *)
Fixpoint set (d : list (K * V)) (k : K) (v : V) : list (K * V) :=
  match d with
  | [] => [(k, v)]
  | (k', v') :: d' =>
      if decide (k' = k) then (k, v) :: d' else (k', v') :: set d' k v
  end.

(** [d[k]] as an expression *)
Definition getitem (d : list (K * V)) (k : K) : Result V :=
  match get d k with
  | Some v => Ok v
  | None => Raise KeyError
  end.

Definition keys (d : list (K * V)) : list K := map fst d.
Definition values (d : list (K * V)) : list V := map snd d.
Definition len (d : list (K * V)) : Z := Z.of_nat (length d).
End dict.
Arguments t : clear implicits.
End Dict.

Abbreviation dict := Dict.t.

(** [d[a][b]] *)
Definition getitem2 {K1 K2 V} `{EqDecision K1, EqDecision K2}
    (d : dict K1 (dict K2 V)) (a : K1) (b : K2) : Result V :=
  inner ← Dict.getitem d a; Dict.getitem inner b.

(** [d[a][b] = v]: [d[a]] is looked up, then mutated in place. *)
Definition setitem2 {K1 K2 V} `{EqDecision K1, EqDecision K2}
    (d : dict K1 (dict K2 V)) (a : K1) (b : K2) (v : V) : Result (dict K1 (dict K2 V)) :=
  inner ← Dict.getitem d a; Ok (Dict.set d a (Dict.set inner b v)).

(** ** Strings, slices, sums *)

(** [str(n)] for an [int] *)
Definition str (n : Z) : string := NilZero.string_of_int (Z.to_int n).

(** [l[:n]] *)
Definition slice_to {A} (l : list A) (n : Z) : list A :=
  if 0 <=? n then take (Z.to_nat n) l
  else take (Z.to_nat (Z.of_nat (length l) + n)) l.

Definition sum (l : list Z) : Z := fold_left Z.add l 0.

(** [max(l)] and [min(l)] of a non-empty list; [ValueError] on [[]]. *)
Definition py_max (l : list Z) : Result Z :=
  match l with
  | [] => Raise ValueError
  | x :: l' => Ok (fold_left Z.max l' x)
  end.
Definition py_min (l : list Z) : Result Z :=
  match l with
  | [] => Raise ValueError
  | x :: l' => Ok (fold_left Z.min l' x)
  end.

(** ** The random source *)

Section random.
Variable rnd : nat -> nat.

(** [random.choice(seq)] at cursor [pos] *)
Definition choice {A} (seq : list A) (pos : nat) : Result (A * nat) :=
  match seq with
  | [] => Raise IndexError
  | x :: _ => Ok (nth (rnd pos mod length seq)%nat seq x, S pos)
  end.

(** [random.randint(a, b)] at cursor [pos] *)
Definition randint (a b : Z) (pos : nat) : Result (Z * nat) :=
  if b <? a then Raise ValueError
  else Ok (a + Z.of_nat (rnd pos) mod (b - a + 1), S pos).
End random.

(** ** [round(x, 1)] *)

Definition round1 (x : Q) : Q :=
  let y := (x * 10)%Q in
  let f := Qfloor y in
  let n := match (y - inject_Z f ?= 1 # 2)%Q with
           | Lt => f
           | Gt => f + 1
           | Eq => if Z.even f then f else f + 1
           end in
  (n # 10)%Q.

(** ** Data model *)

(** The raw configuration record.  The source reads a nested JSON object
    through [.get(key, default)]; a field is [None] when the key (or the
    object that holds it) is absent. *)
Record Config : Type := {
  cfg_subject_list : option (list string);  (* config['subject_list'] *)
  cfg_classrooms : option Z;                (* ['infrastructure']['classrooms'] *)
  cfg_batches : option Z;                   (* ['students']['batches'] *)
  cfg_faculty_count : option Z;             (* ['faculty']['count'] *)
  cfg_max_load : option Z;                  (* ['faculty']['max_load'] *)
  cfg_max_classes_day : option Z;           (* ['academic']['max_classes_day'] *)
  cfg_classes_per_week : option Z;          (* ['academic']['classes_per_week'] *)
  cfg_days_week : option Z                  (* ['academic']['days_week'] *)
}.

Definition empty_config : Config :=
  {| cfg_subject_list := None; cfg_classrooms := None; cfg_batches := None;
     cfg_faculty_count := None; cfg_max_load := None;
     cfg_max_classes_day := None; cfg_classes_per_week := None;
     cfg_days_week := None |}.

Record ScheduleOptimizer : Type := {
  config : Config;
  time_slots : list string;
  days : list string
}.

Definition all_time_slots : list string :=
  ["9:00-10:00"; "10:00-11:00"; "11:15-12:15"; "12:15-1:15"; "2:15-3:15"; "3:15-4:15"].
Definition all_days : list string :=
  ["Monday"; "Tuesday"; "Wednesday"; "Thursday"; "Friday"; "Saturday"].

(** [ScheduleOptimizer.__init__] *)
Definition init (config_data : Config) : Result ScheduleOptimizer :=
  Ok {| config := config_data;
        time_slots := all_time_slots;
        days := if bool_decide (cfg_days_week config_data = Some 5)
                then slice_to all_days 5 else all_days |}.

(** One placed class: the value stored under [schedule[day][slot][class_id]]. *)
Record Session : Type := {
  subject : string;
  room : string;
  batch : string;
  faculty : string
}.

(** One rejected attempt. *)
Record Conflict : Type := {
  c_subject : string;
  c_day : string;
  c_slot : string;
  c_reasons : list string
}.

Record Metrics : Type := {
  classroom_utilization : Q;
  faculty_load_balance : Q;
  conflict_count : Z;
  optimization_score : Q;
  total_classes_scheduled : Z;
  faculty_utilization : Q
}.

Record Timetable : Type := {
  tt_id : Z;
  tt_name : string;
  tt_schedule : dict string (dict string (dict string Session));
  tt_metrics : Metrics;
  tt_conflicts : list Conflict
}.

(** The local variables of [generate_optimized_schedule] that the placement
    loop reads and writes, and the cursor of the random source. *)
Record Locals : Type := {
  schedule : dict string (dict string (dict string Session));
  room_usage : dict string (dict string (gset string));
  faculty_load : dict string (dict string Z);
  batch_schedule : dict string (dict string (gset string));
  conflicts : list Conflict;
  total : Z;                         (* total_classes_scheduled *)
  rng_pos : nat
}.

(** ** [ScheduleOptimizer.generate_optimized_schedule] *)

Section engine.
Variable self : ScheduleOptimizer.
Variable rnd : nat -> nat.

Definition subjects : list string :=
  default ["Math"; "Physics"; "Chemistry"; "CS"; "English"]
          (cfg_subject_list (config self)).
Definition classrooms : Z := default 10 (cfg_classrooms (config self)).
Definition batches : Z := default 15 (cfg_batches (config self)).
Definition faculty_count : Z := default 30 (cfg_faculty_count (config self)).
Definition max_classes_per_day : Z := default 8 (cfg_max_classes_day (config self)).
Definition classes_per_week : Z := default 4 (cfg_classes_per_week (config self)).
Definition max_daily_load : Z := default 6 (cfg_max_load (config self)).

Definition faculty_names : list string :=
  map (fun name => "Dr. " +:+ name)
    ["Smith"; "Johnson"; "Williams"; "Brown"; "Davis"; "Wilson";
     "Miller"; "Moore"; "Taylor"; "Anderson"; "Thomas"; "Jackson";
     "White"; "Harris"; "Martin"; "Thompson"; "Garcia"; "Martinez"].

(** [faculty_names[:faculty_count]] *)
Definition faculty_pool : list string := slice_to faculty_names faculty_count.

(** [{slot: set() for slot in time_slots}], built by successive stores *)
Definition empty_slots : dict string (gset string) :=
  fold_left (fun d slot => Dict.set d slot ∅) (time_slots self) [].

(** The tracking structures after the two initialisation loops. *)
Definition initial_locals : Locals :=
  {| schedule := fold_left (fun d day => Dict.set d day []) (days self) [];
     room_usage := fold_left (fun d day => Dict.set d day empty_slots) (days self) [];
     batch_schedule := fold_left (fun d day => Dict.set d day empty_slots) (days self) [];
     faculty_load :=
       fold_left (fun d f =>
           Dict.set d f (fold_left (fun e day => Dict.set e day 0) (days self) []))
         faculty_pool [];
     conflicts := [];
     total := 0;
     rng_pos := O |}.

Definition class_id (subject batch_name room_name : string) : string :=
  subject +:+ "_" +:+ batch_name +:+ "_" +:+ room_name.

(** The scan of [schedule[day][slot].values()] for the drawn faculty. *)
Definition faculty_busy (st : Locals) (day slot faculty_name : string) : bool :=
  match Dict.get (schedule st) day with
  | Some slots =>
      match Dict.get slots slot with
      | Some cell =>
          existsb (fun existing_class => bool_decide (faculty existing_class = faculty_name))
                  (Dict.values cell)
      | None => false
      end
  | None => false
  end.

(** The body of the [while] loop after the five draws: the four checks,
    then either the commit or the conflict record.  The boolean is
    [can_schedule]. *)
Definition place (subject_name day slot room_name batch_name faculty_name : string)
    (st : Locals) : Result (bool * Locals) :=
  rooms_here ← getitem2 (room_usage st) day slot;
  let room_occupied := bool_decide (room_name ∈ rooms_here) in
  batches_here ← getitem2 (batch_schedule st) day slot;
  let batch_taken := bool_decide (batch_name ∈ batches_here) in
  load ← getitem2 (faculty_load st) faculty_name day;
  let overloaded := max_daily_load <=? load in
  let busy := faculty_busy st day slot faculty_name in
  let conflict_reasons :=
    ((if room_occupied then ["Room occupied"] else []) ++
     (if batch_taken then ["Batch has another class"] else []) ++
     (if overloaded then ["Faculty overloaded"] else []) ++
     (if busy then ["Faculty conflict"] else []))%list in
  let can_schedule := negb (room_occupied || batch_taken || overloaded || busy) in
  if can_schedule then
    slots ← Dict.getitem (schedule st) day;
    let cell := default [] (Dict.get slots slot) in
    let session := {| subject := subject_name; room := room_name;
                      batch := batch_name; faculty := faculty_name |} in
    let schedule' :=
      Dict.set (schedule st) day
        (Dict.set slots slot
           (Dict.set cell (class_id subject_name batch_name room_name) session)) in
    room_usage' ← setitem2 (room_usage st) day slot ({[ room_name ]} ∪ rooms_here);
    batch_schedule' ← setitem2 (batch_schedule st) day slot ({[ batch_name ]} ∪ batches_here);
    faculty_load' ← setitem2 (faculty_load st) faculty_name day (load + 1);
    Ok (true,
        {| schedule := schedule'; room_usage := room_usage';
           faculty_load := faculty_load'; batch_schedule := batch_schedule';
           conflicts := conflicts st; total := total st + 1;
           rng_pos := rng_pos st |})
  else
    Ok (false,
        {| schedule := schedule st; room_usage := room_usage st;
           faculty_load := faculty_load st; batch_schedule := batch_schedule st;
           conflicts := (conflicts st ++
             [{| c_subject := subject_name; c_day := day; c_slot := slot;
                 c_reasons := conflict_reasons |}])%list;
           total := total st;
           rng_pos := rng_pos st |}).

Definition with_pos (st : Locals) (p : nat) : Locals :=
  {| schedule := schedule st; room_usage := room_usage st;
     faculty_load := faculty_load st; batch_schedule := batch_schedule st;
     conflicts := conflicts st; total := total st; rng_pos := p |}.

(** One iteration of the [while] body: five draws, then [place]. *)
Definition attempt (subject_name : string) (st : Locals) : Result (bool * Locals) :=
  '(day, p) ← choice rnd (days self) (rng_pos st);
  '(slot, p) ← choice rnd (time_slots self) p;
  '(room_num, p) ← randint rnd 1 classrooms p;
  let room_name := "Room " +:+ str room_num in
  '(batch_num, p) ← randint rnd 1 batches p;
  let batch_name := "Batch " +:+ str batch_num in
  '(faculty_name, p) ← choice rnd faculty_pool p;
  place subject_name day slot room_name batch_name faculty_name (with_pos st p).

(** [while classes_scheduled_for_subject < target_classes and attempts < 100],
    returning the final values of the two counters and the locals. *)
Fixpoint while_loop (fuel : nat) (subject_name : string)
    (classes_scheduled_for_subject attempts : Z) (st : Locals)
    : Result (Z * Z * Locals) :=
  match fuel with
  | O => OutOfFuel
  | S fuel' =>
      if (classes_scheduled_for_subject <? classes_per_week) && (attempts <? 100) then
        '(placed, st') ← attempt subject_name st;
        while_loop fuel' subject_name
          (if placed : bool then classes_scheduled_for_subject + 1
           else classes_scheduled_for_subject)
          (attempts + 1) st'
      else Ok (classes_scheduled_for_subject, attempts, st)
  end.

Definition loop_fuel : nat := 101.

(** The body of [for subject in subjects]. *)
Definition schedule_subject (st : Locals) (subject_name : string) : Result Locals :=
  '(_, _, st') ← while_loop loop_fuel subject_name 0 0 st; Ok st'.

(** Everything up to the comment [# Calculate metrics]. *)
Definition place_all : Result Locals :=
  for_each schedule_subject subjects initial_locals.

(** *** Metrics *)

Definition total_possible_slots : Z :=
  Z.of_nat (length (days self)) * Z.of_nat (length (time_slots self)) * classrooms.

(** [sum(len(room_usage[day][slot]) for day in self.days for slot in self.time_slots)] *)
Definition occupied_rooms (st : Locals) : Result Z :=
  counts ← comprehension
    (fun ds : string * string =>
       rooms_here ← getitem2 (room_usage st) ds.1 ds.2;
       Ok (Z.of_nat (size (rooms_here : gset string))))
    (day ← days self; slot ← time_slots self; [(day, slot)]);
  Ok (sum counts).

(** [classroom_utilization], unrounded *)
Definition classroom_utilization_raw (st : Locals) : Result Q :=
  occupied ← occupied_rooms st;
  if total_possible_slots =? 0 then Raise ZeroDivisionError
  else Ok ((inject_Z occupied / inject_Z total_possible_slots) * 100)%Q.

(** [[sum(faculty_load[f].values()) for f in faculty_load]] *)
Definition faculty_loads (st : Locals) : list Z :=
  map (fun entry : string * dict string Z => sum (Dict.values entry.2)) (faculty_load st).

(** [faculty_balance] (an [int]) *)
Definition faculty_balance (st : Locals) : Result Z :=
  match faculty_loads st with
  | [] => Ok 100
  | loads =>
      hi ← py_max loads; lo ← py_min loads;
      let load_variance := hi - lo in
      Ok (Z.max 0 (100 - load_variance * 5))
  end.

(** [optimization_score], unrounded *)
Definition optimization_score_raw (utilization : Q) (balance conflict_count : Z) : Q :=
  (utilization * (3 # 10) + inject_Z balance * (3 # 10)
   + inject_Z (Z.max 0 (100 - conflict_count * 5)) * (4 # 10))%Q.

(** [(sum(faculty_loads) / len(faculty_loads)) if faculty_loads else 0] *)
Definition faculty_utilization_raw (st : Locals) : Q :=
  match faculty_loads st with
  | [] => 0%Q
  | loads => (inject_Z (sum loads) / inject_Z (Z.of_nat (length loads)))%Q
  end.

Definition compute_metrics (st : Locals) : Result Metrics :=
  utilization ← classroom_utilization_raw st;
  balance ← faculty_balance st;
  let conflict_count := Z.of_nat (length (conflicts st)) in
  let score := optimization_score_raw utilization balance conflict_count in
  Ok {| classroom_utilization := round1 utilization;
        faculty_load_balance := round1 (inject_Z balance);
        conflict_count := conflict_count;
        optimization_score := round1 score;
        total_classes_scheduled := total st;
        faculty_utilization := round1 (faculty_utilization_raw st) |}.

Definition generate_optimized_schedule (option_num : Z) : Result Timetable :=
  st ← place_all;
  metrics ← compute_metrics st;
  Ok {| tt_id := option_num;
        tt_name := "Timetable Option " +:+ str option_num;
        tt_schedule := schedule st;
        tt_metrics := metrics;
        tt_conflicts := conflicts st |}.

End engine.

(** ** [ScheduleOptimizer.suggest_improvements]

    The method reads [timetable['metrics']] only, and nothing of [self]. *)

Definition Qltb (x y : Q) : bool := negb (Qle_bool y x).

Definition suggest_improvements (timetable : Timetable) : list string :=
  let metrics := tt_metrics timetable in
  ((if Qltb (classroom_utilization metrics) 70
    then ["Consider reducing the number of classrooms or increasing class frequency"]
    else []) ++
   (if Qltb (faculty_load_balance metrics) 80
    then ["Redistribute faculty workload for better balance"] else []) ++
   (if 5 <? conflict_count metrics
    then ["Review and resolve scheduling conflicts manually"] else []) ++
   (if Qltb (optimization_score metrics) 85
    then ["Consider adjusting time slots or adding more resources"] else []))%list.

(** Building the optimizer and running one candidate. *)
Definition run (config_data : Config) (rnd : nat -> nat) (option_num : Z)
    : Result Timetable :=
  self ← init config_data; generate_optimized_schedule self rnd option_num.

(** * Vocabulary of the properties *)

(** ** Class identifiers and views of the grid *)

(** Does the string hold an underscore, the separator of [class_id]? *)
Fixpoint has_underscore (s : string) : bool :=
  match s with
  | EmptyString => false
  | String c s' => bool_decide (c = "_"%char) || has_underscore s'
  end.

Abbreviation grid := (dict string (dict string (dict string Session))).

(** [schedule[day][slot]], empty when the day or the slot has no entry *)
Definition cell_at (sch : grid) (day slot : string) : dict string Session :=
  match Dict.get sch day with
  | Some slots => default [] (Dict.get slots slot)
  | None => []
  end.

(** The sessions of the grid with their day and slot, in iteration order:
    [for day in schedule: for slot in schedule[day]:
       for c in schedule[day][slot].values()]. *)
Definition slot_entries (day : string) (se : string * dict string Session)
    : list (string * string * Session) :=
  map (fun kv => (day, se.1, kv.2)) se.2.

Definition day_entries (de : string * dict string (dict string Session))
    : list (string * string * Session) :=
  flat_map (slot_entries de.1) de.2.

Definition grid_entries (sch : grid) : list (string * string * Session) :=
  flat_map day_entries sch.

(** All the sessions of the grid, and those of one day. *)
Definition all_sessions (sch : grid) : list Session :=
  map snd (grid_entries sch).

Definition sessions_on (sch : grid) (day : string) : list Session :=
  map snd (filter (fun e => e.1.1 = day) (grid_entries sch)).

(** The (day, slot, room) and (day, slot, batch) of every session. *)
Definition room_bookings (sch : grid) : list (string * string * string) :=
  map (fun e => (e.1, room e.2)) (grid_entries sch).

Definition batch_bookings (sch : grid) : list (string * string * string) :=
  map (fun e => (e.1, batch e.2)) (grid_entries sch).

(** The number of sessions of [l] taught by [f] *)
Definition taught_by (f : string) (l : list Session) : nat :=
  length (filter (fun s => faculty s = f) l).

(** The number of entries of the grid, cell by cell *)
Definition grid_size (sch : grid) : Z :=
  sum (flat_map (fun de => map (fun se => Dict.len se.2) de.2) sch).

(** ** The invariant and the postconditions of the loops *)

(** The occupancy sets, read with a default. *)
Definition rooms_at (st : Locals) (day slot : string) : gset string :=
  match getitem2 (room_usage st) day slot with Ok R => R | _ => ∅ end.

Definition batches_at (st : Locals) (day slot : string) : gset string :=
  match getitem2 (batch_schedule st) day slot with Ok B => B | _ => ∅ end.

Section vocabulary.
Variable self : ScheduleOptimizer.

(** The invariant of the placement loop: the tracking structures are
    defined on the whole time grid, they agree with the grid (occupied
    rooms, committed batches, daily and weekly loads, number of classes),
    every entry is stored under the identifier of its session, and no room
    or batch is booked twice in a (day, slot). *)
Record Inv (st : Locals) : Prop := {
  inv_days : forall day,
    day ∈ days self <-> is_Some (Dict.get (schedule st) day);
  inv_rooms : forall day slot,
    day ∈ days self -> slot ∈ time_slots self ->
    returns (getitem2 (room_usage st) day slot);
  inv_batches : forall day slot,
    day ∈ days self -> slot ∈ time_slots self ->
    returns (getitem2 (batch_schedule st) day slot);
  inv_loads : forall f day,
    f ∈ faculty_pool self -> day ∈ days self ->
    exists n, getitem2 (faculty_load st) f day = Ok n
      /\ n = Z.of_nat (taught_by f (sessions_on (schedule st) day))
      /\ n <= Z.max 0 (max_daily_load self);
  inv_cell : forall day slot k v,
    (k, v) ∈ cell_at (schedule st) day slot ->
    k = class_id (subject v) (batch v) (room v)
    /\ has_underscore (batch v) = false /\ has_underscore (room v) = false
    /\ room v ∈ rooms_at st day slot /\ batch v ∈ batches_at st day slot;
  inv_rooms_distinct : forall day slot,
    NoDup (map room (Dict.values (cell_at (schedule st) day slot)));
  inv_batches_distinct : forall day slot,
    NoDup (map batch (Dict.values (cell_at (schedule st) day slot)));
  inv_faculty_distinct : forall day slot,
    NoDup (map faculty (Dict.values (cell_at (schedule st) day slot)));
  inv_entries : forall d s v,
    (d, s, v) ∈ grid_entries (schedule st) ->
    d ∈ days self /\ s ∈ time_slots self
    /\ room v ∈ rooms_at st d s /\ batch v ∈ batches_at st d s;
  inv_room_bookings : NoDup (room_bookings (schedule st));
  inv_batch_bookings : NoDup (batch_bookings (schedule st));
  inv_pool : forall s,
    s ∈ all_sessions (schedule st) -> faculty s ∈ faculty_pool self;
  inv_total : total st = Z.of_nat (length (all_sessions (schedule st)));
  inv_weekly : forall f per_day,
    Dict.get (faculty_load st) f = Some per_day ->
    sum (Dict.values per_day) = Z.of_nat (taught_by f (all_sessions (schedule st)));
  inv_load_keys : Dict.keys (faculty_load st) = faculty_pool self;
  inv_load_sum : sum (faculty_loads st) = total st
}.

(** What the loop has done when it returns. *)
Definition loop_post (s : string) (c a : Z) (st : Locals) (c' a' : Z) (st' : Locals)
    : Prop :=
  Inv st'
  /\ a <= a' /\ (a <= 100 -> a' <= 100)
  /\ ~ (c' < classes_per_week self /\ a' < 100)
  /\ c <= c' <= Z.max c (classes_per_week self)
  /\ total st' = total st + (c' - c)
  /\ rng_pos st' = (rng_pos st + 5 * Z.to_nat (a' - a))%nat
  /\ exists cs, conflicts st' = conflicts st ++ cs
       /\ Z.of_nat (length cs) = (a' - a) - (c' - c)
       /\ Forall (fun x => c_subject x = s) cs.

(** A configuration on which every draw is defined. *)
Definition drawable : Prop :=
  days self <> [] /\ time_slots self <> []
  /\ 1 <= classrooms self /\ 1 <= batches self /\ faculty_pool self <> [].

(** After any number of subjects: the invariant, and at most 100 attempts
    (five draws each), hence at most 100 conflicts, per subject. *)
Definition subjects_post (l : list string) (st st' : Locals) : Prop :=
  Inv st'
  /\ (rng_pos st' <= rng_pos st + 500 * length l)%nat
  /\ exists cs, conflicts st' = conflicts st ++ cs
       /\ (length cs <= 100 * length l)%nat
       /\ Forall (fun x => c_subject x ∈ l) cs.
End vocabulary.

(** What one iteration does to the counters: a placement adds one session
    and no conflict, a rejection adds one conflict and leaves the grid. *)
Definition step_effect (subject_name : string) (ok : bool) (st st' : Locals) : Prop :=
  if ok then total st' = total st + 1 /\ conflicts st' = conflicts st
  else total st' = total st /\ schedule st' = schedule st
       /\ exists c, conflicts st' = conflicts st ++ [c]
            /\ c_subject c = subject_name /\ c_reasons c <> [].

(** Nothing but the fuel of [while_loop] produces [OutOfFuel]. *)
Definition finishes {A} (m : Result A) : Prop := m <> OutOfFuel.

(** The greatest and the least element of a list. *)
Definition is_max (l : list Z) (m : Z) : Prop := m ∈ l /\ forall x, x ∈ l -> x <= m.

Definition is_min (l : list Z) (m : Z) : Prop := m ∈ l /\ forall x, x ∈ l -> m <= x.

(** ** The metrics in the words of the specification *)

(** The load balance in the words of the specification: 100 when no
    faculty member has any load, and otherwise 100 minus five times the
    spread of the weekly totals, floored at 0. *)
Definition load_balance_spec (loads : list Z) (b : Z) : Prop :=
  ((forall x, x ∈ loads -> x = 0) -> b = 100)
  /\ (loads <> [] ->
      exists hi lo, is_max loads hi /\ is_min loads lo
        /\ b = Z.max 0 (100 - 5 * (hi - lo))).

(** The weekly totals of the faculty pool, counted in a grid. *)
Definition weekly_totals (self : ScheduleOptimizer) (sch : grid) : list Z :=
  map (fun f => Z.of_nat (taught_by f (all_sessions sch))) (faculty_pool self).

(** ** Concrete inputs *)

(** One subject, one room, one batch, three faculty members, one session
    per week. *)
Definition small_config : Config :=
  {| cfg_subject_list := Some ["Math"]; cfg_classrooms := Some 1;
     cfg_batches := Some 1; cfg_faculty_count := Some 3; cfg_max_load := None;
     cfg_max_classes_day := None; cfg_classes_per_week := Some 1;
     cfg_days_week := None |}.

(** The same, with a negative maximum daily load. *)
Definition negative_load_config : Config :=
  {| cfg_subject_list := Some ["Math"]; cfg_classrooms := Some 1;
     cfg_batches := Some 1; cfg_faculty_count := Some 3; cfg_max_load := Some (-1);
     cfg_max_classes_day := None; cfg_classes_per_week := Some 1;
     cfg_days_week := None |}.

(** Defaults everywhere, but no room, no batch, or no faculty member. *)
Definition zero_rooms_config : Config :=
  {| cfg_subject_list := None; cfg_classrooms := Some 0; cfg_batches := None;
     cfg_faculty_count := None; cfg_max_load := None;
     cfg_max_classes_day := None; cfg_classes_per_week := None;
     cfg_days_week := None |}.

Definition zero_batches_config : Config :=
  {| cfg_subject_list := None; cfg_classrooms := None; cfg_batches := Some 0;
     cfg_faculty_count := None; cfg_max_load := None;
     cfg_max_classes_day := None; cfg_classes_per_week := None;
     cfg_days_week := None |}.

Definition zero_faculty_config : Config :=
  {| cfg_subject_list := None; cfg_classrooms := None; cfg_batches := None;
     cfg_faculty_count := Some 0; cfg_max_load := None;
     cfg_max_classes_day := None; cfg_classes_per_week := None;
     cfg_days_week := None |}.

(** One subject with a target of zero sessions, and no room. *)
Definition zero_target_zero_rooms_config : Config :=
  {| cfg_subject_list := Some ["Math"]; cfg_classrooms := Some 0;
     cfg_batches := None; cfg_faculty_count := None; cfg_max_load := None;
     cfg_max_classes_day := None; cfg_classes_per_week := Some 0;
     cfg_days_week := None |}.

(** An empty subject list and negative numeric fields. *)
Definition invalid_config : Config :=
  {| cfg_subject_list := Some []; cfg_classrooms := Some (-1);
     cfg_batches := Some (-2); cfg_faculty_count := Some (-3);
     cfg_max_load := Some (-4); cfg_max_classes_day := Some (-5);
     cfg_classes_per_week := Some (-6); cfg_days_week := Some (-7) |}.

(** A random source: the draws are 0, 1, 2, ... *)
Definition counting_source : nat -> nat := fun i => i.

Definition advice_utilization : string :=
  "Consider reducing the number of classrooms or increasing class frequency".

Definition advice_balance : string :=
  "Redistribute faculty workload for better balance".

Definition advice_conflicts : string :=
  "Review and resolve scheduling conflicts manually".

Definition advice_score : string :=
  "Consider adjusting time slots or adding more resources".

Definition with_metrics (m : Metrics) : Timetable :=
  {| tt_id := 1; tt_name := ""; tt_schedule := []; tt_metrics := m;
     tt_conflicts := [] |}.

(** The advice selected by four booleans, in the fixed order. *)
Definition advice_for (b1 b2 b3 b4 : bool) : list string :=
  (if b1 then [advice_utilization] else []) ++
  (if b2 then [advice_balance] else []) ++
  (if b3 then [advice_conflicts] else []) ++
  (if b4 then [advice_score] else []).

(** The optimizer and the timetable of [small_config] under
    [counting_source]. *)
Definition small_optimizer : ScheduleOptimizer :=
  {| config := small_config; time_slots := all_time_slots; days := all_days |}.

Definition small_timetable : Timetable :=
  Eval vm_compute in
    match generate_optimized_schedule small_optimizer counting_source 1 with
    | Ok t => t
    | _ => with_metrics
             {| classroom_utilization := 0; faculty_load_balance := 0;
                conflict_count := 0; optimization_score := 0;
                total_classes_scheduled := 0; faculty_utilization := 0 |}
    end.

Definition negative_load_optimizer : ScheduleOptimizer :=
  {| config := negative_load_config; time_slots := all_time_slots;
     days := all_days |}.

Definition negative_load_timetable : Timetable :=
  Eval vm_compute in
    match generate_optimized_schedule negative_load_optimizer counting_source 1 with
    | Ok t => t
    | _ => small_timetable
    end.

Definition small_locals : Locals :=
  Eval vm_compute in
    match place_all small_optimizer counting_source with
    | Ok st => st
    | _ => initial_locals small_optimizer
    end.

Definition zero_rooms_optimizer : ScheduleOptimizer :=
  {| config := zero_rooms_config; time_slots := all_time_slots; days := all_days |}.

(** ** Vocabulary of the further properties *)

(** The four reasons of a rejection, in the order of the checks. *)
Definition all_reasons : list string :=
  ["Room occupied"; "Batch has another class"; "Faculty overloaded";
   "Faculty conflict"].

(** The (day, slot, faculty member) of every session. *)
Definition faculty_bookings (sch : grid) : list (string * string * string) :=
  map (fun e => (e.1, faculty e.2)) (grid_entries sch).

Section further_vocabulary.
Variable self : ScheduleOptimizer.

(** An entry of the grid that lies on the time grid and names a subject,
    a room, a batch and a faculty member of the configuration. *)
Definition session_ok (e : string * string * Session) : Prop :=
  e.1.1 ∈ days self /\ e.1.2 ∈ time_slots self
  /\ subject e.2 ∈ subjects self
  /\ (exists n, 1 <= n <= classrooms self /\ room e.2 = "Room " +:+ str n)
  /\ (exists n, 1 <= n <= batches self /\ batch e.2 = "Batch " +:+ str n)
  /\ faculty e.2 ∈ faculty_pool self.

(** A conflict record of a configured subject, on the time grid, with at
    least one of the four reasons, each at most once and in the order of
    the checks. *)
Definition conflict_ok (c : Conflict) : Prop :=
  c_subject c ∈ subjects self /\ c_day c ∈ days self
  /\ c_slot c ∈ time_slots self
  /\ c_reasons c <> [] /\ c_reasons c `sublist_of` all_reasons.

(** Iterating over the grid and looking a cell up agree. *)
Definition entries_in_cells (st : Locals) : Prop :=
  forall d s v, (d, s, v) ∈ grid_entries (schedule st) ->
    v ∈ Dict.values (cell_at (schedule st) d s).
End further_vocabulary.

(** The sessions of a subject in the grid, the conflict records of a
    subject, and the occurrences of a subject in the subject list. *)
Definition scheduled_for (s : string) (sch : grid) : nat :=
  length (filter (fun v => subject v = s) (all_sessions sch)).

Definition conflicts_for (s : string) (cs : list Conflict) : nat :=
  length (filter (fun c => c_subject c = s) cs).

Definition occurrences (s : string) (l : list string) : nat :=
  length (filter (fun x => x = s) l).

(** The (day, slot) pairs in the order of the utilization sum, and the
    sum of the sizes of the occupancy sets over them. *)
Definition grid_cells (self : ScheduleOptimizer) : list (string * string) :=
  day ← days self; slot ← time_slots self; [(day, slot)].

Definition occupancy (self : ScheduleOptimizer) (st : Locals) : Z :=
  sum (map (fun ds => Z.of_nat (size (rooms_at st ds.1 ds.2))) (grid_cells self)).

(** Every (day, slot, room) that the configuration allows. *)
Definition bookable (self : ScheduleOptimizer) : list (string * string * string) :=
  day ← days self; slot ← time_slots self;
  n ← seqZ 1 (classrooms self); [(day, slot, "Room " +:+ str n)].

(** The exception of a run as the configuration determines it, [None]
    for a run that returns: nothing to place and no room divides by zero;
    something to place and no room or no batch fails in [randint], no
    faculty member in [choice]. *)
Definition expected_exception (self : ScheduleOptimizer) : option exn :=
  if bool_decide (subjects self = []) || (classes_per_week self <=? 0) then
    if classrooms self =? 0 then Some ZeroDivisionError else None
  else if (classrooms self <? 1) || (batches self <? 1) then Some ValueError
  else if bool_decide (faculty_pool self = []) then Some IndexError
  else None.

(** The shape of a day's entry of the grid: every slot is listed once, it
    is a slot of the optimizer, and its cell holds at least one session. *)
Definition grid_shaped (self : ScheduleOptimizer) (sch : grid) : Prop :=
  forall day slots, (day, slots) ∈ sch ->
    NoDup (Dict.keys slots)
    /\ forall slot cell, (slot, cell) ∈ slots ->
         slot ∈ time_slots self /\ cell <> [].

(** One subject with a target of zero sessions, rooms by default. *)
Definition zero_target_config : Config :=
  {| cfg_subject_list := Some ["Math"]; cfg_classrooms := None;
     cfg_batches := None; cfg_faculty_count := None; cfg_max_load := None;
     cfg_max_classes_day := None; cfg_classes_per_week := Some 0;
     cfg_days_week := None |}.

Definition zero_target_optimizer : ScheduleOptimizer :=
  {| config := zero_target_config; time_slots := all_time_slots; days := all_days |}.

(** The configuration with another value of [academic.max_classes_day]. *)
Definition with_max_classes_day (cfg : Config) (x : option Z) : Config :=
  {| cfg_subject_list := cfg_subject_list cfg; cfg_classrooms := cfg_classrooms cfg;
     cfg_batches := cfg_batches cfg; cfg_faculty_count := cfg_faculty_count cfg;
     cfg_max_load := cfg_max_load cfg; cfg_max_classes_day := x;
     cfg_classes_per_week := cfg_classes_per_week cfg;
     cfg_days_week := cfg_days_week cfg |}.

(** * The routes around the optimizer

    [generate_schedules], [approve_timetable] and [get_suggestions] of
    [app.py], the callers of the optimizer, over a model of what they touch
    of Flask and SQLite.
    - The routes read the session at the key ['user_id'] only: the session
      is given by [session.get('user_id')].
    - A table is the list of its rows in insertion order, with the counter
      of its [AUTOINCREMENT] key; [INSERT] appends a row under the next key,
      [UPDATE ... WHERE] rewrites the rows that match, [SELECT ... WHERE
      id = ?] with [fetchone] finds the first match.  The columns
      [created_at], which these routes neither write nor read, are left out.
    - A JSON text is modelled by the value it encodes.
    - The clock and the request body are inputs; a request field is absent
      or has the type that the route expects.
    - The draws of consecutive runs come from one generator: a run reads the
      stream where the run before stopped.
    - An exception of the view function leaves the connection without
      [commit]: the database keeps the last committed state. *)

Record ConfigurationRow : Type := {
  cr_id : Z;
  cr_name : string;
  cr_config_data : Config;
  cr_created_by : Z;
  cr_is_active : bool
}.

Record TimetableRow : Type := {
  tr_id : Z;
  tr_name : string;
  tr_schedule_data : grid;
  tr_config_id : Z;
  tr_status : string;
  tr_metrics : Metrics;
  tr_approved_at : option string;
  tr_approved_by : option Z
}.

Record ConflictRow : Type := {
  kr_id : Z;
  kr_timetable_id : Z;
  kr_conflict_type : string;
  kr_description : string;
  kr_severity : string;
  kr_resolved : bool
}.

Record Db : Type := {
  db_configurations : list ConfigurationRow;
  db_configurations_seq : Z;
  db_timetables : list TimetableRow;
  db_timetables_seq : Z;
  db_conflicts : list ConflictRow;
  db_conflicts_seq : Z
}.

Inductive Body : Type :=
  | ErrorBody (error : string)
  | SuccessBody
  | MessageBody (message : string)
  | LoginBody (username role : string)
  | TimetablesBody (timetables : list Timetable)
  | SuggestionsBody (suggestions : list string).

(** [jsonify(body), status_code] *)
Record Response : Type := {
  status_code : Z;
  body : Body
}.

(** [INSERT INTO configurations (name, config_data, created_by)]; the
    column [is_active] takes its default [FALSE].  The result is
    [cursor.lastrowid] and the new state. *)
Definition insert_configuration (db : Db) (name : string) (config_data : Config)
    (created_by : Z) : Z * Db :=
  let id := db_configurations_seq db + 1 in
  (id,
   {| db_configurations :=
        db_configurations db ++
        [{| cr_id := id; cr_name := name; cr_config_data := config_data;
            cr_created_by := created_by; cr_is_active := false |}];
      db_configurations_seq := id;
      db_timetables := db_timetables db;
      db_timetables_seq := db_timetables_seq db;
      db_conflicts := db_conflicts db;
      db_conflicts_seq := db_conflicts_seq db |}).

(** [INSERT INTO timetables (name, schedule_data, metrics, status,
    config_id)]; [approved_at] and [approved_by] are [NULL]. *)
Definition insert_timetable (db : Db) (name : string) (schedule_data : grid)
    (metrics : Metrics) (status : string) (config_id : Z) : Z * Db :=
  let id := db_timetables_seq db + 1 in
  (id,
   {| db_configurations := db_configurations db;
      db_configurations_seq := db_configurations_seq db;
      db_timetables :=
        db_timetables db ++
        [{| tr_id := id; tr_name := name; tr_schedule_data := schedule_data;
            tr_config_id := config_id; tr_status := status;
            tr_metrics := metrics; tr_approved_at := None;
            tr_approved_by := None |}];
      db_timetables_seq := id;
      db_conflicts := db_conflicts db;
      db_conflicts_seq := db_conflicts_seq db |}).

(** [INSERT INTO conflicts (timetable_id, conflict_type, description)];
    [severity] and [resolved] take their defaults. *)
Definition insert_conflict (db : Db) (timetable_id : Z)
    (conflict_type description : string) : Db :=
  let id := db_conflicts_seq db + 1 in
  {| db_configurations := db_configurations db;
     db_configurations_seq := db_configurations_seq db;
     db_timetables := db_timetables db;
     db_timetables_seq := db_timetables_seq db;
     db_conflicts :=
       db_conflicts db ++
       [{| kr_id := id; kr_timetable_id := timetable_id;
           kr_conflict_type := conflict_type; kr_description := description;
           kr_severity := "medium"; kr_resolved := false |}];
     db_conflicts_seq := id |}.

(** [sep.join(l)] *)
Definition join (sep : string) (l : list string) : string :=
  match l with
  | [] => ""
  | x :: l' => fold_left (fun acc y => acc +:+ sep +:+ y) l' x
  end.

(** The stream that a run reads when [pos] draws have been made, and the
    number of draws of a run. *)
Definition shifted (rnd : nat -> nat) (pos : nat) : nat -> nat :=
  fun i => rnd (pos + i)%nat.

Definition draws (self : ScheduleOptimizer) (rnd : nat -> nat) : Result nat :=
  st ← place_all self rnd; Ok (rng_pos st).

(** The body of [for i in range(3)]: one run, its row, the rows of its
    conflicts.  The state is the list [timetables], the number of draws
    made, and the database. *)
Definition candidate (optimizer : ScheduleOptimizer) (rnd : nat -> nat)
    (config_id : Z) (acc : list Timetable * nat * Db) (i : Z)
    : Result (list Timetable * nat * Db) :=
  let '(timetables, pos, db) := acc in
  timetable ← generate_optimized_schedule optimizer (shifted rnd pos) (i + 1);
  used ← draws optimizer (shifted rnd pos);
  let '(timetable_id, db) :=
    insert_timetable db (tt_name timetable) (tt_schedule timetable)
      (tt_metrics timetable) "draft" config_id in
  let db :=
    fold_left
      (fun db conflict =>
         insert_conflict db timetable_id "scheduling"
           (join ", " (c_reasons conflict)))
      (tt_conflicts timetable) db in
  Ok (timetables ++ [timetable], (pos + used)%nat, db).

(** [POST /api/generate-schedules].  [now] is
    [datetime.now().strftime('%Y%m%d_%H%M%S')]. *)
Definition generate_schedules (session_user_id : option Z) (config_data : Config)
    (now : string) (rnd : nat -> nat) (db : Db) : Result Response * Db :=
  match session_user_id with
  | None => (Ok {| status_code := 401; body := ErrorBody "Not authenticated" |}, db)
  | Some user_id =>
      let '(config_id, committed) :=
        insert_configuration db ("Auto_Config_" +:+ now) config_data user_id in
      match
        optimizer ← init config_data;
        for_each (candidate optimizer rnd config_id) [0; 1; 2] ([], O, committed)
      with
      | Ok (timetables, _, db') =>
          (Ok {| status_code := 200; body := TimetablesBody timetables |}, db')
      | Raise e => (Raise e, committed)
      | OutOfFuel => (OutOfFuel, committed)
      end
  end.

(** [UPDATE timetables SET status = ?, approved_at = ?, approved_by = ?]
    on one row. *)
Definition with_status (r : TimetableRow) (status : string)
    (approved_at : option string) (approved_by : option Z) : TimetableRow :=
  {| tr_id := tr_id r; tr_name := tr_name r;
     tr_schedule_data := tr_schedule_data r; tr_config_id := tr_config_id r;
     tr_status := status; tr_metrics := tr_metrics r;
     tr_approved_at := approved_at; tr_approved_by := approved_by |}.

(** [POST /api/approve-timetable].  [timetable_id] is
    [data.get('timetable_id')], [now] is [datetime.now().isoformat()].  The
    first statement archives the approved rows, the second approves the rows
    of the given key. *)
Definition approve_timetable (session_user_id : option Z) (timetable_id : option Z)
    (now : string) (db : Db) : Response * Db :=
  match session_user_id with
  | None => ({| status_code := 401; body := ErrorBody "Not authenticated" |}, db)
  | Some user_id =>
      let archived :=
        map (fun r =>
               if bool_decide (tr_status r = "approved")
               then with_status r "archived" (tr_approved_at r) (tr_approved_by r)
               else r)
            (db_timetables db) in
      let approved :=
        map (fun r =>
               if bool_decide (Some (tr_id r) = timetable_id)
               then with_status r "approved" (Some now) (Some user_id)
               else r)
            archived in
      ({| status_code := 200; body := SuccessBody |},
       {| db_configurations := db_configurations db;
          db_configurations_seq := db_configurations_seq db;
          db_timetables := approved;
          db_timetables_seq := db_timetables_seq db;
          db_conflicts := db_conflicts db;
          db_conflicts_seq := db_conflicts_seq db |})
  end.

(** [GET /api/get-suggestions/<int:timetable_id>].  The dictionary given
    to [suggest_improvements] has the keys ['schedule'] and ['metrics'];
    the method reads the metrics only. *)
Definition get_suggestions (session_user_id : option Z) (timetable_id : Z) (db : Db)
    : Result Response :=
  match session_user_id with
  | None => Ok {| status_code := 401; body := ErrorBody "Not authenticated" |}
  | Some _ =>
      match find (fun r => bool_decide (tr_id r = timetable_id)) (db_timetables db) with
      | None => Ok {| status_code := 404; body := ErrorBody "Timetable not found" |}
      | Some timetable =>
          optimizer ← init empty_config;
          let suggestions :=
            suggest_improvements
              {| tt_id := tr_id timetable; tt_name := tr_name timetable;
                 tt_schedule := tr_schedule_data timetable;
                 tt_metrics := tr_metrics timetable; tt_conflicts := [] |} in
          Ok {| status_code := 200; body := SuggestionsBody suggestions |}
      end
  end.

(** The keys of the timetables are pairwise different and not above the
    counter, as [PRIMARY KEY AUTOINCREMENT] keeps them, and the conflicts
    refer to keys that have been given out. *)
Definition keys_ok (db : Db) : Prop :=
  NoDup (map tr_id (db_timetables db))
  /\ Forall (fun r => tr_id r <= db_timetables_seq db) (db_timetables db)
  /\ Forall (fun k => kr_timetable_id k <= db_timetables_seq db) (db_conflicts db).

Definition empty_db : Db :=
  {| db_configurations := []; db_configurations_seq := 0;
     db_timetables := []; db_timetables_seq := 0;
     db_conflicts := []; db_conflicts_seq := 0 |}.

(** The row of a candidate, and the (timetable id, description) pairs of
    its conflicts. *)
Definition draft_row (id config_id : Z) (t : Timetable) : TimetableRow :=
  {| tr_id := id; tr_name := tt_name t; tr_schedule_data := tt_schedule t;
     tr_config_id := config_id; tr_status := "draft"; tr_metrics := tt_metrics t;
     tr_approved_at := None; tr_approved_by := None |}.

Definition conflict_entries (id : Z) (t : Timetable) : list (Z * string) :=
  map (fun c => (id, join ", " (c_reasons c))) (tt_conflicts t).

(** What storing one candidate does to the database. *)
Definition candidate_stored (config_id : Z) (t : Timetable) (db db' : Db) : Prop :=
  db_configurations db' = db_configurations db
  /\ db_configurations_seq db' = db_configurations_seq db
  /\ db_timetables db'
     = db_timetables db ++ [draft_row (db_timetables_seq db + 1) config_id t]
  /\ db_timetables_seq db' = db_timetables_seq db + 1
  /\ db_conflicts_seq db'
     = db_conflicts_seq db + Z.of_nat (length (tt_conflicts t))
  /\ exists rows,
       db_conflicts db' = db_conflicts db ++ rows
       /\ map (fun r => (kr_timetable_id r, kr_description r)) rows
          = conflict_entries (db_timetables_seq db + 1) t
       /\ map kr_id rows
          = seqZ (db_conflicts_seq db + 1) (Z.of_nat (length (tt_conflicts t)))
       /\ Forall (fun r => kr_conflict_type r = "scheduling"
                           /\ kr_severity r = "medium" /\ kr_resolved r = false) rows.

(** The answer and the database of one request on the empty database. *)
Definition small_answer : Response * Db :=
  Eval vm_compute in
    match generate_schedules (Some 1) small_config "20250101_090000"
            counting_source empty_db with
    | (Ok response, db) => (response, db)
    | (_, db) => ({| status_code := 500; body := SuccessBody |}, db)
    end.

(** * Accounts and sessions

    [init_db] (its only insertion), [login], [logout] and [register] of
    [app.py].  They touch the table [users] and the session; the session
    holds the three keys that [login] sets.  The digest
    [hashlib.sha256(s.encode()).hexdigest()] is a function on strings, left
    open.  A request field is absent or a string. *)

Record UserRow : Type := {
  ur_id : Z;
  ur_username : string;
  ur_password_hash : string;
  ur_role : string
}.

Record Users : Type := {
  users_rows : list UserRow;
  users_seq : Z
}.

Record FlaskSession : Type := {
  s_user_id : option Z;
  s_username : option string;
  s_role : option string
}.

Definition empty_session : FlaskSession :=
  {| s_user_id := None; s_username := None; s_role := None |}.

Definition no_users : Users := {| users_rows := []; users_seq := 0 |}.

Section accounts.
Variable sha256 : string -> string.

(** [INSERT INTO users (username, password_hash, role)], when no row has
    the username. *)
Definition insert_user (users : Users) (username password_hash role : string) : Users :=
  let id := users_seq users + 1 in
  {| users_rows :=
       users_rows users ++
       [{| ur_id := id; ur_username := username;
           ur_password_hash := password_hash; ur_role := role |}];
     users_seq := id |}.

(** Does a row violate [username TEXT UNIQUE]? *)
Definition username_taken (users : Users) (username : string) : bool :=
  bool_decide (username ∈ map ur_username (users_rows users)).

(** [init_db]: the tables are created if they do not exist, and the default
    administrator is inserted with [INSERT OR IGNORE]. *)
Definition init_db (users : Users) : Users :=
  if username_taken users "admin" then users
  else insert_user users "admin" (sha256 "admin123") "admin".

(** [POST /api/login] *)
Definition login (username password : option string) (users : Users)
    (session : FlaskSession) : Response * FlaskSession :=
  match username, password with
  | Some username, Some password =>
      if bool_decide (username = "") || bool_decide (password = "") then
        ({| status_code := 400;
            body := ErrorBody "Username and password required" |}, session)
      else
        match find (fun u => bool_decide (ur_username u = username)
                             && bool_decide (ur_password_hash u = sha256 password))
                (users_rows users) with
        | Some user =>
            ({| status_code := 200;
                body := LoginBody (ur_username user) (ur_role user) |},
             {| s_user_id := Some (ur_id user);
                s_username := Some (ur_username user);
                s_role := Some (ur_role user) |})
        | None =>
            ({| status_code := 401; body := ErrorBody "Invalid credentials" |},
             session)
        end
  | _, _ =>
      ({| status_code := 400;
          body := ErrorBody "Username and password required" |}, session)
  end.

(** [POST /api/logout] *)
Definition logout (session : FlaskSession) : Response * FlaskSession :=
  ({| status_code := 200; body := SuccessBody |}, empty_session).

(** [POST /api/register]; the [IntegrityError] is the violation of
    [UNIQUE] on the username. *)
Definition register (username password role : option string) (users : Users)
    : Response * Users :=
  let role := default "user" role in
  match username, password with
  | Some username, Some password =>
      if bool_decide (username = "") || bool_decide (password = "") then
        ({| status_code := 400;
            body := ErrorBody "Username and password required" |}, users)
      else if username_taken users username then
        ({| status_code := 400; body := ErrorBody "Username already exists" |},
         users)
      else
        ({| status_code := 200; body := MessageBody "User registered successfully" |},
         insert_user users username (sha256 password) role)
  | _, _ =>
      ({| status_code := 400;
          body := ErrorBody "Username and password required" |}, users)
  end.
End accounts.

(** The usernames are pairwise different and the keys are not above the
    counter, as [UNIQUE] and [AUTOINCREMENT] keep them. *)
Definition users_ok (users : Users) : Prop :=
  NoDup (map ur_username (users_rows users))
  /\ Forall (fun u => ur_id u <= users_seq users) (users_rows users).

(** * Properties *)

(** ** The result monad *)

Lemma bind_Ok_inv {A B} (m : Result A) (f : A -> Result B) (b : B) :
  (m ≫= f) = Ok b -> exists a, m = Ok a /\ f a = Ok b.
Proof. destruct m as [a| |]; simpl; [eauto | discriminate..]. Qed.

Lemma bind_Ok_eq {A B} (m : Result A) (f : A -> Result B) (a : A) :
  m = Ok a -> (m ≫= f) = f a.
Proof. intros ->. reflexivity. Qed.

Ltac inv_bind H :=
  let a := fresh "a" in
  let Ha := fresh "Ha" in
  apply bind_Ok_inv in H; destruct H as (a & Ha & H).

(** ** Dictionary laws *)

Section dict_laws.
Context {K : Type} `{EqDecision K} {V : Type}.
Implicit Types (d : list (K * V)) (k : K) (v : V).

Lemma get_set_eq d k v : Dict.get (Dict.set d k v) k = Some v.
Proof.
  induction d as [|[k' v'] d IH]; simpl.
  - destruct (decide (k = k)); congruence.
  - destruct (decide (k' = k)) as [->|Hne]; simpl.
    + destruct (decide (k = k)); congruence.
    + destruct (decide (k' = k)); congruence.
Qed.

Lemma get_set_ne d k k' v : k <> k' -> Dict.get (Dict.set d k v) k' = Dict.get d k'.
Proof.
  intros Hne. induction d as [|[k0 v0] d IH]; simpl.
  - destruct (decide (k = k')); congruence.
  - destruct (decide (k0 = k)) as [->|Hk0]; simpl.
    + destruct (decide (k = k')); congruence.
    + destruct (decide (k0 = k')); congruence.
Qed.

Lemma get_Some_elem d k v : Dict.get d k = Some v -> (k, v) ∈ d.
Proof.
  induction d as [|[k0 v0] d IH]; simpl; [discriminate|].
  destruct (decide (k0 = k)) as [->|Hne]; intros Hg.
  - injection Hg as ->. left.
  - right. auto.
Qed.

Lemma get_None_fresh d k v : Dict.get d k = None -> (k, v) ∉ d.
Proof.
  induction d as [|[k0 v0] d IH]; simpl; intros Hg Hin.
  - inversion Hin.
  - destruct (decide (k0 = k)) as [->|Hne]; [discriminate|].
    apply elem_of_cons in Hin as [Heq|Hin]; [congruence | exact (IH Hg Hin)].
Qed.

Lemma elem_get_is_Some d k v : (k, v) ∈ d -> is_Some (Dict.get d k).
Proof.
  intros Hin. destruct (Dict.get d k) eqn:E; [eauto|].
  exfalso. exact (get_None_fresh _ _ v E Hin).
Qed.

(** Storing under a fresh key appends. *)
Lemma set_fresh d k v : Dict.get d k = None -> Dict.set d k v = d ++ [(k, v)].
Proof.
  induction d as [|[k0 v0] d IH]; simpl; [reflexivity|].
  destruct (decide (k0 = k)); [discriminate|]. intros Hg. by rewrite IH.
Qed.

(** Storing under a present key replaces the first binding in place. *)
Lemma set_present d k v0 v :
  Dict.get d k = Some v0 ->
  exists d1 d2, d = d1 ++ (k, v0) :: d2 /\ Dict.set d k v = d1 ++ (k, v) :: d2.
Proof.
  induction d as [|[k0 w] d IH]; simpl; [discriminate|].
  destruct (decide (k0 = k)) as [->|Hne]; intros Hg.
  - injection Hg as ->. by exists [], d.
  - destruct (IH Hg) as (d1 & d2 & -> & ->). by exists ((k0, w) :: d1), d2.
Qed.

Lemma keys_set_present d k v :
  is_Some (Dict.get d k) -> Dict.keys (Dict.set d k v) = Dict.keys d.
Proof.
  intros [v0 Hg]. destruct (set_present d k v0 v Hg) as (d1 & d2 & -> & ->).
  unfold Dict.keys. by rewrite !map_app.
Qed.

(** The dictionary built by storing the same value under each key of [l]. *)
Lemma get_fold_set_const (l : list K) v d k :
  Dict.get (fold_left (fun d x => Dict.set d x v) l d) k
  = if bool_decide (k ∈ l) then Some v else Dict.get d k.
Proof.
  revert d. induction l as [|x l IH]; intros d; simpl.
  - reflexivity.
  - rewrite IH. destruct (decide (k = x)) as [->|Hne].
    + rewrite get_set_eq. rewrite (bool_decide_eq_true_2 (x ∈ x :: l)) by left.
      by destruct (bool_decide (x ∈ l)).
    + rewrite get_set_ne by congruence.
      destruct (bool_decide (k ∈ l)) eqn:E.
      * apply bool_decide_eq_true_1 in E.
        rewrite (bool_decide_eq_true_2 (k ∈ x :: l)); [done | by right].
      * apply bool_decide_eq_false_1 in E.
        rewrite (bool_decide_eq_false_2 (k ∈ x :: l)); [done|].
        intros [?|?]%elem_of_cons; congruence.
Qed.

Lemma set_values_const d k v :
  Forall (fun e => e.2 = v) d -> Forall (fun e => e.2 = v) (Dict.set d k v).
Proof.
  induction d as [|[k0 w] d IH]; simpl; intros Hall.
  - by constructor.
  - inversion Hall; subst. destruct (decide (k0 = k)); constructor; auto.
Qed.

Lemma fold_set_values_const (l : list K) v d :
  Forall (fun e => e.2 = v) d ->
  Forall (fun e => e.2 = v) (fold_left (fun d x => Dict.set d x v) l d).
Proof.
  revert d. induction l as [|x l IH]; intros d Hd; simpl; [done|].
  apply IH. by apply set_values_const.
Qed.
End dict_laws.

(** ** Class identifiers

    [class_id] glues subject, batch name and room name with underscores.
    Batch and room names are ["Batch n"] and ["Room n"]: they hold no
    underscore, so the last two underscores of an identifier delimit them,
    whatever the subject string is. *)

Lemma append_nil (b : string) : "" +:+ b = b.
Proof. reflexivity. Qed.

Lemma append_cons (c : ascii) (a b : string) : String c a +:+ b = String c (a +:+ b).
Proof. reflexivity. Qed.

Lemma has_underscore_app (a b : string) :
  has_underscore (a +:+ b) = has_underscore a || has_underscore b.
Proof.
  induction a as [|c a IH]; [reflexivity|].
  rewrite append_cons. simpl. rewrite IH. by rewrite orb_assoc.
Qed.

Lemma append_assoc (a b c : string) : (a +:+ b) +:+ c = a +:+ (b +:+ c).
Proof.
  induction a as [|x a IH]; [reflexivity|].
  rewrite !append_cons. f_equal. exact IH.
Qed.

(** A string is cut in one way only at its last underscore. *)
Lemma split_last_underscore (p p' r r' : string) :
  has_underscore r = false -> has_underscore r' = false ->
  p +:+ String "_" r = p' +:+ String "_" r' -> p = p' /\ r = r'.
Proof.
  intros Hr Hr'. revert p'.
  induction p as [|c p IH]; intros [|c' p'];
    rewrite ?append_nil, ?append_cons; intros Heq.
  - injection Heq as ->. done.
  - injection Heq as <- ->.
    rewrite has_underscore_app in Hr. simpl in Hr.
    rewrite orb_true_r in Hr. discriminate.
  - injection Heq as -> <-.
    rewrite has_underscore_app in Hr'. simpl in Hr'.
    rewrite orb_true_r in Hr'. discriminate.
  - injection Heq as -> Heq. destruct (IH _ Heq) as [-> ->]. done.
Qed.

Lemma has_underscore_uint (d : Decimal.uint) :
  has_underscore (NilEmpty.string_of_uint d) = false.
Proof. induction d; simpl; auto. Qed.

Lemma has_underscore_str (n : Z) : has_underscore (str n) = false.
Proof.
  unfold str, NilZero.string_of_int, NilZero.string_of_uint.
  destruct (Z.to_int n) as [d|d]; destruct d; simpl;
    auto using has_underscore_uint.
Qed.

Lemma has_underscore_room (n : Z) : has_underscore ("Room " +:+ str n) = false.
Proof. rewrite has_underscore_app, has_underscore_str. reflexivity. Qed.

Lemma has_underscore_batch (n : Z) : has_underscore ("Batch " +:+ str n) = false.
Proof. rewrite has_underscore_app, has_underscore_str. reflexivity. Qed.

(** [class_id] is injective on well-formed batch and room names. *)
Lemma class_id_inj (s b r s' b' r' : string) :
  has_underscore b = false -> has_underscore r = false ->
  has_underscore b' = false -> has_underscore r' = false ->
  class_id s b r = class_id s' b' r' -> s = s' /\ b = b' /\ r = r'.
Proof.
  intros Hb Hr Hb' Hr'. unfold class_id. intros Heq.
  change (s +:+ String "_" (b +:+ String "_" r)
          = s' +:+ String "_" (b' +:+ String "_" r')) in Heq.
  change (String "_" (b +:+ String "_" r))
    with (String "_" b +:+ String "_" r) in Heq.
  change (String "_" (b' +:+ String "_" r'))
    with (String "_" b' +:+ String "_" r') in Heq.
  rewrite <- !append_assoc in Heq.
  apply split_last_underscore in Heq as [Heq ->]; [|done..].
  apply split_last_underscore in Heq as [-> ->]; done.
Qed.

(** ** Nested dictionaries *)

Section nested_laws.
Context {K1 K2 V : Type} `{EqDecision K1, EqDecision K2}.
Implicit Types (d : dict K1 (dict K2 V)).

Lemma getitem_Ok {K W} `{EqDecision K} (d : dict K W) k v :
  Dict.getitem d k = Ok v <-> Dict.get d k = Some v.
Proof.
  unfold Dict.getitem. destruct (Dict.get d k); split; intros Heq;
    try discriminate; congruence.
Qed.

Lemma getitem_set_eq {K W} `{EqDecision K} (d : dict K W) k v :
  Dict.getitem (Dict.set d k v) k = Ok v.
Proof. unfold Dict.getitem. by rewrite get_set_eq. Qed.

Lemma getitem_set_ne {K W} `{EqDecision K} (d : dict K W) k k' v :
  k <> k' -> Dict.getitem (Dict.set d k v) k' = Dict.getitem d k'.
Proof. intros Hne. unfold Dict.getitem. by rewrite get_set_ne. Qed.

Lemma getitem2_Ok d a b v :
  getitem2 d a b = Ok v <->
  exists inner, Dict.get d a = Some inner /\ Dict.get inner b = Some v.
Proof.
  unfold getitem2. split.
  - intros Hg. inv_bind Hg. apply getitem_Ok in Ha, Hg. eauto.
  - intros (inner & Ha & Hb). apply getitem_Ok in Ha, Hb.
    rewrite (bind_Ok_eq _ _ _ Ha). exact Hb.
Qed.

Lemma setitem2_returns d a b v w :
  getitem2 d a b = Ok v -> returns (setitem2 d a b w).
Proof.
  intros (inner & Ha & _)%getitem2_Ok. unfold setitem2.
  apply getitem_Ok in Ha. rewrite (bind_Ok_eq _ _ _ Ha). by eexists.
Qed.

Lemma getitem2_setitem2_eq d d' a b w :
  setitem2 d a b w = Ok d' -> getitem2 d' a b = Ok w.
Proof.
  unfold setitem2. intros Hs. inv_bind Hs. injection Hs as <-.
  apply getitem2_Ok. eexists. split; apply get_set_eq.
Qed.

Lemma getitem2_setitem2_ne d d' a b a' b' w :
  setitem2 d a b w = Ok d' -> (a, b) <> (a', b') ->
  getitem2 d' a' b' = getitem2 d a' b'.
Proof.
  unfold setitem2. intros Hs Hne. inv_bind Hs. injection Hs as <-.
  unfold getitem2. destruct (decide (a = a')) as [<-|Ha'].
  - rewrite getitem_set_eq, Ha. simpl.
    apply getitem_set_ne. congruence.
  - by rewrite getitem_set_ne.
Qed.
End nested_laws.

(** ** Views of the grid *)

Lemma sum_from (l : list Z) (a : Z) : fold_left Z.add l a = a + sum l.
Proof.
  unfold sum. revert a. induction l as [|x l IH]; intros a; simpl; [lia|].
  rewrite (IH (a + x)), (IH (0 + x)). lia.
Qed.

Lemma sum_cons (x : Z) (l : list Z) : sum (x :: l) = x + sum l.
Proof. unfold sum. simpl. rewrite sum_from. unfold sum. lia. Qed.

Lemma sum_app (l1 l2 : list Z) : sum (l1 ++ l2) = sum l1 + sum l2.
Proof.
  induction l1 as [|x l1 IH]; simpl; [reflexivity|].
  rewrite !sum_cons, IH. lia.
Qed.

Lemma grid_size_sessions (sch : grid) :
  grid_size sch = Z.of_nat (length (all_sessions sch)).
Proof.
  unfold grid_size, all_sessions, grid_entries. rewrite length_map.
  induction sch as [|[day slots] sch IH]; simpl; [reflexivity|].
  rewrite sum_app, length_app, IH, Nat2Z.inj_add. f_equal.
  clear IH. unfold day_entries. simpl.
  induction slots as [|[slot cell] slots IH]; simpl; [reflexivity|].
  rewrite sum_cons, length_app, IH, Nat2Z.inj_add.
  unfold Dict.len, slot_entries. simpl. by rewrite length_map.
Qed.

(** Storing [y] under [k] adds one element [b] to a flattened view, provided
    it adds [b] to the image of the entry under [k]. *)
Lemma flat_map_set_perm {K V B} `{EqDecision K}
    (f : K * V -> list B) (d : dict K V) (k : K) (y : V) (b : B) :
  f (k, y) ≡ₚ b :: match Dict.get d k with Some x => f (k, x) | None => [] end ->
  flat_map f (Dict.set d k y) ≡ₚ b :: flat_map f d.
Proof.
  intros Hf. destruct (Dict.get d k) as [x|] eqn:Hg.
  - destruct (set_present d k x y Hg) as (d1 & d2 & -> & ->).
    rewrite !flat_map_app. simpl. rewrite Hf. simpl.
    symmetry. apply Permutation_middle.
  - rewrite (set_fresh d k y Hg), flat_map_app. simpl.
    rewrite Hf. simpl. symmetry. apply Permutation_cons_append.
Qed.

(** ** Committing a session to the grid *)

Lemma values_default {K V} (o : option (dict K V)) :
  Dict.values (default [] o)
  = match o with Some x => Dict.values x | None => [] end.
Proof. by destruct o. Qed.

Section commit.
Variables (sch : grid) (slots : dict string (dict string Session)).
Variables (day slot k : string) (v : Session).
Hypothesis Hday : Dict.get sch day = Some slots.
Hypothesis Hfresh : Dict.get (cell_at sch day slot) k = None.

Let cell := default [] (Dict.get slots slot).
Let sch' := Dict.set sch day (Dict.set slots slot (Dict.set cell k v)).

Lemma commit_cell_eq : cell_at sch day slot = cell.
Proof. unfold cell_at. by rewrite Hday. Qed.

Lemma commit_cell_here : cell_at sch' day slot = cell_at sch day slot ++ [(k, v)].
Proof.
  rewrite commit_cell_eq. unfold cell_at, sch'.
  rewrite !get_set_eq. simpl. apply set_fresh.
  rewrite <- commit_cell_eq. exact Hfresh.
Qed.

Lemma commit_cell_other d s :
  (d, s) <> (day, slot) -> cell_at sch' d s = cell_at sch d s.
Proof.
  intros Hne. unfold cell_at, sch'.
  destruct (decide (day = d)) as [<-|Hd].
  - rewrite get_set_eq, Hday. rewrite get_set_ne; [done | congruence].
  - by rewrite get_set_ne.
Qed.

Lemma commit_days d : is_Some (Dict.get sch' d) <-> is_Some (Dict.get sch d).
Proof.
  unfold sch'. destruct (decide (day = d)) as [<-|Hd].
  - rewrite get_set_eq, Hday. split; eauto.
  - by rewrite get_set_ne.
Qed.

Lemma commit_day_entries :
  day_entries (day, Dict.set slots slot (Dict.set cell k v))
  ≡ₚ (day, slot, v) :: day_entries (day, slots).
Proof.
  unfold day_entries. simpl. apply flat_map_set_perm. unfold slot_entries. simpl.
  assert (Hc : Dict.get cell k = None) by (rewrite <- commit_cell_eq; exact Hfresh).
  rewrite (set_fresh _ _ v Hc), map_app. simpl.
  rewrite <- Permutation_cons_append. subst cell.
  destruct (Dict.get slots slot); reflexivity.
Qed.

Lemma commit_entries : grid_entries sch' ≡ₚ (day, slot, v) :: grid_entries sch.
Proof.
  apply flat_map_set_perm. rewrite Hday. apply commit_day_entries.
Qed.

Lemma commit_sessions_here : sessions_on sch' day ≡ₚ v :: sessions_on sch day.
Proof.
  unfold sessions_on. rewrite commit_entries, filter_cons. simpl.
  by destruct (decide (day = day)).
Qed.

Lemma commit_sessions_other d : d <> day -> sessions_on sch' d ≡ₚ sessions_on sch d.
Proof.
  intros Hne. unfold sessions_on. rewrite commit_entries, filter_cons. simpl.
  destruct (decide (day = d)); [congruence | done].
Qed.

Lemma commit_all_sessions : all_sessions sch' ≡ₚ v :: all_sessions sch.
Proof. unfold all_sessions. by rewrite commit_entries. Qed.
End commit.

Lemma taught_by_cons (f : string) (v : Session) (l : list Session) :
  taught_by f (v :: l)
  = if bool_decide (faculty v = f) then S (taught_by f l) else taught_by f l.
Proof.
  unfold taught_by. rewrite filter_cons.
  destruct (decide (faculty v = f)) as [Heq|Hne].
  - by rewrite bool_decide_eq_true_2.
  - by rewrite bool_decide_eq_false_2.
Qed.

#[global] Instance taught_by_perm (f : string) :
  Proper (Permutation ==> eq) (taught_by f).
Proof. intros l1 l2 Hp. unfold taught_by. by rewrite Hp. Qed.



(** The entries found by looking a cell up are entries of the grid. *)
Lemma cell_in_entries (sch : grid) (day slot k : string) (s : Session) :
  (k, s) ∈ cell_at sch day slot -> (day, slot, s) ∈ grid_entries sch.
Proof.
  unfold cell_at, grid_entries.
  destruct (Dict.get sch day) as [slots|] eqn:Hd; [|by intros ?%elem_of_nil].
  destruct (Dict.get slots slot) as [cell|] eqn:Hs; [|by intros ?%elem_of_nil].
  simpl. intros Hin. apply list_elem_of_In, in_flat_map.
  exists (day, slots). split; [by apply list_elem_of_In, get_Some_elem|].
  unfold day_entries. simpl. apply in_flat_map.
  exists (slot, cell). split; [by apply list_elem_of_In, get_Some_elem|].
  unfold slot_entries. simpl. apply list_elem_of_In.
  change (day, slot, s) with ((fun kv : string * Session => (day, slot, kv.2)) (k, s)).
  by apply list_elem_of_fmap_2.
Qed.


(** ** Dictionaries built by the initialisation loops *)

Lemma get_None_keys {K V} `{EqDecision K} (d : dict K V) (k : K) :
  k ∉ Dict.keys d -> Dict.get d k = None.
Proof.
  intros Hk. destruct (Dict.get d k) as [v|] eqn:Hg; [|reflexivity].
  exfalso. apply Hk. apply get_Some_elem in Hg. unfold Dict.keys.
  change k with (fst (k, v)). by apply list_elem_of_fmap_2.
Qed.

Lemma keys_fold_set_const {K V} `{EqDecision K} (l : list K) (c : V) (d : dict K V) :
  NoDup l -> (forall x, x ∈ l -> x ∉ Dict.keys d) ->
  Dict.keys (fold_left (fun d x => Dict.set d x c) l d) = Dict.keys d ++ l.
Proof.
  revert d. induction l as [|x l IH]; intros d Hnd Hfresh; simpl.
  - by rewrite app_nil_r.
  - apply NoDup_cons in Hnd as [Hx Hnd].
    rewrite set_fresh by (apply get_None_keys, Hfresh; left).
    rewrite IH; [| done |].
    + unfold Dict.keys. rewrite map_app. simpl. by rewrite <- app_assoc.
    + intros y Hy. unfold Dict.keys. rewrite map_app. simpl.
      intros [Hin|Hin]%elem_of_app.
      * apply (Hfresh y); [by right | exact Hin].
      * apply list_elem_of_singleton in Hin as ->. exact (Hx Hy).
Qed.

Lemma flat_map_all_nil {A B} (f : A -> list B) (l : list A) :
  Forall (fun a => f a = []) l -> flat_map f l = [].
Proof.
  induction 1 as [|a l Ha _ IH]; simpl; [reflexivity|]. by rewrite Ha, IH.
Qed.

Lemma sum_all_zero (l : list Z) : Forall (fun x => x = 0) l -> sum l = 0.
Proof.
  induction 1 as [|x l Hx _ IH]; [reflexivity|]. rewrite sum_cons. lia.
Qed.

(** ** The invariant of the placement loop *)

Section invariant.
Variable self : ScheduleOptimizer.
Variable rnd : nat -> nat.

Lemma faculty_names_NoDup : NoDup faculty_names.
Proof. apply (bool_decide_eq_true_1 (NoDup faculty_names)). vm_compute. reflexivity. Qed.

Lemma faculty_pool_NoDup : NoDup (faculty_pool self).
Proof.
  unfold faculty_pool, slice_to.
  destruct (0 <=? faculty_count self);
    eapply sublist_NoDup; eauto using sublist_take, faculty_names_NoDup.
Qed.

Lemma initial_cell day slot : cell_at (schedule (initial_locals self)) day slot = [].
Proof.
  unfold cell_at. simpl. rewrite get_fold_set_const.
  destruct (bool_decide (day ∈ days self)); reflexivity.
Qed.

Lemma initial_entries : grid_entries (schedule (initial_locals self)) = [].
Proof.
  unfold grid_entries. simpl. apply flat_map_all_nil.
  eapply Forall_impl; [apply (fold_set_values_const (days self) []); constructor|].
  intros [d s]; simpl. by intros ->.
Qed.

Lemma initial_all_sessions : all_sessions (schedule (initial_locals self)) = [].
Proof. unfold all_sessions. by rewrite initial_entries. Qed.

Lemma initial_sessions_on day : sessions_on (schedule (initial_locals self)) day = [].
Proof. unfold sessions_on. by rewrite initial_entries. Qed.

Lemma initial_room_usage day slot :
  day ∈ days self -> slot ∈ time_slots self ->
  getitem2 (room_usage (initial_locals self)) day slot = Ok ∅
  /\ getitem2 (batch_schedule (initial_locals self)) day slot = Ok ∅.
Proof.
  intros Hd Hs. split; apply getitem2_Ok; exists (empty_slots self); simpl;
    unfold empty_slots; do 2 rewrite get_fold_set_const;
    by rewrite !bool_decide_eq_true_2.
Qed.

Lemma initial_faculty_load f per_day :
  Dict.get (faculty_load (initial_locals self)) f = Some per_day ->
  f ∈ faculty_pool self
  /\ per_day = fold_left (fun e day => Dict.set e day 0) (days self) [].
Proof.
  simpl. rewrite get_fold_set_const.
  destruct (bool_decide (f ∈ faculty_pool self)) eqn:E; [|discriminate].
  apply bool_decide_eq_true_1 in E. intros [= <-]. done.
Qed.

Lemma initial_per_day_zero :
  sum (Dict.values (fold_left (fun e day => Dict.set e day 0) (days self)
                              ([] : dict string Z))) = 0.
Proof.
  apply sum_all_zero. unfold Dict.values. apply Forall_map.
  apply (fold_set_values_const (days self) 0). constructor.
Qed.

Lemma initial_Inv : Inv self (initial_locals self).
Proof.
  split.
  - intros day. simpl. rewrite get_fold_set_const.
    destruct (bool_decide (day ∈ days self)) eqn:E.
    + apply bool_decide_eq_true_1 in E. split; eauto.
    + apply bool_decide_eq_false_1 in E. split; [done | by intros [? [=]]].
  - intros day slot Hd Hs. destruct (initial_room_usage day slot Hd Hs) as [-> _].
    by eexists.
  - intros day slot Hd Hs. destruct (initial_room_usage day slot Hd Hs) as [_ ->].
    by eexists.
  - intros f day Hf Hd. exists 0. rewrite initial_sessions_on.
    split; [|split; [reflexivity | lia]].
    apply getitem2_Ok. eexists. simpl. do 2 rewrite get_fold_set_const.
    by rewrite !bool_decide_eq_true_2.
  - intros day slot k v. rewrite initial_cell. by intros ?%elem_of_nil.
  - intros day slot. rewrite initial_cell. constructor.
  - intros day slot. rewrite initial_cell. constructor.
  - intros day slot. rewrite initial_cell. constructor.
  - intros d s v. rewrite initial_entries. by intros ?%elem_of_nil.
  - unfold room_bookings. rewrite initial_entries. constructor.
  - unfold batch_bookings. rewrite initial_entries. constructor.
  - intros s. rewrite initial_all_sessions. by intros ?%elem_of_nil.
  - rewrite initial_all_sessions. reflexivity.
  - intros f per_day [_ ->]%initial_faculty_load.
    rewrite initial_all_sessions. apply initial_per_day_zero.
  - simpl. rewrite keys_fold_set_const; [done | apply faculty_pool_NoDup |].
    intros x _. by intros ?%elem_of_nil.
  - unfold faculty_loads. apply sum_all_zero. apply Forall_map.
    apply Forall_forall. intros [f per_day] Hin. simpl.
    pose proof (fold_set_values_const (faculty_pool self)
      (fold_left (fun e day => Dict.set e day 0) (days self) ([] : dict string Z))
      [] (Forall_nil_2 _)) as Hall.
    rewrite Forall_forall in Hall. specialize (Hall _ Hin).
    simpl in Hall. rewrite Hall. apply initial_per_day_zero.
Qed.
End invariant.

(** ** One successful placement preserves the invariant *)

Lemma setitem2_Ok {K1 K2 V} `{EqDecision K1, EqDecision K2}
    (d d' : dict K1 (dict K2 V)) a b w :
  setitem2 d a b w = Ok d' <->
  exists inner, Dict.get d a = Some inner /\ d' = Dict.set d a (Dict.set inner b w).
Proof.
  unfold setitem2. split.
  - intros Hs. inv_bind Hs. apply getitem_Ok in Ha. injection Hs as <-. eauto.
  - intros (inner & Ha & ->). apply getitem_Ok in Ha.
    by rewrite (bind_Ok_eq _ _ _ Ha).
Qed.

Lemma sum_values_set (d : dict string Z) (k : string) (n m : Z) :
  Dict.get d k = Some n ->
  sum (Dict.values (Dict.set d k m)) = sum (Dict.values d) - n + m.
Proof.
  intros Hg. destruct (set_present d k n m Hg) as (d1 & d2 & -> & ->).
  unfold Dict.values. rewrite !map_app. simpl. rewrite !sum_app, !sum_cons. lia.
Qed.

Lemma faculty_busy_cell (st : Locals) (day slot f : string) :
  faculty_busy st day slot f
  = existsb (fun c => bool_decide (faculty c = f))
            (Dict.values (cell_at (schedule st) day slot)).
Proof.
  unfold faculty_busy, cell_at.
  destruct (Dict.get (schedule st) day) as [slots|]; [|reflexivity].
  destruct (Dict.get slots slot); reflexivity.
Qed.

Lemma faculty_busy_false (st : Locals) (day slot f : string) :
  faculty_busy st day slot f = false ->
  forall k v, (k, v) ∈ cell_at (schedule st) day slot -> faculty v <> f.
Proof.
  rewrite faculty_busy_cell. intros Hb k v Hin Heq.
  assert (Hex : existsb (fun c => bool_decide (faculty c = f))
                  (Dict.values (cell_at (schedule st) day slot)) = true).
  { apply existsb_exists. exists v. split.
    - apply list_elem_of_In. unfold Dict.values.
      change v with (snd (k, v)). by apply list_elem_of_fmap_2.
    - by apply bool_decide_eq_true_2. }
  congruence.
Qed.

Lemma values_snoc {K V} (d : dict K V) (k : K) (v : V) :
  Dict.values (d ++ [(k, v)]) = Dict.values d ++ [v].
Proof. unfold Dict.values. by rewrite map_app. Qed.

Lemma NoDup_snoc_fresh {A} (l : list A) (x : A) :
  NoDup l -> x ∉ l -> NoDup (l ++ [x]).
Proof.
  intros Hl Hx. apply NoDup_app. split; [done|]. split.
  - intros y Hy ->%list_elem_of_singleton. done.
  - apply NoDup_singleton.
Qed.

Lemma elem_of_map_values {B} (g : Session -> B) (cell : dict string Session) (y : B) :
  y ∈ map g (Dict.values cell) -> exists k v, (k, v) ∈ cell /\ y = g v.
Proof.
  intros (v & -> & Hv)%list_elem_of_fmap.
  unfold Dict.values in Hv. apply list_elem_of_fmap in Hv as ([k v'] & -> & Hin).
  eauto.
Qed.

Section commit_invariant.
Variable self : ScheduleOptimizer.
Variables (st : Locals) (subject_name day slot room_name batch_name faculty_name : string).
Variables (R B : gset string) (n : Z).
Variables (slots : dict string (dict string Session)).
Variables (ru' bs' : dict string (dict string (gset string))).
Variable fl' : dict string (dict string Z).

Hypothesis Hinv : Inv self st.
Hypothesis Hday : day ∈ days self.
Hypothesis Hslot : slot ∈ time_slots self.
Hypothesis Hroom_wf : has_underscore room_name = false.
Hypothesis Hbatch_wf : has_underscore batch_name = false.
Hypothesis Hfac : faculty_name ∈ faculty_pool self.
Hypothesis HR : getitem2 (room_usage st) day slot = Ok R.
Hypothesis HB : getitem2 (batch_schedule st) day slot = Ok B.
Hypothesis Hn : getitem2 (faculty_load st) faculty_name day = Ok n.
Hypothesis Hroom_free : room_name ∉ R.
Hypothesis Hbatch_free : batch_name ∉ B.
Hypothesis Hload : n < max_daily_load self.
Hypothesis Hbusy : faculty_busy st day slot faculty_name = false.
Hypothesis Hslots : Dict.get (schedule st) day = Some slots.
Hypothesis Hru' : setitem2 (room_usage st) day slot ({[ room_name ]} ∪ R) = Ok ru'.
Hypothesis Hbs' : setitem2 (batch_schedule st) day slot ({[ batch_name ]} ∪ B) = Ok bs'.
Hypothesis Hfl' : setitem2 (faculty_load st) faculty_name day (n + 1) = Ok fl'.

Let session : Session :=
  {| subject := subject_name; room := room_name;
     batch := batch_name; faculty := faculty_name |}.
Let key : string := class_id subject_name batch_name room_name.
Let sch' : grid :=
  Dict.set (schedule st) day
    (Dict.set slots slot (Dict.set (default [] (Dict.get slots slot)) key session)).
Let st' : Locals :=
  {| schedule := sch'; room_usage := ru'; faculty_load := fl';
     batch_schedule := bs'; conflicts := conflicts st; total := total st + 1;
     rng_pos := rng_pos st |}.

Lemma commit_rooms_at_old : rooms_at st day slot = R.
Proof. unfold rooms_at. by rewrite HR. Qed.

Lemma commit_batches_at_old : batches_at st day slot = B.
Proof. unfold batches_at. by rewrite HB. Qed.

(** The new identifier is not yet a key of the cell: an equal key would
    belong to a session of the same batch in the same room. *)
Lemma commit_key_fresh : Dict.get (cell_at (schedule st) day slot) key = None.
Proof.
  destruct (Dict.get (cell_at (schedule st) day slot) key) as [v|] eqn:Hg;
    [|reflexivity].
  exfalso. apply get_Some_elem in Hg.
  destruct (inv_cell _ _ Hinv _ _ _ _ Hg) as (Hk & Hbw & Hrw & Hr & Hb).
  apply class_id_inj in Hk as (_ & Hbeq & _); [|done..].
  apply Hbatch_free. rewrite <- commit_batches_at_old, Hbeq. exact Hb.
Qed.

Lemma commit_rooms_at d s :
  rooms_at st' d s
  = if bool_decide ((day, slot) = (d, s)) then {[ room_name ]} ∪ R else rooms_at st d s.
Proof.
  unfold rooms_at. simpl. case_bool_decide as Heq.
  - injection Heq as <- <-. by rewrite (getitem2_setitem2_eq _ _ _ _ _ Hru').
  - by rewrite (getitem2_setitem2_ne _ _ _ _ _ _ _ Hru' Heq).
Qed.

Lemma commit_batches_at d s :
  batches_at st' d s
  = if bool_decide ((day, slot) = (d, s)) then {[ batch_name ]} ∪ B else batches_at st d s.
Proof.
  unfold batches_at. simpl. case_bool_decide as Heq.
  - injection Heq as <- <-. by rewrite (getitem2_setitem2_eq _ _ _ _ _ Hbs').
  - by rewrite (getitem2_setitem2_ne _ _ _ _ _ _ _ Hbs' Heq).
Qed.

Lemma commit_cell d s :
  cell_at sch' d s
  = if bool_decide ((day, slot) = (d, s))
    then cell_at (schedule st) day slot ++ [(key, session)]
    else cell_at (schedule st) d s.
Proof.
  case_bool_decide as Heq.
  - injection Heq as <- <-. apply commit_cell_here; [exact Hslots | exact commit_key_fresh].
  - apply commit_cell_other; [exact Hslots | congruence].
Qed.
Lemma commit_load_inner :
  exists inner, Dict.get (faculty_load st) faculty_name = Some inner
    /\ Dict.get inner day = Some n
    /\ fl' = Dict.set (faculty_load st) faculty_name (Dict.set inner day (n + 1)).
Proof.
  destruct (proj1 (setitem2_Ok _ _ _ _ _) Hfl') as (inner & Hg & Heq).
  destruct (proj1 (getitem2_Ok _ _ _ _) Hn) as (inner' & Hg' & Hd).
  exists inner. split; [done|]. split; [congruence | done].
Qed.

Lemma commit_sessions_on d :
  sessions_on sch' d
  ≡ₚ if bool_decide (d = day) then session :: sessions_on (schedule st) d
     else sessions_on (schedule st) d.
Proof.
  case_bool_decide as Heq.
  - subst d. apply commit_sessions_here; [exact Hslots | exact commit_key_fresh].
  - apply commit_sessions_other; [exact Hslots | exact commit_key_fresh | exact Heq].
Qed.

Lemma commit_grid_entries :
  grid_entries sch' ≡ₚ (day, slot, session) :: grid_entries (schedule st).
Proof. apply commit_entries; [exact Hslots | exact commit_key_fresh]. Qed.

Lemma commit_all : all_sessions sch' ≡ₚ session :: all_sessions (schedule st).
Proof. apply commit_all_sessions; [exact Hslots | exact commit_key_fresh]. Qed.

Lemma commit_taught_on f d :
  taught_by f (sessions_on sch' d)
  = if bool_decide (d = day) && bool_decide (faculty_name = f)
    then S (taught_by f (sessions_on (schedule st) d))
    else taught_by f (sessions_on (schedule st) d).
Proof.
  rewrite (commit_sessions_on d). case_bool_decide; [|reflexivity].
  by rewrite taught_by_cons.
Qed.

Lemma commit_taught_all f :
  taught_by f (all_sessions sch')
  = if bool_decide (faculty_name = f)
    then S (taught_by f (all_sessions (schedule st)))
    else taught_by f (all_sessions (schedule st)).
Proof. rewrite commit_all. by rewrite taught_by_cons. Qed.

Lemma commit_Inv : Inv self st'.
Proof.
  split.
  - intros d. rewrite (inv_days _ _ Hinv d). symmetry.
    apply commit_days. exact Hslots.
  - intros d s Hd Hs. simpl.
    destruct (decide ((day, slot) = (d, s))) as [[= <- <-]|Hne].
    + rewrite (getitem2_setitem2_eq _ _ _ _ _ Hru'). by eexists.
    + rewrite (getitem2_setitem2_ne _ _ _ _ _ _ _ Hru' Hne).
      by apply (inv_rooms _ _ Hinv).
  - intros d s Hd Hs. simpl.
    destruct (decide ((day, slot) = (d, s))) as [[= <- <-]|Hne].
    + rewrite (getitem2_setitem2_eq _ _ _ _ _ Hbs'). by eexists.
    + rewrite (getitem2_setitem2_ne _ _ _ _ _ _ _ Hbs' Hne).
      by apply (inv_batches _ _ Hinv).
  - intros f d Hf Hd. simpl.
    destruct (inv_loads _ _ Hinv f d Hf Hd) as (n0 & Hn0 & Hcount & Hmax).
    rewrite (commit_taught_on f d).
    destruct (decide ((faculty_name, day) = (f, d))) as [[= <- <-]|Hne].
    + exists (n + 1). rewrite (getitem2_setitem2_eq _ _ _ _ _ Hfl').
      rewrite !bool_decide_eq_true_2 by done. simpl.
      assert (n0 = n) by congruence. subst n0.
      split; [done|]. split; lia.
    + exists n0. rewrite (getitem2_setitem2_ne _ _ _ _ _ _ _ Hfl' Hne).
      split; [done|]. split; [|done].
      case_bool_decide as Hd'; [|done].
      rewrite bool_decide_eq_false_2; [done | congruence].
  - intros d s k v. rewrite commit_cell, commit_rooms_at, commit_batches_at.
    case_bool_decide as Heq; [|apply (inv_cell _ _ Hinv)].
    injection Heq as <- <-.
    intros [Hin|Hin]%elem_of_app.
    + destruct (inv_cell _ _ Hinv _ _ _ _ Hin) as (Hk & Hbw & Hrw & Hr & Hb).
      rewrite commit_rooms_at_old in Hr. rewrite commit_batches_at_old in Hb.
      repeat split; [done | done | done | set_solver | set_solver].
    + apply list_elem_of_singleton in Hin. injection Hin as -> ->.
      simpl. repeat split; [done | done | set_solver | set_solver].
  - intros d s. rewrite commit_cell.
    case_bool_decide as Heq; [|apply (inv_rooms_distinct _ _ Hinv)].
    rewrite values_snoc, map_app. simpl.
    apply NoDup_snoc_fresh; [apply (inv_rooms_distinct _ _ Hinv)|].
    intros (k & v & Hin & Hv)%elem_of_map_values.
    destruct (inv_cell _ _ Hinv _ _ _ _ Hin) as (_ & _ & _ & Hr & _).
    apply Hroom_free. rewrite <- commit_rooms_at_old, Hv. exact Hr.
  - intros d s. rewrite commit_cell.
    case_bool_decide as Heq; [|apply (inv_batches_distinct _ _ Hinv)].
    rewrite values_snoc, map_app. simpl.
    apply NoDup_snoc_fresh; [apply (inv_batches_distinct _ _ Hinv)|].
    intros (k & v & Hin & Hv)%elem_of_map_values.
    destruct (inv_cell _ _ Hinv _ _ _ _ Hin) as (_ & _ & _ & _ & Hb).
    apply Hbatch_free. rewrite <- commit_batches_at_old, Hv. exact Hb.
  - intros d s. rewrite commit_cell.
    case_bool_decide as Heq; [|apply (inv_faculty_distinct _ _ Hinv)].
    rewrite values_snoc, map_app. simpl.
    apply NoDup_snoc_fresh; [apply (inv_faculty_distinct _ _ Hinv)|].
    intros (k & v & Hin & Hv)%elem_of_map_values.
    by apply (faculty_busy_false _ _ _ _ Hbusy k v Hin).
  - intros d s v. change (schedule st') with sch'. rewrite commit_grid_entries.
    rewrite commit_rooms_at, commit_batches_at.
    intros [Heq|Hin]%elem_of_cons.
    + injection Heq as -> -> ->. rewrite bool_decide_eq_true_2 by done.
      simpl. repeat split; [done | done | set_solver | set_solver].
    + destruct (inv_entries _ _ Hinv _ _ _ Hin) as (Hd & Hs & Hr & Hb).
      split; [done|]. split; [done|].
      case_bool_decide as Heq; [|done].
      injection Heq as <- <-.
      rewrite commit_rooms_at_old in Hr. rewrite commit_batches_at_old in Hb.
      split; apply elem_of_union; by right.
  - change (schedule st') with sch'. unfold room_bookings.
    rewrite commit_grid_entries. simpl. apply NoDup_cons.
    split; [|apply (inv_room_bookings _ _ Hinv)].
    intros ([[d s] v] & Heq & Hin)%list_elem_of_fmap. simpl in Heq.
    injection Heq as <- <- Hv.
    destruct (inv_entries _ _ Hinv _ _ _ Hin) as (_ & _ & Hr & _).
    apply Hroom_free. rewrite <- commit_rooms_at_old, Hv. exact Hr.
  - change (schedule st') with sch'. unfold batch_bookings.
    rewrite commit_grid_entries. simpl. apply NoDup_cons.
    split; [|apply (inv_batch_bookings _ _ Hinv)].
    intros ([[d s] v] & Heq & Hin)%list_elem_of_fmap. simpl in Heq.
    injection Heq as <- <- Hv.
    destruct (inv_entries _ _ Hinv _ _ _ Hin) as (_ & _ & _ & Hb).
    apply Hbatch_free. rewrite <- commit_batches_at_old, Hv. exact Hb.
  - intros s. simpl. rewrite commit_all.
    intros [->|Hin]%elem_of_cons; [exact Hfac | by apply (inv_pool _ _ Hinv)].
  - simpl. rewrite commit_all. simpl. rewrite (inv_total _ _ Hinv). lia.
  - intros f per_day. simpl.
    destruct commit_load_inner as (inner & Hinner & Hnday & ->).
    rewrite (commit_taught_all f).
    destruct (decide (faculty_name = f)) as [<-|Hne].
    + rewrite get_set_eq. intros [= <-].
      rewrite (sum_values_set _ _ _ _ Hnday), (inv_weekly _ _ Hinv _ _ Hinner).
      rewrite bool_decide_eq_true_2 by done. lia.
    + rewrite get_set_ne by done. intros Hg.
      rewrite (inv_weekly _ _ Hinv _ _ Hg).
      by rewrite bool_decide_eq_false_2.
  - simpl. destruct commit_load_inner as (inner & Hinner & Hnday & ->).
    rewrite keys_set_present by eauto. apply (inv_load_keys _ _ Hinv).
  - destruct commit_load_inner as (inner & Hinner & Hnday & Heq).
    pose proof (inv_load_sum _ _ Hinv) as Hsum.
    unfold faculty_loads in *.
    change (faculty_load st') with fl'. change (total st') with (total st + 1).
    destruct (set_present _ _ _ (Dict.set inner day (n + 1)) Hinner)
      as (d1 & d2 & Hd & Hset).
    assert (Hfl : fl' = d1 ++ (faculty_name, Dict.set inner day (n + 1)) :: d2)
      by (rewrite Heq; exact Hset).
    rewrite Hfl. rewrite Hd in Hsum.
    rewrite !map_app, !sum_app in *. simpl in *.
    rewrite !sum_cons in *. rewrite (sum_values_set _ _ _ _ Hnday). lia.
Qed.
End commit_invariant.

(** ** The loop body *)

Section placement.
Variable self : ScheduleOptimizer.
Variable rnd : nat -> nat.

(** The invariant does not read the conflict list or the cursor. *)
Lemma Inv_ext (st st' : Locals) :
  schedule st' = schedule st -> room_usage st' = room_usage st ->
  faculty_load st' = faculty_load st -> batch_schedule st' = batch_schedule st ->
  total st' = total st -> Inv self st -> Inv self st'.
Proof.
  destruct st, st'. simpl. intros -> -> -> -> -> Hinv.
  destruct Hinv. split; assumption.
Qed.

Lemma place_spec subject_name day slot room_name batch_name faculty_name st :
  Inv self st ->
  day ∈ days self -> slot ∈ time_slots self ->
  has_underscore room_name = false -> has_underscore batch_name = false ->
  faculty_name ∈ faculty_pool self ->
  exists ok st',
    place self subject_name day slot room_name batch_name faculty_name st = Ok (ok, st')
    /\ Inv self st' /\ rng_pos st' = rng_pos st
    /\ step_effect subject_name ok st st'.
Proof.
  intros Hinv Hday Hslot Hrw Hbw Hfac.
  destruct (inv_rooms _ _ Hinv day slot Hday Hslot) as [R HR].
  destruct (inv_batches _ _ Hinv day slot Hday Hslot) as [B HB].
  destruct (inv_loads _ _ Hinv faculty_name day Hfac Hday) as (n & Hn & _ & _).
  destruct (proj1 (inv_days _ _ Hinv day) Hday) as [slots Hslots].
  unfold place.
  rewrite (bind_Ok_eq _ _ _ HR), (bind_Ok_eq _ _ _ HB), (bind_Ok_eq _ _ _ Hn).
  destruct (negb _) eqn:Hcan.
  - apply negb_true_iff in Hcan.
    apply orb_false_iff in Hcan as [Hcan Hbusy].
    apply orb_false_iff in Hcan as [Hcan Hload].
    apply orb_false_iff in Hcan as [Hroom Hbatch].
    apply bool_decide_eq_false_1 in Hroom, Hbatch. apply Z.leb_gt in Hload.
    destruct (setitem2_returns _ _ _ _ ({[ room_name ]} ∪ R) HR) as [ru' Hru'].
    destruct (setitem2_returns _ _ _ _ ({[ batch_name ]} ∪ B) HB) as [bs' Hbs'].
    destruct (setitem2_returns _ _ _ _ (n + 1) Hn) as [fl' Hfl'].
    assert (Hgs : Dict.getitem (schedule st) day = Ok slots) by by apply getitem_Ok.
    rewrite (bind_Ok_eq _ _ _ Hgs), (bind_Ok_eq _ _ _ Hru'),
      (bind_Ok_eq _ _ _ Hbs'), (bind_Ok_eq _ _ _ Hfl').
    eexists true, _. split; [reflexivity|]. split; [|done].
    eapply commit_Inv; eauto.
  - eexists false, _. split; [reflexivity|].
    split; [by apply (Inv_ext st)|].
    split; [reflexivity|]. simpl. split; [reflexivity|]. split; [reflexivity|].
    eexists. split; [reflexivity|]. split; [reflexivity|]. simpl.
    apply negb_false_iff in Hcan.
    destruct (bool_decide (room_name ∈ R)); [done|].
    destruct (bool_decide (batch_name ∈ B)); [done|].
    destruct (max_daily_load self <=? n); [done|].
    destruct (faculty_busy st day slot faculty_name); [done|].
    discriminate.
Qed.

(** Facts about the draws. *)
Lemma choice_Ok {A} (seq : list A) (pos : nat) (x : A) (pos' : nat) :
  choice rnd seq pos = Ok (x, pos') -> x ∈ seq /\ pos' = S pos.
Proof.
  unfold choice. destruct seq as [|y seq]; [discriminate|].
  intros Heq.
  assert (Hx : x = nth (rnd pos mod length (y :: seq))%nat (y :: seq) y)
    by congruence.
  assert (Hp : pos' = S pos) by congruence.
  split; [|exact Hp]. rewrite Hx.
  apply nth_elem_of. apply Nat.mod_upper_bound. discriminate.
Qed.

Lemma choice_returns {A} (seq : list A) (pos : nat) :
  seq <> [] -> exists x, choice rnd seq pos = Ok (x, S pos).
Proof. destruct seq; [done|]. intros _. by eexists. Qed.

Lemma choice_empty {A} (pos : nat) : choice rnd ([] : list A) pos = Raise IndexError.
Proof. reflexivity. Qed.

Lemma randint_Ok (a b : Z) (pos : nat) (x : Z) (pos' : nat) :
  randint rnd a b pos = Ok (x, pos') -> a <= x <= b /\ pos' = S pos.
Proof.
  unfold randint. destruct (b <? a) eqn:Hlt; [discriminate|].
  apply Z.ltb_ge in Hlt. intros [= <- <-]. split; [|reflexivity].
  pose proof (Z.mod_pos_bound (Z.of_nat (rnd pos)) (b - a + 1)). lia.
Qed.

Lemma randint_returns (a b : Z) (pos : nat) :
  a <= b -> exists x, randint rnd a b pos = Ok (x, S pos).
Proof.
  intros Hle. unfold randint. rewrite (proj2 (Z.ltb_ge b a) Hle). by eexists.
Qed.

Lemma randint_empty (a b : Z) (pos : nat) :
  b < a -> randint rnd a b pos = Raise ValueError.
Proof. intros Hlt. unfold randint. by rewrite (proj2 (Z.ltb_lt b a) Hlt). Qed.

(** An attempt that returns has drawn five values and kept the invariant. *)
Lemma attempt_Ok subject_name st ok st' :
  Inv self st ->
  attempt self rnd subject_name st = Ok (ok, st') ->
  Inv self st' /\ rng_pos st' = (rng_pos st + 5)%nat
  /\ step_effect subject_name ok st st'
  /\ 1 <= classrooms self /\ 1 <= batches self /\ faculty_pool self <> [].
Proof.
  intros Hinv. unfold attempt. intros H.
  inv_bind H. destruct a as [day p1]. apply choice_Ok in Ha as [Hday ->].
  inv_bind H. destruct a as [slot p2]. apply choice_Ok in Ha as [Hslot ->].
  inv_bind H. destruct a as [room_num p3]. apply randint_Ok in Ha as [Hroom ->].
  inv_bind H. destruct a as [batch_num p4]. apply randint_Ok in Ha as [Hbatch ->].
  inv_bind H. destruct a as [faculty_name p5]. apply choice_Ok in Ha as [Hfac ->].
  destruct (place_spec subject_name day slot ("Room " +:+ str room_num)
              ("Batch " +:+ str batch_num) faculty_name
              (with_pos st (S (S (S (S (S (rng_pos st)))))))
              (Inv_ext st (with_pos st _) eq_refl eq_refl eq_refl eq_refl eq_refl Hinv)
              Hday Hslot (has_underscore_room _) (has_underscore_batch _) Hfac)
    as (ok0 & st0 & Hp & Hinv' & Hpos & Heff).
  rewrite Hp in H. injection H as <- <-.
  split; [done|]. split; [rewrite Hpos; simpl; lia|]. split; [exact Heff|].
  split; [lia|]. split; [lia|]. intros Hnil. rewrite Hnil in Hfac.
  by apply elem_of_nil in Hfac.
Qed.

(** With at least one room, one batch and one faculty member every attempt
    returns. *)
Lemma attempt_returns subject_name st :
  Inv self st -> days self <> [] -> time_slots self <> [] ->
  1 <= classrooms self -> 1 <= batches self -> faculty_pool self <> [] ->
  exists ok st', attempt self rnd subject_name st = Ok (ok, st').
Proof.
  intros Hinv Hdays Hslots Hrooms Hbatches Hpool. unfold attempt.
  destruct (choice_returns _ (rng_pos st) Hdays) as [day Hc1].
  rewrite (bind_Ok_eq _ _ _ Hc1). simpl.
  destruct (choice_returns _ (S (rng_pos st)) Hslots) as [slot Hc2].
  rewrite (bind_Ok_eq _ _ _ Hc2). simpl.
  destruct (randint_returns 1 _ (S (S (rng_pos st))) Hrooms) as [room_num Hc3].
  rewrite (bind_Ok_eq _ _ _ Hc3). simpl.
  destruct (randint_returns 1 _ (S (S (S (rng_pos st)))) Hbatches) as [batch_num Hc4].
  rewrite (bind_Ok_eq _ _ _ Hc4). simpl.
  destruct (choice_returns _ (S (S (S (S (rng_pos st))))) Hpool) as [fac Hc5].
  rewrite (bind_Ok_eq _ _ _ Hc5). simpl.
  apply choice_Ok in Hc1 as [Hday _]. apply choice_Ok in Hc2 as [Hslot _].
  apply choice_Ok in Hc5 as [Hfac _].
  destruct (place_spec subject_name day slot ("Room " +:+ str room_num)
              ("Batch " +:+ str batch_num) fac
              (with_pos st (S (S (S (S (S (rng_pos st)))))))
              (Inv_ext st (with_pos st _) eq_refl eq_refl eq_refl eq_refl eq_refl Hinv)
              Hday Hslot (has_underscore_room _) (has_underscore_batch _) Hfac)
    as (ok & st' & Hp & _).
  eauto.
Qed.
End placement.

(** ** The [while] loop *)

Section loop.
Variable self : ScheduleOptimizer.
Variable rnd : nat -> nat.

Lemma finishes_bind {A B} (m : Result A) (f : A -> Result B) :
  finishes m -> (forall a, m = Ok a -> finishes (f a)) -> finishes (m ≫= f).
Proof. destruct m; simpl; intros Hm Hf; [by apply Hf | done | done]. Qed.

Lemma finishes_getitem {K V} `{EqDecision K} (d : dict K V) k :
  finishes (Dict.getitem d k).
Proof. unfold Dict.getitem. by destruct (Dict.get d k). Qed.

Lemma finishes_getitem2 {K1 K2 V} `{EqDecision K1, EqDecision K2}
    (d : dict K1 (dict K2 V)) a b : finishes (getitem2 d a b).
Proof.
  apply finishes_bind; [apply finishes_getitem|]. intros; apply finishes_getitem.
Qed.

Lemma finishes_setitem2 {K1 K2 V} `{EqDecision K1, EqDecision K2}
    (d : dict K1 (dict K2 V)) a b w : finishes (setitem2 d a b w).
Proof. apply finishes_bind; [apply finishes_getitem|]. done. Qed.

Lemma finishes_choice {A} (seq : list A) pos : finishes (choice rnd seq pos).
Proof. by destruct seq. Qed.

Lemma finishes_randint a b pos : finishes (randint rnd a b pos).
Proof. unfold randint. by destruct (b <? a). Qed.

Lemma finishes_place s day slot r b f st : finishes (place self s day slot r b f st).
Proof.
  unfold place.
  apply finishes_bind; [apply finishes_getitem2|]. intros R _.
  apply finishes_bind; [apply finishes_getitem2|]. intros B _.
  apply finishes_bind; [apply finishes_getitem2|]. intros n _.
  destruct (negb _); [|done].
  apply finishes_bind; [apply finishes_getitem|]. intros slots _.
  apply finishes_bind; [apply finishes_setitem2|]. intros ru' _.
  apply finishes_bind; [apply finishes_setitem2|]. intros bs' _.
  apply finishes_bind; [apply finishes_setitem2|]. done.
Qed.

Lemma finishes_attempt s st : finishes (attempt self rnd s st).
Proof.
  unfold attempt.
  apply finishes_bind; [apply finishes_choice|]. intros [day p1] _.
  apply finishes_bind; [apply finishes_choice|]. intros [slot p2] _.
  apply finishes_bind; [apply finishes_randint|]. intros [room_num p3] _.
  apply finishes_bind; [apply finishes_randint|]. intros [batch_num p4] _.
  apply finishes_bind; [apply finishes_choice|]. intros [f p5] _.
  apply finishes_place.
Qed.

(** The loop never needs more than [100 - attempts + 1] units of fuel. *)
Lemma while_loop_finishes fuel s c a st :
  (Z.to_nat (100 - a) < fuel)%nat -> finishes (while_loop self rnd fuel s c a st).
Proof.
  revert c a st. induction fuel as [|fuel IH]; intros c a st Hfuel; [lia|].
  simpl. destruct (_ && _) eqn:Hcond; [|done].
  apply andb_true_iff in Hcond as [_ Ha%Z.ltb_lt].
  apply finishes_bind; [apply finishes_attempt|]. intros [ok st'] _.
  apply IH. lia.
Qed.

Lemma while_loop_Ok fuel s c a st c' a' st' :
  Inv self st ->
  while_loop self rnd fuel s c a st = Ok (c', a', st') ->
  loop_post self s c a st c' a' st'.
Proof.
  revert c a st. induction fuel as [|fuel IH]; intros c a st Hinv; [discriminate|].
  simpl. destruct (_ && _) eqn:Hcond.
  - apply andb_true_iff in Hcond as [Hc%Z.ltb_lt Ha%Z.ltb_lt].
    intros H. inv_bind H. destruct a0 as [ok st1].
    apply (attempt_Ok self rnd s st ok st1 Hinv) in Ha0
      as (Hinv1 & Hpos1 & Heff & _).
    apply (IH _ _ _ Hinv1) in H
      as (Hinv' & Hle & Hcap & Hexit & Hc' & Htot & Hpos & cs & Hcs & Hlen & Hall).
    unfold step_effect in Heff. unfold loop_post.
    split; [done|]. split; [lia|]. split; [lia|]. split; [done|].
    rewrite Hpos, Hpos1, Htot.
    destruct ok.
    + destruct Heff as [Ht Hconf].
      split; [lia|]. split; [lia|]. split; [lia|].
      exists cs. rewrite Hcs, Hconf. split; [done|]. split; [lia | done].
    + destruct Heff as (Ht & _ & c0 & Hconf & Hsubj & _).
      split; [lia|]. split; [lia|]. split; [lia|].
      exists (c0 :: cs). rewrite Hcs, Hconf, <- app_assoc.
      split; [done|]. split; [simpl; lia | by constructor].
  - intros [= <- <- <-]. unfold loop_post.
    apply andb_false_iff in Hcond.
    split; [done|]. split; [lia|]. split; [lia|].
    split; [intros [Hc Ha]; destruct Hcond as [H|H];
            [apply Z.ltb_ge in H | apply Z.ltb_ge in H]; lia|].
    split; [lia|]. split; [lia|].
    split; [rewrite Z.sub_diag; simpl; lia|].
    exists []. rewrite app_nil_r, !Z.sub_diag. by split.
Qed.

(** When the target is already met, or the budget spent, the loop returns
    at once, drawing nothing. *)
Lemma while_loop_stop fuel s c a st :
  classes_per_week self <= c \/ 100 <= a ->
  while_loop self rnd (S fuel) s c a st = Ok (c, a, st).
Proof.
  intros Hstop. simpl.
  destruct (_ && _) eqn:Hcond; [|reflexivity].
  apply andb_true_iff in Hcond as [Hc%Z.ltb_lt Ha%Z.ltb_lt]. lia.
Qed.

Lemma while_loop_returns fuel s c a st :
  drawable self -> Inv self st -> (Z.to_nat (100 - a) < fuel)%nat ->
  returns (while_loop self rnd fuel s c a st).
Proof.
  intros (Hd & Hs & Hr & Hb & Hp). revert c a st.
  induction fuel as [|fuel IH]; intros c a st Hinv Hfuel; [lia|].
  simpl. destruct (_ && _) eqn:Hcond; [|by eexists].
  apply andb_true_iff in Hcond as [_ Ha%Z.ltb_lt].
  destruct (attempt_returns self rnd s st Hinv Hd Hs Hr Hb Hp) as (ok & st1 & Hat).
  rewrite (bind_Ok_eq _ _ _ Hat).
  apply (attempt_Ok self rnd s st ok st1 Hinv) in Hat as (Hinv1 & _).
  apply IH; [done | lia].
Qed.
End loop.

(** ** The loop over the subjects *)

Section subjects_loop.
Variable self : ScheduleOptimizer.
Variable rnd : nat -> nat.

Lemma schedule_subject_Ok st s st' :
  Inv self st -> schedule_subject self rnd st s = Ok st' ->
  exists c' a', while_loop self rnd loop_fuel s 0 0 st = Ok (c', a', st')
    /\ loop_post self s 0 0 st c' a' st'.
Proof.
  intros Hinv. unfold schedule_subject. intros H. inv_bind H.
  destruct a as [[c' a'] st1]. injection H as ->.
  exists c', a'. split; [done|]. by apply (while_loop_Ok self rnd loop_fuel).
Qed.

Lemma schedule_subject_finishes st s : finishes (schedule_subject self rnd st s).
Proof.
  unfold schedule_subject. apply finishes_bind.
  - apply while_loop_finishes. unfold loop_fuel. simpl. lia.
  - by intros [[c a] st'] _.
Qed.

Lemma schedule_subject_returns st s :
  drawable self -> Inv self st -> returns (schedule_subject self rnd st s).
Proof.
  intros Hdraw Hinv. unfold schedule_subject.
  destruct (while_loop_returns self rnd loop_fuel s 0 0 st Hdraw Hinv)
    as [[[c a] st'] Hw]; [unfold loop_fuel; simpl; lia|].
  rewrite (bind_Ok_eq _ _ _ Hw). by eexists.
Qed.

Lemma for_each_subjects_Ok l st st' :
  Inv self st ->
  for_each (schedule_subject self rnd) l st = Ok st' -> subjects_post self l st st'.
Proof.
  revert st. induction l as [|s l IH]; intros st Hinv; simpl.
  - intros [= <-]. split; [done|]. split; [lia|].
    exists []. by rewrite app_nil_r.
  - intros H. inv_bind H.
    apply (schedule_subject_Ok _ _ _ Hinv) in Ha
      as (c' & a' & _ & Hinv1 & Hle & Hcap & _ & Hc & _ & Hpos & cs1 & Hcs1 & Hlen1 & Hall1).
    apply (IH _ Hinv1) in H as (Hinv' & Hpos' & cs & Hcs & Hlen & Hall).
    unfold subjects_post. change (length (s :: l)) with (S (length l)).
    split; [done|]. split; [lia|].
    exists (cs1 ++ cs). rewrite Hcs, Hcs1, <- app_assoc. split; [done|].
    split; [rewrite length_app; lia|].
    apply Forall_app. split.
    + eapply Forall_impl; [exact Hall1|]. simpl. intros x ->. left.
    + eapply Forall_impl; [exact Hall|]. simpl. intros x Hx. by right.
Qed.

Lemma for_each_subjects_finishes l st :
  finishes (for_each (schedule_subject self rnd) l st).
Proof.
  revert st. induction l as [|s l IH]; intros st; simpl; [done|].
  apply finishes_bind; [apply schedule_subject_finishes | auto].
Qed.

Lemma for_each_subjects_returns l st :
  drawable self -> Inv self st ->
  returns (for_each (schedule_subject self rnd) l st).
Proof.
  intros Hdraw. revert st. induction l as [|s l IH]; intros st Hinv; simpl.
  - by eexists.
  - destruct (schedule_subject_returns st s Hdraw Hinv) as [st1 Hs].
    rewrite (bind_Ok_eq _ _ _ Hs). apply IH.
    by destruct (schedule_subject_Ok _ _ _ Hinv Hs) as (? & ? & _ & ? & _).
Qed.

Lemma place_all_Ok st :
  place_all self rnd = Ok st ->
  subjects_post self (subjects self) (initial_locals self) st.
Proof. apply for_each_subjects_Ok, initial_Inv. Qed.

Lemma place_all_returns : drawable self -> returns (place_all self rnd).
Proof. intros Hdraw. by apply for_each_subjects_returns, initial_Inv. Qed.
End subjects_loop.

(** ** Rounding to one decimal *)

Lemma round1_proper (x y : Q) : (x == y)%Q -> round1 x = round1 y.
Proof.
  intros Hxy. unfold round1.
  assert (H10 : (x * 10 == y * 10)%Q) by (rewrite Hxy; reflexivity).
  rewrite (Qfloor_comp _ _ H10).
  assert (Hc : ((x * 10 - inject_Z (Qfloor (y * 10)) ?= 1 # 2)
                = (y * 10 - inject_Z (Qfloor (y * 10)) ?= 1 # 2))%Q)
    by (rewrite H10; reflexivity).
  by rewrite Hc.
Qed.

(** [round1 x] is a number of tenths, and a nearest one. *)
Lemma round1_nearest (x : Q) :
  exists n : Z, round1 x = (n # 10)%Q
    /\ (x * 10 - (1 # 2) <= inject_Z n <= x * 10 + (1 # 2))%Q.
Proof.
  unfold round1.
  pose proof (Qfloor_le (x * 10)) as Hlo.
  pose proof (Qlt_floor (x * 10)) as Hhi.
  rewrite inject_Z_plus in Hhi. change (inject_Z 1) with 1%Q in Hhi.
  set (f := Qfloor (x * 10)) in *. clearbody f.
  destruct (x * 10 - inject_Z f ?= 1 # 2)%Q eqn:Hcmp.
  - apply Qeq_alt in Hcmp.
    destruct (Z.even f); eexists; (split; [reflexivity|]);
      rewrite ?inject_Z_plus; change (inject_Z 1) with 1%Q; split; lra.
  - apply Qlt_alt in Hcmp. eexists. split; [reflexivity|]. split; lra.
  - apply Qgt_alt in Hcmp. eexists. split; [reflexivity|].
    rewrite inject_Z_plus. change (inject_Z 1) with 1%Q. split; lra.
Qed.

(** Integers are left as they are (as [round(n, 1)] does on an [int]). *)
Lemma round1_Z (k : Z) : (round1 (inject_Z k) == inject_Z k)%Q.
Proof.
  destruct (round1_nearest (inject_Z k)) as (n & -> & Hlo & Hhi).
  assert (Hn : n = k * 10).
  { unfold Qle, Qminus, Qplus, Qopp, Qmult, inject_Z in Hlo, Hhi.
    simpl in Hlo, Hhi. lia. }
  subst n. unfold Qeq, inject_Z. simpl. lia.
Qed.

(** ** Metrics *)

Lemma comprehension_returns {A B} (f : A -> Result B) (l : list A) :
  (forall x, x ∈ l -> returns (f x)) -> returns (comprehension f l).
Proof.
  induction l as [|x l IH]; intros Hall; simpl; [by eexists|].
  destruct (Hall x) as [y Hy]; [left|]. rewrite (bind_Ok_eq _ _ _ Hy).
  destruct IH as [ys Hys]; [intros z Hz; apply Hall; by right|].
  rewrite (bind_Ok_eq _ _ _ Hys). by eexists.
Qed.

Lemma comprehension_const {A B} (f : A -> Result B) (l : list A) (c : B) :
  (forall x, x ∈ l -> f x = Ok c) -> comprehension f l = Ok (map (fun _ => c) l).
Proof.
  induction l as [|x l IH]; intros Hall; simpl; [reflexivity|].
  rewrite (bind_Ok_eq _ _ _ (Hall x ltac:(left))).
  rewrite (bind_Ok_eq _ _ _ (IH (fun z Hz => Hall z ltac:(by right)))).
  reflexivity.
Qed.

Lemma fold_left_max (l : list Z) (a : Z) :
  is_max (a :: l) (fold_left Z.max l a).
Proof.
  revert a. induction l as [|x l IH]; intros a; simpl.
  - split; [left|]. intros y ->%list_elem_of_singleton. lia.
  - destruct (IH (Z.max a x)) as [Hin Hub]. split.
    + apply elem_of_cons in Hin as [Heq|Hin].
      * rewrite Heq. destruct (Z.max_spec a x) as [[_ ->]|[_ ->]];
          [right; left | left].
      * by do 2 right.
    + intros y Hy. apply elem_of_cons in Hy as [->|Hy].
      * pose proof (Hub (Z.max a x) ltac:(left)). lia.
      * apply elem_of_cons in Hy as [->|Hy].
        -- pose proof (Hub (Z.max a x) ltac:(left)). lia.
        -- apply Hub. by right.
Qed.

Lemma fold_left_min (l : list Z) (a : Z) :
  is_min (a :: l) (fold_left Z.min l a).
Proof.
  revert a. induction l as [|x l IH]; intros a; simpl.
  - split; [left|]. intros y ->%list_elem_of_singleton. lia.
  - destruct (IH (Z.min a x)) as [Hin Hlb]. split.
    + apply elem_of_cons in Hin as [Heq|Hin].
      * rewrite Heq. destruct (Z.min_spec a x) as [[_ ->]|[_ ->]];
          [left | right; left].
      * by do 2 right.
    + intros y Hy. apply elem_of_cons in Hy as [->|Hy].
      * pose proof (Hlb (Z.min a x) ltac:(left)). lia.
      * apply elem_of_cons in Hy as [->|Hy].
        -- pose proof (Hlb (Z.min a x) ltac:(left)). lia.
        -- apply Hlb. by right.
Qed.

Lemma faculty_balance_spec (st : Locals) :
  exists b, faculty_balance st = Ok b /\ load_balance_spec (faculty_loads st) b.
Proof.
  unfold faculty_balance. destruct (faculty_loads st) as [|x l] eqn:Hl.
  - exists 100. split; [reflexivity|]. split; [done|]. by intros [].
  - simpl. eexists. split; [reflexivity|].
    pose proof (fold_left_max l x) as Hmax.
    pose proof (fold_left_min l x) as Hmin.
    split.
    + intros Hzero. rewrite (Hzero _ (proj1 Hmax)), (Hzero _ (proj1 Hmin)). done.
    + intros _. exists (fold_left Z.max l x), (fold_left Z.min l x).
      split; [done|]. split; [done|]. f_equal. lia.
Qed.

(** ** A whole run *)

Lemma init_Ok (cfg : Config) (self : ScheduleOptimizer) :
  init cfg = Ok self ->
  config self = cfg /\ time_slots self = all_time_slots
  /\ days self = (if bool_decide (cfg_days_week cfg = Some 5)
                  then take 5 all_days else all_days).
Proof. intros [= <-]. done. Qed.

Lemma init_nonempty (cfg : Config) (self : ScheduleOptimizer) :
  init cfg = Ok self -> days self <> [] /\ time_slots self <> [].
Proof.
  intros (_ & -> & ->)%init_Ok. split; [|done].
  by destruct (bool_decide _).
Qed.

Section run_laws.
Variable self : ScheduleOptimizer.
Variable rnd : nat -> nat.

Lemma NoDup_keys_get {K V} `{EqDecision K} (d : dict K V) k v :
  NoDup (Dict.keys d) -> (k, v) ∈ d -> Dict.get d k = Some v.
Proof.
  induction d as [|[k0 v0] d IH]; simpl; intros Hnd Hin.
  - by apply elem_of_nil in Hin.
  - apply NoDup_cons in Hnd as [Hk0 Hnd].
    destruct (decide (k0 = k)) as [->|Hne].
    + apply elem_of_cons in Hin as [[= ->]|Hin]; [done|].
      exfalso. apply Hk0. unfold Dict.keys.
      change k with (fst (k, v)). by apply list_elem_of_fmap_2.
    + apply elem_of_cons in Hin as [[= ? ?]|Hin]; [congruence | by apply IH].
Qed.

(** The weekly totals are the numbers of sessions of the grid taught by
    each member of the pool, in pool order. *)
Lemma faculty_loads_grid st :
  Inv self st ->
  faculty_loads st
  = map (fun f => Z.of_nat (taught_by f (all_sessions (schedule st))))
        (faculty_pool self).
Proof.
  intros Hinv. rewrite <- (inv_load_keys _ _ Hinv).
  unfold faculty_loads, Dict.keys. rewrite map_map.
  apply map_ext_in. intros [f per_day] Hin. simpl.
  apply (inv_weekly _ _ Hinv). apply NoDup_keys_get.
  - rewrite (inv_load_keys _ _ Hinv). apply faculty_pool_NoDup.
  - by apply list_elem_of_In.
Qed.

Lemma occupied_rooms_returns st : Inv self st -> returns (occupied_rooms self st).
Proof.
  intros Hinv. unfold occupied_rooms.
  destruct (comprehension_returns
    (fun ds : string * string =>
       rooms_here ← getitem2 (room_usage st) ds.1 ds.2;
       Ok (Z.of_nat (size (rooms_here : gset string))))
    (day ← days self; slot ← time_slots self; [(day, slot)])) as [counts Hc].
  - intros [day slot] Hin. simpl.
    apply list_elem_of_bind in Hin as (d & Hin & Hd).
    apply list_elem_of_bind in Hin as (s & Hin & Hs).
    apply list_elem_of_singleton in Hin. injection Hin as -> ->.
    destruct (inv_rooms _ _ Hinv d s Hd Hs) as [R HR].
    rewrite (bind_Ok_eq _ _ _ HR). by eexists.
  - rewrite (bind_Ok_eq _ _ _ Hc). by eexists.
Qed.

Lemma compute_metrics_returns st :
  Inv self st -> total_possible_slots self <> 0 ->
  returns (compute_metrics self st).
Proof.
  intros Hinv Htot. unfold compute_metrics, classroom_utilization_raw.
  destruct (occupied_rooms_returns st Hinv) as [occ Hocc].
  rewrite (bind_Ok_eq _ _ _ Hocc).
  rewrite (proj2 (Z.eqb_neq _ _) Htot). simpl.
  destruct (faculty_balance_spec st) as (b & Hb & _).
  rewrite (bind_Ok_eq _ _ _ Hb). by eexists.
Qed.

Lemma compute_metrics_zero_division st :
  Inv self st -> total_possible_slots self = 0 ->
  compute_metrics self st = Raise ZeroDivisionError.
Proof.
  intros Hinv Htot. unfold compute_metrics, classroom_utilization_raw.
  destruct (occupied_rooms_returns st Hinv) as [occ Hocc].
  rewrite (bind_Ok_eq _ _ _ Hocc).
  by rewrite (proj2 (Z.eqb_eq _ _) Htot).
Qed.

Lemma total_possible_slots_nonzero :
  days self <> [] -> time_slots self <> [] -> classrooms self <> 0 ->
  total_possible_slots self <> 0.
Proof.
  intros Hd Hs Hr. unfold total_possible_slots.
  destruct (days self); [done|]. destruct (time_slots self); [done|].
  simpl length. lia.
Qed.

(** What a run that returns has computed. *)
Lemma generate_Ok option_num t :
  generate_optimized_schedule self rnd option_num = Ok t ->
  exists st u b,
    place_all self rnd = Ok st /\ Inv self st
    /\ classroom_utilization_raw self st = Ok u
    /\ faculty_balance st = Ok b
    /\ tt_schedule t = schedule st /\ tt_conflicts t = conflicts st
    /\ tt_metrics t =
       {| classroom_utilization := round1 u;
          faculty_load_balance := round1 (inject_Z b);
          conflict_count := Z.of_nat (length (conflicts st));
          optimization_score :=
            round1 (optimization_score_raw u b (Z.of_nat (length (conflicts st))));
          total_classes_scheduled := total st;
          faculty_utilization := round1 (faculty_utilization_raw st) |}.
Proof.
  unfold generate_optimized_schedule. intros H.
  inv_bind H. rename a into st. inv_bind H. rename a into m.
  injection H as <-. simpl.
  unfold compute_metrics in Ha0. inv_bind Ha0. rename a into u.
  inv_bind Ha0. rename a into b. injection Ha0 as <-.
  exists st, u, b. pose proof (place_all_Ok self rnd st Ha) as [Hinv _].
  done.
Qed.

Lemma generate_finishes option_num :
  finishes (generate_optimized_schedule self rnd option_num).
Proof.
  unfold generate_optimized_schedule.
  apply finishes_bind; [apply for_each_subjects_finishes|]. intros st _.
  apply finishes_bind; [|done].
  unfold compute_metrics. apply finishes_bind.
  - unfold classroom_utilization_raw. apply finishes_bind.
    + unfold occupied_rooms. apply finishes_bind; [|done].
      generalize (day ← days self; slot ← time_slots self; [(day, slot)]).
      intros l. induction l as [|x l IH]; simpl; [done|].
      apply finishes_bind.
      * apply finishes_bind; [apply finishes_getitem2 | done].
      * intros y _. apply finishes_bind; [exact IH | done].
    + intros occ _. by destruct (_ =? _).
  - intros u _. apply finishes_bind; [|done].
    unfold faculty_balance. by destruct (faculty_loads st).
Qed.

Lemma generate_returns option_num :
  drawable self -> returns (generate_optimized_schedule self rnd option_num).
Proof.
  intros Hdraw. unfold generate_optimized_schedule.
  destruct (place_all_returns self rnd Hdraw) as [st Hst].
  rewrite (bind_Ok_eq _ _ _ Hst).
  pose proof (place_all_Ok self rnd st Hst) as [Hinv _].
  destruct Hdraw as (Hd & Hs & Hr & _).
  destruct (compute_metrics_returns st Hinv) as [m Hm].
  { apply total_possible_slots_nonzero; [done | done | lia]. }
  rewrite (bind_Ok_eq _ _ _ Hm). by eexists.
Qed.
End run_laws.

(** * The claims of the specification *)

(** ** C7: the suggestion generator *)

(** C7. Metrics (utilization 50, balance 90, conflicts 2, score 90) give
    exactly the low-utilization advice; metrics (90, 60, 10, 70) give the
    balance, conflict and score advice in that order; in general the four
    thresholds (utilization < 70, balance < 80, conflicts > 5, score < 85)
    are tested independently of one another, and each of the sixteen
    subsets of advice is the answer to some metrics. *)
Theorem C7_suggestions :
  (forall (sch : grid) (cs : list Conflict) (i : Z) (name : string) (tc : Z) (fu : Q),
     suggest_improvements
       {| tt_id := i; tt_name := name; tt_schedule := sch;
          tt_metrics := {| classroom_utilization := 50; faculty_load_balance := 90;
                           conflict_count := 2; optimization_score := 90;
                           total_classes_scheduled := tc; faculty_utilization := fu |};
          tt_conflicts := cs |}
     = [advice_utilization]
     /\ suggest_improvements
       {| tt_id := i; tt_name := name; tt_schedule := sch;
          tt_metrics := {| classroom_utilization := 90; faculty_load_balance := 60;
                           conflict_count := 10; optimization_score := 70;
                           total_classes_scheduled := tc; faculty_utilization := fu |};
          tt_conflicts := cs |}
     = [advice_balance; advice_conflicts; advice_score])
  /\ (forall t : Timetable,
        suggest_improvements t
        = advice_for (Qltb (classroom_utilization (tt_metrics t)) 70)
                     (Qltb (faculty_load_balance (tt_metrics t)) 80)
                     (5 <? conflict_count (tt_metrics t))
                     (Qltb (optimization_score (tt_metrics t)) 85))
  /\ (forall b1 b2 b3 b4 : bool,
        exists m : Metrics,
          suggest_improvements (with_metrics m) = advice_for b1 b2 b3 b4).
Proof.
  split; [|split].
  - intros. split; reflexivity.
  - intros t. reflexivity.
  - intros b1 b2 b3 b4.
    exists {| classroom_utilization := if b1 then 0 else 100;
              faculty_load_balance := if b2 then 0 else 100;
              conflict_count := if b3 then 6 else 0;
              optimization_score := if b4 then 0 else 100;
              total_classes_scheduled := 0; faculty_utilization := 0 |}.
    destruct b1, b2, b3, b4; reflexivity.
Qed.

(** ** C2: building the optimizer *)

(** C2, as the specification states it, fails: a record with an empty
    subject list and negative numeric fields is accepted. *)
Lemma C2_counterexample : ~ raises (init invalid_config).
Proof. intros [e He]. discriminate He. Qed.

(** C2, amended. Building the optimizer never fails, whatever the raw
    record: nothing is validated.  The record is kept as it is, the six time
    slots are fixed, the week has five days when [days_week] is 5 and six
    otherwise, and an absent field is read as its default: the five generic
    subjects, 10 rooms, 15 batches, 30 faculty members, a maximum daily load
    of 6 and 4 sessions per week. *)
Theorem C2_init_accepts_everything :
  forall cfg : Config, exists self : ScheduleOptimizer,
    init cfg = Ok self
    /\ config self = cfg
    /\ time_slots self = all_time_slots
    /\ days self = match cfg_days_week cfg with
                   | Some 5 => ["Monday"; "Tuesday"; "Wednesday"; "Thursday"; "Friday"]
                   | _ => all_days
                   end
    /\ subjects self = match cfg_subject_list cfg with
                       | Some l => l
                       | None => ["Math"; "Physics"; "Chemistry"; "CS"; "English"]
                       end
    /\ classrooms self = match cfg_classrooms cfg with Some x => x | None => 10 end
    /\ batches self = match cfg_batches cfg with Some x => x | None => 15 end
    /\ faculty_count self = match cfg_faculty_count cfg with Some x => x | None => 30 end
    /\ max_daily_load self = match cfg_max_load cfg with Some x => x | None => 6 end
    /\ classes_per_week self
       = match cfg_classes_per_week cfg with Some x => x | None => 4 end.
Proof.
  intros cfg. eexists. split; [reflexivity|]. simpl.
  repeat split; try reflexivity.
  case_bool_decide as Hd.
  - rewrite Hd. reflexivity.
  - destruct (cfg_days_week cfg) as [[|p|p]|]; try reflexivity.
    do 3 (destruct p; try reflexivity). congruence.
Qed.

(** ** C3: no room, no batch or no faculty member *)

(** C3, on the code. The claim says that a run with no room raises no
    error and records 100 conflicts.  On the code, with no room, or no
    batch, the first attempt of the first subject raises [ValueError] in
    [random.randint(1, 0)]; with no faculty member it raises [IndexError]
    in [random.choice([])].  No conflict is recorded and no timetable is
    returned, whatever the random source. *)
Theorem C3_zero_resources_raise :
  forall (rnd : nat -> nat) (option_num : Z),
    run zero_rooms_config rnd option_num = Raise ValueError
    /\ run zero_batches_config rnd option_num = Raise ValueError
    /\ run zero_faculty_config rnd option_num = Raise IndexError.
Proof. intros rnd option_num. split; [|split]; reflexivity. Qed.

Lemma small_init : init small_config = Ok small_optimizer.
Proof. reflexivity. Qed.

Lemma small_run :
  generate_optimized_schedule small_optimizer counting_source 1 = Ok small_timetable.
Proof. vm_compute. reflexivity. Qed.

(** ** C9: no placement is overwritten *)

Lemma NoDup_map_transfer {A B C} (f : A -> B) (g : A -> C) (l : list A) :
  NoDup (map g l) ->
  (forall x y, x ∈ l -> y ∈ l -> f x = f y -> g x = g y) ->
  NoDup (map f l).
Proof.
  induction l as [|x l IH]; simpl; intros Hnd Hfg; [constructor|].
  apply NoDup_cons in Hnd as [Hx Hnd]. apply NoDup_cons. split.
  - intros (y & Hxy & Hy)%list_elem_of_fmap. apply Hx.
    rewrite (Hfg x y ltac:(left) ltac:(by right) Hxy).
    by apply list_elem_of_fmap_2.
  - apply IH; [done|]. intros y z Hy Hz. apply Hfg; by right.
Qed.

Lemma cell_keys_NoDup (self : ScheduleOptimizer) (st : Locals) (day slot : string) :
  Inv self st -> NoDup (Dict.keys (cell_at (schedule st) day slot)).
Proof.
  intros Hinv. unfold Dict.keys.
  apply (NoDup_map_transfer fst (fun e => batch e.2)).
  - pose proof (inv_batches_distinct _ _ Hinv day slot) as Hnd.
    unfold Dict.values in Hnd. by rewrite map_map in Hnd.
  - intros [k1 v1] [k2 v2] H1 H2. simpl. intros <-.
    destruct (inv_cell _ _ Hinv _ _ _ _ H1) as (Hk1 & Hb1 & Hr1 & _).
    destruct (inv_cell _ _ Hinv _ _ _ _ H2) as (Hk2 & Hb2 & Hr2 & _).
    rewrite Hk1 in Hk2. by apply class_id_inj in Hk2 as (_ & ? & _).
Qed.

(** C9. For every run that returns, the number of entries of the grid,
    summed over its cells, is [total_classes_scheduled]: every entry is
    stored under the identifier made of its subject, batch and room, the
    sessions of a cell have pairwise different batches, hence pairwise
    different identifiers, and no store replaces an earlier one. *)
Theorem C9_no_overwrite :
  forall (self : ScheduleOptimizer) (rnd : nat -> nat) (option_num : Z) (t : Timetable),
    generate_optimized_schedule self rnd option_num = Ok t ->
    grid_size (tt_schedule t) = total_classes_scheduled (tt_metrics t)
    /\ forall day slot,
         NoDup (map batch (Dict.values (cell_at (tt_schedule t) day slot)))
         /\ NoDup (Dict.keys (cell_at (tt_schedule t) day slot))
         /\ forall k v, (k, v) ∈ cell_at (tt_schedule t) day slot ->
                        k = class_id (subject v) (batch v) (room v).
Proof.
  intros self rnd option_num t Hrun.
  apply generate_Ok in Hrun
    as (st & u & b & _ & Hinv & _ & _ & Hsch & _ & Hm).
  rewrite Hsch, Hm. simpl. split.
  - rewrite grid_size_sessions. symmetry. apply (inv_total _ _ Hinv).
  - intros day slot. split; [apply (inv_batches_distinct _ _ Hinv)|].
    split; [by apply (cell_keys_NoDup self)|].
    intros k v Hin. by destruct (inv_cell _ _ Hinv _ _ _ _ Hin).
Qed.

Lemma C9_witness :
  grid_size (tt_schedule small_timetable)
  = total_classes_scheduled (tt_metrics small_timetable)
  /\ forall day slot,
       NoDup (map batch (Dict.values (cell_at (tt_schedule small_timetable) day slot)))
       /\ NoDup (Dict.keys (cell_at (tt_schedule small_timetable) day slot))
       /\ forall k v, (k, v) ∈ cell_at (tt_schedule small_timetable) day slot ->
                      k = class_id (subject v) (batch v) (room v).
Proof.
  apply (C9_no_overwrite small_optimizer counting_source 1 small_timetable).
  vm_compute. reflexivity.
Defined.

(** ** C10: rounding at the output boundary *)



(** ** C1: exclusivity of rooms and batches, daily load *)

Lemma faculty_pool_nonempty (self : ScheduleOptimizer) :
  1 <= faculty_count self -> faculty_pool self <> [].
Proof.
  intros Hc. unfold faculty_pool, slice_to.
  generalize dependent (faculty_count self). intros z Hz.
  rewrite (proj2 (Z.leb_le 0 z)) by lia.
  assert (Hz' : Z.to_nat z = S (Z.to_nat (z - 1))) by lia.
  rewrite Hz'. discriminate.
Qed.

Lemma drawable_intro (cfg : Config) (self : ScheduleOptimizer) :
  init cfg = Ok self ->
  1 <= classrooms self -> 1 <= batches self -> 1 <= faculty_count self ->
  drawable self.
Proof.
  intros [Hd Hs]%init_nonempty Hr Hb Hf.
  repeat split; auto using faculty_pool_nonempty.
Qed.





(** ** C4: the optimization score *)

Lemma small_place_all : place_all small_optimizer counting_source = Ok small_locals.
Proof. vm_compute. reflexivity. Qed.




(** ** C6: the faculty utilization *)

(** C6, as the specification states it, fails: the reported value is
    rounded.  On [small_config] the three pool members teach one session
    in all; the mean is 1/3, the reported value 0.3. *)
Lemma C6_counterexample :
  generate_optimized_schedule small_optimizer counting_source 1 = Ok small_timetable
  /\ length (faculty_pool small_optimizer) = 3%nat
  /\ sum (weekly_totals small_optimizer (tt_schedule small_timetable)) = 1
  /\ ~ (faculty_utilization (tt_metrics small_timetable)
        == inject_Z (sum (weekly_totals small_optimizer (tt_schedule small_timetable)))
           / inject_Z (Z.of_nat (length (faculty_pool small_optimizer))))%Q.
Proof.
  split; [exact small_run|]. split; [reflexivity|]. split; [reflexivity|].
  intros H. vm_compute in H. discriminate H.
Qed.

(** C6, amended. For every run that returns, the reported faculty
    utilization is the rounding to one decimal of the sum of the weekly
    totals of all pool members, those with no session included, divided by
    the size of the pool (and 0 when the pool is empty); that sum is the
    number of scheduled classes. *)
Theorem C6_faculty_utilization :
  forall (self : ScheduleOptimizer) (rnd : nat -> nat) (option_num : Z) (t : Timetable),
    generate_optimized_schedule self rnd option_num = Ok t ->
    faculty_utilization (tt_metrics t)
    = round1 (match faculty_pool self with
              | [] => 0
              | _ => inject_Z (sum (weekly_totals self (tt_schedule t)))
                     / inject_Z (Z.of_nat (length (faculty_pool self)))
              end)%Q
    /\ sum (weekly_totals self (tt_schedule t)) = total_classes_scheduled (tt_metrics t).
Proof.
  intros self rnd option_num t Hrun.
  apply generate_Ok in Hrun
    as (st & u & b & Hst & Hinv & Hu & Hb & Hsch & Hconf & Hm).
  rewrite Hsch, Hm. simpl. unfold weekly_totals.
  rewrite <- (faculty_loads_grid self st Hinv). split.
  - unfold faculty_utilization_raw.
    assert (Hlen : length (faculty_loads st) = length (faculty_pool self)).
    { rewrite (faculty_loads_grid self st Hinv). apply length_map. }
    destruct (faculty_loads st) as [|x l] eqn:Hl;
      destruct (faculty_pool self) as [|f p] eqn:Hp; try discriminate Hlen.
    + reflexivity.
    + by rewrite Hlen.
  - apply (inv_load_sum _ _ Hinv).
Qed.

Lemma C6_witness :
  faculty_utilization (tt_metrics small_timetable)
  = round1 (match faculty_pool small_optimizer with
            | [] => 0
            | _ => inject_Z (sum (weekly_totals small_optimizer (tt_schedule small_timetable)))
                   / inject_Z (Z.of_nat (length (faculty_pool small_optimizer)))
            end)%Q
  /\ sum (weekly_totals small_optimizer (tt_schedule small_timetable))
     = total_classes_scheduled (tt_metrics small_timetable).
Proof.
  apply (C6_faculty_utilization small_optimizer counting_source 1 small_timetable).
  vm_compute. reflexivity.
Defined.

(** ** C5: the attempt budget *)

(** Each subject gets at most 100 attempts (500 draws): the loop leaves with
    the counter at most 100, with the target met or the budget spent, never
    beyond the target; it placed one session per successful attempt and
    recorded one conflict per failed one. *)
Lemma attempt_budget (self : ScheduleOptimizer) (rnd : nat -> nat)
    (s : string) (st st' : Locals) (placed attempts : Z) :
  Inv self st ->
  while_loop self rnd loop_fuel s 0 0 st = Ok (placed, attempts, st') ->
  0 <= attempts <= 100
  /\ (placed = Z.max 0 (classes_per_week self) \/ attempts = 100)
  /\ 0 <= placed <= Z.max 0 (classes_per_week self)
  /\ total st' = total st + placed
  /\ Z.of_nat (length (conflicts st')) = Z.of_nat (length (conflicts st)) + (attempts - placed)
  /\ rng_pos st' = (rng_pos st + 5 * Z.to_nat attempts)%nat.
Proof.
  intros Hinv Hw.
  apply (while_loop_Ok self rnd loop_fuel s 0 0 st _ _ _ Hinv) in Hw
    as (_ & Hle & Hcap & Hexit & Hc & Htot & Hpos & cs & Hcs & Hlen & _).
  rewrite Hcs, length_app, Nat2Z.inj_add, Hpos, Htot, !Z.sub_0_r in *.
  repeat split; lia.
Qed.

(** The fuel of the model is never exhausted: a run returns or raises. *)
Lemma run_finishes (cfg : Config) (rnd : nat -> nat) (option_num : Z) :
  finishes (run cfg rnd option_num).
Proof. unfold run, init. simpl. apply generate_finishes. Qed.

(** With at least one room, one batch and one faculty member, a run
    returns a timetable, whether or not the budgets are exhausted. *)
Lemma run_returns (cfg : Config) (self : ScheduleOptimizer) (rnd : nat -> nat)
    (option_num : Z) :
  init cfg = Ok self ->
  1 <= classrooms self -> 1 <= batches self -> 1 <= faculty_count self ->
  returns (run cfg rnd option_num).
Proof.
  intros Hinit Hr Hb Hf. unfold run. rewrite (bind_Ok_eq _ _ _ Hinit).
  apply generate_returns. by apply (drawable_intro cfg).
Qed.

(** C5, on the code. The claim says that the run always completes and
    returns a timetable.  With no room every run raises instead:
    [ValueError] at the first attempt if there is one, [ZeroDivisionError]
    in the utilization otherwise.  (The budget itself is as claimed:
    [attempt_budget], [run_finishes], [run_returns].) *)
Theorem C5_zero_rooms_never_return :
  forall (cfg : Config) (self : ScheduleOptimizer) (rnd : nat -> nat) (option_num : Z),
    init cfg = Ok self -> classrooms self = 0 ->
    raises (generate_optimized_schedule self rnd option_num).
Proof.
  intros cfg self rnd option_num Hinit Hzero.
  unfold generate_optimized_schedule.
  destruct (place_all self rnd) as [st|e|] eqn:Hst.
  - pose proof (place_all_Ok self rnd st Hst) as [Hinv _].
    simpl. rewrite (compute_metrics_zero_division self st Hinv).
    + by eexists.
    + unfold total_possible_slots. rewrite Hzero. lia.
  - by eexists.
  - exfalso. by apply (for_each_subjects_finishes self rnd (subjects self)
                         (initial_locals self)).
Qed.

Lemma C5_witness :
  raises (generate_optimized_schedule zero_rooms_optimizer counting_source 1).
Proof.
  apply (C5_zero_rooms_never_return zero_rooms_config zero_rooms_optimizer
           counting_source 1); reflexivity.
Defined.

(** ** C8: a target of zero sessions *)

Section zero_target.
Variable self : ScheduleOptimizer.
Variable rnd : nat -> nat.
Hypothesis Htarget : classes_per_week self <= 0.

Lemma schedule_subject_zero_target st s : schedule_subject self rnd st s = Ok st.
Proof.
  unfold schedule_subject, loop_fuel.
  by rewrite (while_loop_stop self rnd 100) by (left; lia).
Qed.

Lemma place_all_zero_target : place_all self rnd = Ok (initial_locals self).
Proof.
  unfold place_all. generalize (initial_locals self) as st.
  induction (subjects self) as [|s l IH]; intros st; [reflexivity|].
  cbn [for_each]. rewrite schedule_subject_zero_target. apply IH.
Qed.

Lemma occupied_rooms_initial : occupied_rooms self (initial_locals self) = Ok 0.
Proof.
  unfold occupied_rooms.
  rewrite (comprehension_const _ _ 0).
  - simpl. f_equal. apply sum_all_zero. apply Forall_map. by apply Forall_true.
  - intros [day slot] Hin. simpl.
    apply list_elem_of_bind in Hin as (d & Hin & Hd).
    apply list_elem_of_bind in Hin as (s & Hin & Hs).
    apply list_elem_of_singleton in Hin. injection Hin as -> ->.
    destruct (initial_room_usage self d s Hd Hs) as [HR _].
    rewrite (bind_Ok_eq _ _ _ HR). reflexivity.
Qed.

Lemma faculty_balance_initial : faculty_balance (initial_locals self) = Ok 100.
Proof.
  destruct (faculty_balance_spec (initial_locals self)) as (b & Hb & Hzero & _).
  rewrite Hb. f_equal. apply Hzero.
  rewrite (faculty_loads_grid self _ (initial_Inv self)), initial_all_sessions.
  intros x (f & -> & _)%list_elem_of_fmap. reflexivity.
Qed.

(** With a target of zero and a room count other than 0 the run returns the
    empty grid: utilization 0, no conflict, balance 100, and a score of
    0.3 times the balance plus 0.4 times 100. *)
Lemma zero_target_run (option_num : Z) :
  classrooms self <> 0 -> days self <> [] -> time_slots self <> [] ->
  exists t,
    generate_optimized_schedule self rnd option_num = Ok t
    /\ all_sessions (tt_schedule t) = [] /\ grid_size (tt_schedule t) = 0
    /\ tt_conflicts t = []
    /\ (classroom_utilization (tt_metrics t) == 0)%Q
    /\ conflict_count (tt_metrics t) = 0
    /\ total_classes_scheduled (tt_metrics t) = 0
    /\ (faculty_load_balance (tt_metrics t) == 100)%Q
    /\ (optimization_score (tt_metrics t)
        == (3 # 10) * faculty_load_balance (tt_metrics t) + (4 # 10) * 100)%Q.
Proof.
  intros Hr Hd Hs.
  pose proof (total_possible_slots_nonzero self Hd Hs Hr) as Htot.
  unfold generate_optimized_schedule. rewrite place_all_zero_target. simpl.
  unfold compute_metrics, classroom_utilization_raw.
  rewrite occupied_rooms_initial. simpl.
  rewrite (proj2 (Z.eqb_neq _ _) Htot). simpl.
  rewrite faculty_balance_initial. simpl.
  eexists. split; [reflexivity|].
  cbn [tt_schedule tt_metrics tt_conflicts classroom_utilization
       faculty_load_balance conflict_count optimization_score
       total_classes_scheduled faculty_utilization].
  assert (Hu : (inject_Z 0 / inject_Z (total_possible_slots self) * 100 == 0)%Q).
  { unfold Qdiv. change (inject_Z 0) with 0%Q. by rewrite !Qmult_0_l. }
  assert (Hb : (round1 (inject_Z 100) == 100)%Q) by reflexivity.
  split; [apply initial_all_sessions|].
  split.
  { change (grid_size (schedule (initial_locals self)) = 0).
    rewrite grid_size_sessions, initial_all_sessions. reflexivity. }
  split; [reflexivity|].
  split; [rewrite (round1_proper _ 0 Hu); reflexivity|].
  split; [reflexivity|]. split; [reflexivity|]. split; [exact Hb|].
  rewrite Hb.
  rewrite (round1_proper _ 70); [reflexivity|].
  unfold optimization_score_raw. rewrite Hu. reflexivity.
Qed.
End zero_target.

(** C8, on the code. The claim says that one subject with a target of
    zero gives an empty grid and a utilization of 0.  With no room the
    placement loop is skipped and the utilization divides by zero.  (With a
    room count other than 0 the claim holds: [zero_target_run].) *)
Theorem C8_zero_target_zero_rooms :
  forall (rnd : nat -> nat) (option_num : Z),
    run zero_target_zero_rooms_config rnd option_num = Raise ZeroDivisionError.
Proof. intros rnd option_num. vm_compute. reflexivity. Qed.

(** * Further properties of the engine *)

(** ** What one iteration does *)

Section step_inversion.
Variable self : ScheduleOptimizer.
Variable rnd : nat -> nat.

(** An iteration that returns has drawn a day and a slot of the grid, a
    room and a batch number in range and a member of the pool, and has run
    [place] on them. *)
Lemma attempt_inv subject_name st ok st' :
  attempt self rnd subject_name st = Ok (ok, st') ->
  exists day slot room_num batch_num faculty_name,
    day ∈ days self /\ slot ∈ time_slots self
    /\ 1 <= room_num <= classrooms self /\ 1 <= batch_num <= batches self
    /\ faculty_name ∈ faculty_pool self
    /\ place self subject_name day slot ("Room " +:+ str room_num)
         ("Batch " +:+ str batch_num) faculty_name
         (with_pos st (rng_pos st + 5)) = Ok (ok, st').
Proof.
  unfold attempt. intros H.
  inv_bind H. destruct a as [day p1]. apply choice_Ok in Ha as [Hday ->].
  inv_bind H. destruct a as [slot p2]. apply choice_Ok in Ha as [Hslot ->].
  inv_bind H. destruct a as [room_num p3]. apply randint_Ok in Ha as [Hroom ->].
  inv_bind H. destruct a as [batch_num p4]. apply randint_Ok in Ha as [Hbatch ->].
  inv_bind H. destruct a as [faculty_name p5]. apply choice_Ok in Ha as [Hfac ->].
  exists day, slot, room_num, batch_num, faculty_name.
  replace (rng_pos st + 5)%nat with (S (S (S (S (S (rng_pos st)))))) by lia.
  done.
Qed.

(** A rejected placement changes nothing but the conflict list, to which it
    appends one record with the reasons of the failed checks, in the order
    of the checks. *)
Lemma place_rejected subject_name day slot room_name batch_name faculty_name st st' :
  place self subject_name day slot room_name batch_name faculty_name st
  = Ok (false, st') ->
  exists reasons,
    reasons <> [] /\ reasons `sublist_of` all_reasons
    /\ st' = {| schedule := schedule st; room_usage := room_usage st;
                faculty_load := faculty_load st;
                batch_schedule := batch_schedule st;
                conflicts := conflicts st ++
                  [{| c_subject := subject_name; c_day := day; c_slot := slot;
                      c_reasons := reasons |}];
                total := total st; rng_pos := rng_pos st |}.
Proof.
  unfold place. intros H.
  inv_bind H. rename a into R. inv_bind H. rename a into B.
  inv_bind H. rename a into n.
  destruct (negb _) eqn:Hcan.
  - inv_bind H. inv_bind H. inv_bind H. inv_bind H. discriminate H.
  - injection H as <-. eexists. split; [|split; [|reflexivity]].
    + apply negb_false_iff in Hcan.
      destruct (bool_decide (room_name ∈ R)); [done|].
      destruct (bool_decide (batch_name ∈ B)); [done|].
      destruct (max_daily_load self <=? n); [done|].
      destruct (faculty_busy st day slot faculty_name); [done|].
      discriminate.
    + unfold all_reasons.
      destruct (bool_decide (room_name ∈ R)), (bool_decide (batch_name ∈ B)),
        (max_daily_load self <=? n), (faculty_busy st day slot faculty_name);
        simpl;
        repeat first [apply sublist_nil | apply sublist_skip | apply sublist_cons].
Qed.

(** A committed placement passed the four checks and stored the session
    and the three updates of the tracking structures. *)
Lemma place_committed subject_name day slot room_name batch_name faculty_name st st' :
  Inv self st -> day ∈ days self ->
  place self subject_name day slot room_name batch_name faculty_name st
  = Ok (true, st') ->
  exists R B n slots ru' bs' fl',
    getitem2 (room_usage st) day slot = Ok R
    /\ getitem2 (batch_schedule st) day slot = Ok B
    /\ getitem2 (faculty_load st) faculty_name day = Ok n
    /\ (room_name ∉ R) /\ (batch_name ∉ B) /\ n < max_daily_load self
    /\ faculty_busy st day slot faculty_name = false
    /\ Dict.get (schedule st) day = Some slots
    /\ setitem2 (room_usage st) day slot ({[ room_name ]} ∪ R) = Ok ru'
    /\ setitem2 (batch_schedule st) day slot ({[ batch_name ]} ∪ B) = Ok bs'
    /\ setitem2 (faculty_load st) faculty_name day (n + 1) = Ok fl'
    /\ st' = {| schedule :=
                  Dict.set (schedule st) day
                    (Dict.set slots slot
                       (Dict.set (default [] (Dict.get slots slot))
                          (class_id subject_name batch_name room_name)
                          {| subject := subject_name; room := room_name;
                             batch := batch_name; faculty := faculty_name |}));
                room_usage := ru'; faculty_load := fl'; batch_schedule := bs';
                conflicts := conflicts st; total := total st + 1;
                rng_pos := rng_pos st |}.
Proof.
  intros Hinv Hday. unfold place. intros H.
  inv_bind H. rename a into R, Ha into HR.
  inv_bind H. rename a into B, Ha into HB.
  inv_bind H. rename a into n, Ha into Hn.
  destruct (negb _) eqn:Hcan; [|discriminate H].
  apply negb_true_iff in Hcan.
  apply orb_false_iff in Hcan as [Hcan Hbusy].
  apply orb_false_iff in Hcan as [Hcan Hload].
  apply orb_false_iff in Hcan as [Hroom Hbatch].
  apply bool_decide_eq_false_1 in Hroom, Hbatch. apply Z.leb_gt in Hload.
  inv_bind H. rename a into slots. apply getitem_Ok in Ha.
  inv_bind H. rename a into ru', Ha0 into Hru'.
  inv_bind H. rename a into bs', Ha0 into Hbs'.
  inv_bind H. rename a into fl', Ha0 into Hfl'.
  injection H as <-.
  exists R, B, n, slots, ru', bs', fl'. done.
Qed.
End step_inversion.

(** ** Invariants of a whole run *)

Section run_invariant.
Variable self : ScheduleOptimizer.
Variable rnd : nat -> nat.
Variable P : Locals -> Prop.
Hypothesis P_attempt : forall s st ok st',
  s ∈ subjects self -> Inv self st -> P st ->
  attempt self rnd s st = Ok (ok, st') -> P st'.

Lemma while_loop_preserves fuel s c a st c' a' st' :
  s ∈ subjects self -> Inv self st -> P st ->
  while_loop self rnd fuel s c a st = Ok (c', a', st') -> P st'.
Proof.
  intros Hs. revert c a st.
  induction fuel as [|fuel IH]; intros c a st Hinv HP; [discriminate|].
  simpl. destruct (_ && _).
  - intros H. inv_bind H. destruct a0 as [ok st1].
    pose proof (P_attempt _ _ _ _ Hs Hinv HP Ha) as HP1.
    apply (attempt_Ok self rnd s st ok st1 Hinv) in Ha as (Hinv1 & _).
    by apply (IH _ _ _ Hinv1 HP1) in H.
  - by intros [= <- <- <-].
Qed.

Lemma for_each_preserves l st st' :
  l ⊆ subjects self -> Inv self st -> P st ->
  for_each (schedule_subject self rnd) l st = Ok st' -> P st'.
Proof.
  revert st. induction l as [|s l IH]; intros st Hl Hinv HP; simpl.
  - by intros [= <-].
  - intros H. inv_bind H. rename a into st1.
    assert (Hs : s ∈ subjects self) by (apply Hl; left).
    destruct (schedule_subject_Ok self rnd st s st1 Hinv Ha)
      as (c' & a' & Hw & Hinv1 & _).
    apply (IH st1); [|done| |done].
    + intros x Hx. apply Hl. by right.
    + by apply (while_loop_preserves _ _ _ _ _ _ _ _ Hs Hinv HP Hw).
Qed.

(** A property of the initial locals that every returning iteration keeps
    holds when the placement loops are over. *)
Lemma place_all_preserves st :
  P (initial_locals self) -> place_all self rnd = Ok st -> P st.
Proof.
  intros HP. apply for_each_preserves; [done | apply initial_Inv | done].
Qed.
End run_invariant.

(** ** The two outcomes of an iteration *)

Section attempt_outcomes.
Variable self : ScheduleOptimizer.
Variable rnd : nat -> nat.

(** What a returning iteration has drawn and done, on the views of the
    grid and of the tracking sets. *)
Lemma attempt_cases subject_name st ok st' :
  Inv self st ->
  attempt self rnd subject_name st = Ok (ok, st') ->
  exists day slot room_num batch_num faculty_name,
    day ∈ days self /\ slot ∈ time_slots self
    /\ 1 <= room_num <= classrooms self /\ 1 <= batch_num <= batches self
    /\ faculty_name ∈ faculty_pool self
    /\ rng_pos st' = (rng_pos st + 5)%nat
    /\ if ok then
         let v := {| subject := subject_name; room := "Room " +:+ str room_num;
                     batch := "Batch " +:+ str batch_num;
                     faculty := faculty_name |} in
         grid_entries (schedule st') ≡ₚ (day, slot, v) :: grid_entries (schedule st)
         /\ (forall d s,
               cell_at (schedule st') d s
               = if bool_decide ((day, slot) = (d, s))
                 then cell_at (schedule st) day slot
                      ++ [(class_id subject_name (batch v) (room v), v)]
                 else cell_at (schedule st) d s)
         /\ (forall d s,
               rooms_at st' d s
               = if bool_decide ((day, slot) = (d, s))
                 then {[ room v ]} ∪ rooms_at st day slot
                 else rooms_at st d s)
         /\ (room v ∉ rooms_at st day slot)
         /\ faculty_busy st day slot faculty_name = false
         /\ conflicts st' = conflicts st /\ total st' = total st + 1
       else
         schedule st' = schedule st /\ room_usage st' = room_usage st
         /\ batch_schedule st' = batch_schedule st
         /\ faculty_load st' = faculty_load st
         /\ total st' = total st
         /\ exists reasons,
              reasons <> [] /\ reasons `sublist_of` all_reasons
              /\ conflicts st' = conflicts st ++
                   [{| c_subject := subject_name; c_day := day; c_slot := slot;
                       c_reasons := reasons |}].
Proof.
  intros Hinv Ha.
  destruct (attempt_inv self rnd _ _ _ _ Ha)
    as (day & slot & room_num & batch_num & f & Hday & Hslot & Hroom & Hbatch & Hf & Hp).
  exists day, slot, room_num, batch_num, f.
  do 5 (split; [done|]).
  set (st0 := with_pos st (rng_pos st + 5)) in Hp.
  assert (Hinv0 : Inv self st0)
    by exact (Inv_ext self st st0 eq_refl eq_refl eq_refl eq_refl eq_refl Hinv).
  destruct ok.
  - destruct (place_committed self _ _ _ _ _ _ _ _ Hinv0 Hday Hp)
      as (R & B & n & slots & ru' & bs' & fl' & HR & HB & Hn & HnR & HnB & Hload
          & Hbusy & Hslots & Hru' & Hbs' & Hfl' & ->).
    assert (HRat : rooms_at st day slot = R).
    { unfold rooms_at. change (room_usage st) with (room_usage st0). by rewrite HR. }
    split; [done|]. cbn zeta. split; [|split; [|split; [|split; [|done]]]].
    + exact (commit_grid_entries self st0 subject_name day slot _ _ f B slots Hinv0
               (has_underscore_room _) (has_underscore_batch _) HB HnB Hslots).
    + exact (commit_cell self st0 subject_name day slot _ _ f B slots Hinv0
               (has_underscore_room _) (has_underscore_batch _) HB HnB Hslots).
    + intros d s. rewrite HRat.
      exact (commit_rooms_at st0 subject_name day slot _ _ f R slots ru' bs' fl' Hru' d s).
    + by rewrite HRat.
  - destruct (place_rejected self _ _ _ _ _ _ _ _ Hp) as (reasons & Hne & Hsub & ->).
    simpl. do 6 (split; [done|]). by exists reasons.
Qed.
End attempt_outcomes.

(** ** Sessions and conflicts of a run *)

Section run_contents.
Variable self : ScheduleOptimizer.
Variable rnd : nat -> nat.

Lemma place_all_sessions_ok st :
  place_all self rnd = Ok st -> Forall (session_ok self) (grid_entries (schedule st)).
Proof.
  apply (place_all_preserves self rnd
           (fun st => Forall (session_ok self) (grid_entries (schedule st)))).
  - intros s st0 ok st' Hs Hinv HP Ha.
    destruct (attempt_cases self rnd _ _ _ _ Hinv Ha)
      as (day & slot & rn & bn & f & Hday & Hslot & Hrn & Hbn & Hf & _ & Hcase).
    destruct ok.
    + destruct Hcase as (Hperm & _). rewrite Hperm. constructor; [|done].
      unfold session_ok. simpl. eauto 10.
    + destruct Hcase as (-> & _). done.
  - rewrite initial_entries. constructor.
Qed.

Lemma place_all_conflicts_ok st :
  place_all self rnd = Ok st -> Forall (conflict_ok self) (conflicts st).
Proof.
  apply (place_all_preserves self rnd
           (fun st => Forall (conflict_ok self) (conflicts st))).
  - intros s st0 ok st' Hs Hinv HP Ha.
    destruct (attempt_cases self rnd _ _ _ _ Hinv Ha)
      as (day & slot & rn & bn & f & Hday & Hslot & Hrn & Hbn & Hf & _ & Hcase).
    destruct ok.
    + destruct Hcase as (_ & _ & _ & _ & _ & -> & _). done.
    + destruct Hcase as (_ & _ & _ & _ & _ & reasons & Hne & Hsub & ->).
      apply Forall_app. split; [done|]. constructor; [|constructor].
      unfold conflict_ok. simpl. done.
  - constructor.
Qed.

Lemma attempt_entries_in_cells s st ok st' :
  Inv self st -> entries_in_cells st ->
  attempt self rnd s st = Ok (ok, st') -> entries_in_cells st'.
Proof.
  intros Hinv HP Ha.
  destruct (attempt_cases self rnd _ _ _ _ Hinv Ha)
    as (day & slot & rn & bn & f & _ & _ & _ & _ & _ & _ & Hcase).
  destruct ok.
  - destruct Hcase as (Hperm & Hcell & _). intros d sl v.
    rewrite Hperm, Hcell. intros [[= -> -> ->]|Hin]%elem_of_cons.
    + rewrite bool_decide_eq_true_2 by done.
      unfold Dict.values. rewrite map_app. apply elem_of_app. right. simpl. left.
    + apply HP in Hin. case_bool_decide as Heq; [|done].
      injection Heq as -> ->.
      unfold Dict.values. rewrite map_app. apply elem_of_app. by left.
  - destruct Hcase as (Hsch & _). unfold entries_in_cells. by rewrite Hsch.
Qed.

Lemma place_all_entries_in_cells st :
  place_all self rnd = Ok st -> entries_in_cells st.
Proof.
  apply (place_all_preserves self rnd entries_in_cells).
  - intros s st0 ok st' _ Hinv HP Ha. by apply (attempt_entries_in_cells s st0 ok).
  - intros d s v. rewrite initial_entries. by intros ?%elem_of_nil.
Qed.

Lemma place_all_faculty_bookings st :
  place_all self rnd = Ok st -> NoDup (faculty_bookings (schedule st)).
Proof.
  intros H.
  enough (entries_in_cells st /\ NoDup (faculty_bookings (schedule st))) by tauto.
  revert H.
  apply (place_all_preserves self rnd
           (fun st => entries_in_cells st /\ NoDup (faculty_bookings (schedule st)))).
  - intros s st0 ok st' _ Hinv [HP Hnd] Ha.
    split; [by apply (attempt_entries_in_cells s st0 ok)|].
    destruct (attempt_cases self rnd _ _ _ _ Hinv Ha)
      as (day & slot & rn & bn & f & _ & _ & _ & _ & _ & _ & Hcase).
    destruct ok.
    + destruct Hcase as (Hperm & _ & _ & _ & Hbusy & _).
      unfold faculty_bookings. rewrite Hperm. simpl.
      apply NoDup_cons. split; [|exact Hnd].
      intros Hin. apply list_elem_of_In, in_map_iff in Hin
        as ([[d sl] v] & [= -> -> Hfac] & Hin%list_elem_of_In).
      apply HP in Hin. unfold Dict.values in Hin.
      apply list_elem_of_In, in_map_iff in Hin as ([k v'] & Hv & Hin%list_elem_of_In).
      simpl in Hv. subst v'.
      by apply (faculty_busy_false _ _ _ _ Hbusy k v Hin).
    + destruct Hcase as (-> & _). done.
  - split.
    + intros d s v. rewrite initial_entries. by intros ?%elem_of_nil.
    + unfold faculty_bookings. rewrite initial_entries. constructor.
Qed.
End run_contents.

(** Every session of a returned timetable lies on the time grid of the
    optimizer (one of its days, one of its slots), belongs to a subject of
    the configuration, is held in a room "Room n" with 1 <= n <= classrooms
    by a batch "Batch m" with 1 <= m <= batches, and is taught by a member
    of the faculty pool. *)
Theorem sessions_within_configuration :
  forall (self : ScheduleOptimizer) (rnd : nat -> nat) (option_num : Z) (t : Timetable),
    generate_optimized_schedule self rnd option_num = Ok t ->
    forall day slot v, (day, slot, v) ∈ grid_entries (tt_schedule t) ->
      day ∈ days self /\ slot ∈ time_slots self
      /\ subject v ∈ subjects self
      /\ (exists n, 1 <= n <= classrooms self /\ room v = "Room " +:+ str n)
      /\ (exists n, 1 <= n <= batches self /\ batch v = "Batch " +:+ str n)
      /\ faculty v ∈ faculty_pool self.
Proof.
  intros self rnd option_num t Hgen day slot v Hin.
  destruct (generate_Ok self rnd option_num t Hgen)
    as (st & u & b & Hpl & _ & _ & _ & Hsch & _).
  rewrite Hsch in Hin.
  pose proof (place_all_sessions_ok self rnd st Hpl) as Hall.
  rewrite Forall_forall in Hall. exact (Hall _ Hin).
Qed.

Lemma sessions_within_configuration_witness :
  generate_optimized_schedule small_optimizer counting_source 1 = Ok small_timetable
  /\ forall day slot v, (day, slot, v) ∈ grid_entries (tt_schedule small_timetable) ->
       day ∈ days small_optimizer /\ slot ∈ time_slots small_optimizer
       /\ subject v ∈ subjects small_optimizer
       /\ (exists n, 1 <= n <= classrooms small_optimizer /\ room v = "Room " +:+ str n)
       /\ (exists n, 1 <= n <= batches small_optimizer /\ batch v = "Batch " +:+ str n)
       /\ faculty v ∈ faculty_pool small_optimizer.
Proof.
  split; [vm_compute; reflexivity|].
  apply (sessions_within_configuration small_optimizer counting_source 1).
  vm_compute. reflexivity.
Defined.

(** No faculty member is booked twice in one (day, slot) of a returned
    timetable: the (day, slot, faculty) triples of its sessions are pairwise
    different. *)
Theorem faculty_never_double_booked :
  forall (self : ScheduleOptimizer) (rnd : nat -> nat) (option_num : Z) (t : Timetable),
    generate_optimized_schedule self rnd option_num = Ok t ->
    NoDup (faculty_bookings (tt_schedule t)).
Proof.
  intros self rnd option_num t Hgen.
  destruct (generate_Ok self rnd option_num t Hgen)
    as (st & u & b & Hpl & _ & _ & _ & -> & _).
  by apply (place_all_faculty_bookings self rnd).
Qed.

Lemma faculty_never_double_booked_witness :
  NoDup (faculty_bookings (tt_schedule small_timetable)).
Proof.
  apply (faculty_never_double_booked small_optimizer counting_source 1).
  vm_compute. reflexivity.
Defined.

(** Every conflict record of a returned timetable names a subject of the
    configuration, a day and a slot of the time grid, and carries between
    one and four reasons: a non-empty selection of "Room occupied", "Batch
    has another class", "Faculty overloaded", "Faculty conflict", in this
    order and without repetition. *)
Theorem conflicts_well_formed :
  forall (self : ScheduleOptimizer) (rnd : nat -> nat) (option_num : Z) (t : Timetable),
    generate_optimized_schedule self rnd option_num = Ok t ->
    forall c, c ∈ tt_conflicts t ->
      c_subject c ∈ subjects self /\ c_day c ∈ days self
      /\ c_slot c ∈ time_slots self
      /\ c_reasons c <> [] /\ c_reasons c `sublist_of` all_reasons
      /\ (1 <= length (c_reasons c) <= 4)%nat.
Proof.
  intros self rnd option_num t Hgen c Hin.
  destruct (generate_Ok self rnd option_num t Hgen)
    as (st & u & b & Hpl & _ & _ & _ & _ & Hcs & _).
  rewrite Hcs in Hin.
  pose proof (place_all_conflicts_ok self rnd st Hpl) as Hall.
  rewrite Forall_forall in Hall.
  destruct (Hall _ Hin) as (H1 & H2 & H3 & H4 & H5).
  do 5 (split; [done|]).
  apply sublist_length in H5. unfold all_reasons in H5. simpl in H5.
  destruct (c_reasons c); [done|]. simpl in *. lia.
Qed.

Lemma conflicts_well_formed_witness :
  generate_optimized_schedule negative_load_optimizer counting_source 1
  = Ok negative_load_timetable
  /\ forall c, c ∈ tt_conflicts negative_load_timetable ->
       c_subject c ∈ subjects negative_load_optimizer
       /\ c_day c ∈ days negative_load_optimizer
       /\ c_slot c ∈ time_slots negative_load_optimizer
       /\ c_reasons c <> [] /\ c_reasons c `sublist_of` all_reasons
       /\ (1 <= length (c_reasons c) <= 4)%nat.
Proof.
  split; [vm_compute; reflexivity|].
  apply (conflicts_well_formed negative_load_optimizer counting_source 1).
  vm_compute. reflexivity.
Defined.

(** ** Accounting of a run *)

Section accounting.
Variable self : ScheduleOptimizer.
Variable rnd : nat -> nat.

(** The sessions that one [while] loop adds belong to its subject, and
    there are as many as the loop counted. *)
Lemma while_loop_sessions fuel s c a st c' a' st' :
  Inv self st ->
  while_loop self rnd fuel s c a st = Ok (c', a', st') ->
  exists new,
    all_sessions (schedule st') ≡ₚ new ++ all_sessions (schedule st)
    /\ Forall (fun v => subject v = s) new
    /\ Z.of_nat (length new) = c' - c.
Proof.
  revert c a st. induction fuel as [|fuel IH]; intros c a st Hinv; [discriminate|].
  simpl. destruct (_ && _).
  - intros H. inv_bind H. destruct a0 as [ok st1].
    destruct (attempt_cases self rnd _ _ _ _ Hinv Ha)
      as (day & slot & rn & bn & f & _ & _ & _ & _ & _ & _ & Hcase).
    apply (attempt_Ok self rnd s st ok st1 Hinv) in Ha as (Hinv1 & _).
    destruct (IH _ _ _ Hinv1 H) as (new & Hperm & Hall & Hlen).
    destruct ok.
    + destruct Hcase as (Hp1 & _).
      eexists (new ++ [_]). split; [|split].
      * rewrite Hperm. unfold all_sessions at 1. rewrite Hp1. simpl.
        rewrite <- app_assoc. simpl. reflexivity.
      * apply Forall_app. split; [done|]. by constructor.
      * rewrite length_app. simpl. lia.
    + destruct Hcase as (Hsch & _). exists new. rewrite <- Hsch. done.
  - intros [= <- <- <-]. exists []. split; [done|]. split; [constructor|simpl; lia].
Qed.

Lemma length_filter_all {A} (P : A -> Prop) `{forall x, Decision (P x)} (l : list A) :
  Forall P l -> length (filter P l) = length l.
Proof.
  induction 1 as [|x l Hx Hl IH]; [done|].
  rewrite filter_cons_True by done. simpl. by rewrite IH.
Qed.

Lemma length_filter_none {A} (P : A -> Prop) `{forall x, Decision (P x)} (l : list A) :
  Forall (fun x => ~ P x) l -> length (filter P l) = 0%nat.
Proof.
  induction 1 as [|x l Hx Hl IH]; [done|].
  by rewrite filter_cons_False.
Qed.

(** One subject's loop, seen from any subject [x]. *)
Lemma schedule_subject_counts st s st' x :
  Inv self st -> schedule_subject self rnd st s = Ok st' ->
  exists placed attempts : Z,
    0 <= placed <= Z.max 0 (classes_per_week self)
    /\ placed <= attempts <= 100
    /\ (placed = Z.max 0 (classes_per_week self) \/ attempts = 100)
    /\ Z.of_nat (scheduled_for x (schedule st'))
       = Z.of_nat (scheduled_for x (schedule st))
         + (if bool_decide (s = x) then placed else 0)
    /\ Z.of_nat (conflicts_for x (conflicts st'))
       = Z.of_nat (conflicts_for x (conflicts st))
         + (if bool_decide (s = x) then attempts - placed else 0)
    /\ total st' = total st + placed
    /\ Z.of_nat (length (conflicts st'))
       = Z.of_nat (length (conflicts st)) + (attempts - placed).
Proof.
  intros Hinv Hs.
  destruct (schedule_subject_Ok self rnd st s st' Hinv Hs)
    as (c' & a' & Hw & _ & Ha0 & Ha100 & Hstop & Hc & Htot & _ & cs & Hcs & Hlen & Hall).
  destruct (while_loop_sessions _ _ _ _ _ _ _ _ Hinv Hw) as (new & Hperm & Hnew & Hnlen).
  exists c', a'.
  split; [lia|]. split; [lia|]. split; [lia|].
  split; [|split; [|split]].
  - unfold scheduled_for. rewrite Hperm, filter_app, length_app.
    case_bool_decide as Hx.
    + subst x. rewrite (length_filter_all _ new) by done. lia.
    + rewrite (length_filter_none _ new); [lia|].
      eapply Forall_impl; [exact Hnew|]. simpl. congruence.
  - unfold conflicts_for. rewrite Hcs, filter_app, length_app.
    case_bool_decide as Hx.
    + subst x. rewrite (length_filter_all _ cs) by done. lia.
    + rewrite (length_filter_none _ cs); [lia|].
      eapply Forall_impl; [exact Hall|]. simpl. congruence.
  - lia.
  - rewrite Hcs, length_app. lia.
Qed.

Lemma for_each_counts l st st' x :
  Inv self st -> for_each (schedule_subject self rnd) l st = Ok st' ->
  let dp := Z.of_nat (scheduled_for x (schedule st'))
            - Z.of_nat (scheduled_for x (schedule st)) in
  let dq := Z.of_nat (conflicts_for x (conflicts st'))
            - Z.of_nat (conflicts_for x (conflicts st)) in
  let k := Z.of_nat (occurrences x l) in
  0 <= dp <= k * Z.max 0 (classes_per_week self)
  /\ 0 <= dq /\ dp + dq <= 100 * k
  /\ (k = 1 -> dp = Z.max 0 (classes_per_week self) \/ dp + dq = 100).
Proof.
  revert st. induction l as [|s l IH]; intros st Hinv; simpl.
  - intros [= <-]. cbn. lia.
  - intros H. inv_bind H. rename a into st1.
    destruct (schedule_subject_counts st s st1 x Hinv Ha)
      as (p & a & Hp & Hpa & Hstop & Hsx & Hcx & _).
    assert (Hinv1 : Inv self st1).
    { by destruct (schedule_subject_Ok self rnd st s st1 Hinv Ha)
        as (? & ? & _ & ? & _). }
    specialize (IH st1 Hinv1 H). cbn zeta in IH.
    unfold occurrences in *. rewrite filter_cons.
    destruct (decide (s = x)) as [->|Hne].
    + rewrite bool_decide_eq_true_2 in Hsx, Hcx by done. simpl length.
      nia.
    + rewrite bool_decide_eq_false_2 in Hsx, Hcx by done. nia.
Qed.

Lemma for_each_totals l st st' :
  Inv self st -> for_each (schedule_subject self rnd) l st = Ok st' ->
  total st <= total st'
  /\ total st' - total st <= Z.of_nat (length l) * Z.max 0 (classes_per_week self)
  /\ (total st' + Z.of_nat (length (conflicts st')))
     - (total st + Z.of_nat (length (conflicts st))) <= 100 * Z.of_nat (length l).
Proof.
  revert st. induction l as [|s l IH]; intros st Hinv; simpl.
  - intros [= <-]. lia.
  - intros H. inv_bind H. rename a into st1.
    destruct (schedule_subject_counts st s st1 s Hinv Ha)
      as (p & a & Hp & Hpa & Hstop & _ & _ & Htot & Hcs).
    assert (Hinv1 : Inv self st1).
    { by destruct (schedule_subject_Ok self rnd st s st1 Hinv Ha)
        as (? & ? & _ & ? & _). }
    specialize (IH st1 Hinv1 H). nia.
Qed.

(** Five draws per iteration, and one session or one conflict record per
    iteration. *)
Lemma place_all_draws st :
  place_all self rnd = Ok st ->
  Z.of_nat (rng_pos st) = 5 * (total st + Z.of_nat (length (conflicts st))).
Proof.
  apply (place_all_preserves self rnd
    (fun st => Z.of_nat (rng_pos st) = 5 * (total st + Z.of_nat (length (conflicts st))))).
  - intros s st0 ok st' _ Hinv HP Ha.
    destruct (attempt_cases self rnd _ _ _ _ Hinv Ha)
      as (day & slot & rn & bn & f & _ & _ & _ & _ & _ & Hpos & Hcase).
    destruct ok.
    + destruct Hcase as (_ & _ & _ & _ & _ & -> & ->). lia.
    + destruct Hcase as (_ & _ & _ & _ & -> & reasons & _ & _ & ->).
      rewrite length_app. simpl. lia.
  - done.
Qed.
End accounting.

(** Subject by subject: a subject gets at most its weekly target for each
    time it is listed, its sessions and conflict records together are at
    most 100 for each time it is listed, and a subject listed once either
    reaches the target or has used all 100 attempts (sessions plus conflict
    records).  A subject that is not listed has no session and no conflict
    record. *)
Theorem per_subject_accounting :
  forall (self : ScheduleOptimizer) (rnd : nat -> nat) (option_num : Z) (t : Timetable),
    generate_optimized_schedule self rnd option_num = Ok t ->
    forall s : string,
      let placed := Z.of_nat (scheduled_for s (tt_schedule t)) in
      let rejected := Z.of_nat (conflicts_for s (tt_conflicts t)) in
      let listed := Z.of_nat (occurrences s (subjects self)) in
      placed <= listed * Z.max 0 (classes_per_week self)
      /\ placed + rejected <= 100 * listed
      /\ (listed = 1 ->
          placed = Z.max 0 (classes_per_week self) \/ placed + rejected = 100).
Proof.
  intros self rnd option_num t Hgen s.
  destruct (generate_Ok self rnd option_num t Hgen)
    as (st & u & b & Hpl & _ & _ & _ & -> & -> & _).
  pose proof (for_each_counts self rnd (subjects self) (initial_locals self) st s
                (initial_Inv self) Hpl) as H.
  cbn zeta in H |- *.
  assert (H0 : scheduled_for s (schedule (initial_locals self)) = 0%nat)
    by (unfold scheduled_for; by rewrite initial_all_sessions).
  rewrite H0 in H.
  change (conflicts (initial_locals self)) with (@nil Conflict) in H.
  change (conflicts_for s []) with O in H.
  lia.
Qed.

Lemma per_subject_accounting_witness :
  generate_optimized_schedule small_optimizer counting_source 1 = Ok small_timetable
  /\ forall s : string,
       let placed := Z.of_nat (scheduled_for s (tt_schedule small_timetable)) in
       let rejected := Z.of_nat (conflicts_for s (tt_conflicts small_timetable)) in
       let listed := Z.of_nat (occurrences s (subjects small_optimizer)) in
       placed <= listed * Z.max 0 (classes_per_week small_optimizer)
       /\ placed + rejected <= 100 * listed
       /\ (listed = 1 ->
           placed = Z.max 0 (classes_per_week small_optimizer)
           \/ placed + rejected = 100).
Proof.
  split; [vm_compute; reflexivity|].
  apply (per_subject_accounting small_optimizer counting_source 1).
  vm_compute. reflexivity.
Defined.

(** The whole run: the number of scheduled classes is at most the weekly
    target times the number of subjects, classes and conflicts together are
    at most 100 per subject, and the random source has been read exactly
    five times for every class and every conflict. *)
Theorem run_accounting :
  forall (self : ScheduleOptimizer) (rnd : nat -> nat) (option_num : Z) (t : Timetable),
    generate_optimized_schedule self rnd option_num = Ok t ->
    let m := tt_metrics t in
    let n := Z.of_nat (length (subjects self)) in
    0 <= total_classes_scheduled m <= n * Z.max 0 (classes_per_week self)
    /\ 0 <= conflict_count m
    /\ total_classes_scheduled m + conflict_count m <= 100 * n
    /\ exists st, place_all self rnd = Ok st
         /\ Z.of_nat (rng_pos st)
            = 5 * (total_classes_scheduled m + conflict_count m).
Proof.
  intros self rnd option_num t Hgen.
  destruct (generate_Ok self rnd option_num t Hgen)
    as (st & u & b & Hpl & _ & _ & _ & _ & _ & ->).
  cbn [total_classes_scheduled conflict_count].
  pose proof (for_each_totals self rnd (subjects self) (initial_locals self) st
                (initial_Inv self) Hpl) as H.
  change (total (initial_locals self)) with 0 in H.
  change (conflicts (initial_locals self)) with (@nil Conflict) in H.
  simpl length in H.
  split; [lia|]. split; [lia|]. split; [lia|].
  exists st. split; [done|]. exact (place_all_draws self rnd st Hpl).
Qed.

Lemma run_accounting_witness :
  let m := tt_metrics small_timetable in
  let n := Z.of_nat (length (subjects small_optimizer)) in
  0 <= total_classes_scheduled m <= n * Z.max 0 (classes_per_week small_optimizer)
  /\ 0 <= conflict_count m
  /\ total_classes_scheduled m + conflict_count m <= 100 * n
  /\ exists st, place_all small_optimizer counting_source = Ok st
       /\ Z.of_nat (rng_pos st)
          = 5 * (total_classes_scheduled m + conflict_count m).
Proof.
  apply (run_accounting small_optimizer counting_source 1).
  vm_compute. reflexivity.
Defined.

(** ** Occupancy and utilization *)

Lemma comprehension_map {A B} (f : A -> Result B) (g : A -> B) (l : list A) :
  (forall x, x ∈ l -> f x = Ok (g x)) -> comprehension f l = Ok (map g l).
Proof.
  induction l as [|x l IH]; intros Hall; simpl; [reflexivity|].
  rewrite (bind_Ok_eq _ _ _ (Hall x ltac:(left))).
  rewrite (bind_Ok_eq _ _ _ (IH (fun z Hz => Hall z ltac:(by right)))).
  reflexivity.
Qed.

Lemma elem_of_grid_cells (self : ScheduleOptimizer) (d s : string) :
  (d, s) ∈ grid_cells self <-> d ∈ days self /\ s ∈ time_slots self.
Proof.
  unfold grid_cells. rewrite list_elem_of_bind. split.
  - intros (d' & Hin & Hd). apply list_elem_of_bind in Hin as (s' & Hin & Hs).
    apply list_elem_of_singleton in Hin. by injection Hin as -> ->.
  - intros [Hd Hs]. exists d. split; [|done].
    apply list_elem_of_bind. exists s. split; [|done]. by left.
Qed.

Lemma NoDup_grid_cells (self : ScheduleOptimizer) :
  NoDup (days self) -> NoDup (time_slots self) -> NoDup (grid_cells self).
Proof.
  intros Hd Hs. unfold grid_cells. apply NoDup_bind; [| |done].
  - intros d1 d2 [d s] _ _ H1 H2.
    apply list_elem_of_bind in H1 as (s1 & H1 & _).
    apply list_elem_of_bind in H2 as (s2 & H2 & _).
    apply list_elem_of_singleton in H1, H2. congruence.
  - intros d _. apply NoDup_bind; [| |done].
    + intros s1 s2 [d' s] _ _ H1 H2.
      apply list_elem_of_singleton in H1, H2. congruence.
    + intros s _. apply NoDup_singleton.
Qed.

(** Adding one to the summand of one element of a list without
    repetition adds one to the sum. *)
Lemma sum_map_bump {A} `{EqDecision A} (f g : A -> Z) (x : A) (l : list A) :
  NoDup l -> x ∈ l ->
  (forall y, g y = if bool_decide (x = y) then f y + 1 else f y) ->
  sum (map g l) = sum (map f l) + 1.
Proof.
  intros Hnd Hx Hg.
  assert (Hout : forall l', x ∉ l' -> sum (map g l') = sum (map f l')).
  { induction l' as [|y l' IH]; intros Hn; [done|]. simpl.
    rewrite !sum_cons, IH, Hg by (intros ?; apply Hn; by right).
    rewrite bool_decide_eq_false_2; [done|]. intros ->. apply Hn. left. }
  induction Hnd as [|y l Hy Hnd IH]; [by apply elem_of_nil in Hx|].
  simpl. rewrite !sum_cons, Hg.
  apply elem_of_cons in Hx as [<-|Hx].
  - rewrite bool_decide_eq_true_2 by done. rewrite Hout by done. lia.
  - rewrite bool_decide_eq_false_2 by (intros ->; done). rewrite IH by done. lia.
Qed.

Section occupancy_laws.
Variable self : ScheduleOptimizer.
Variable rnd : nat -> nat.

Lemma occupied_rooms_occupancy st :
  Inv self st -> occupied_rooms self st = Ok (occupancy self st).
Proof.
  intros Hinv. unfold occupied_rooms.
  rewrite (comprehension_map _
             (fun ds => Z.of_nat (size (rooms_at st ds.1 ds.2)))); [done|].
  intros [d s] [Hd Hs]%elem_of_grid_cells. simpl.
  destruct (inv_rooms _ _ Hinv d s Hd Hs) as [R HR].
  unfold rooms_at. rewrite HR. reflexivity.
Qed.

Lemma occupancy_initial : occupancy self (initial_locals self) = 0.
Proof.
  unfold occupancy. apply sum_all_zero. apply Forall_map, Forall_forall.
  intros [d s] [Hd Hs]%elem_of_grid_cells. simpl.
  destruct (initial_room_usage self d s Hd Hs) as [HR _].
  unfold rooms_at. rewrite HR. done.
Qed.

(** The occupancy sets hold one room for every scheduled class. *)
Lemma place_all_occupancy st :
  NoDup (days self) -> NoDup (time_slots self) ->
  place_all self rnd = Ok st -> occupancy self st = total st.
Proof.
  intros Hdays Hslots.
  apply (place_all_preserves self rnd (fun st => occupancy self st = total st)).
  - intros s st0 ok st' _ Hinv HP Ha.
    destruct (attempt_cases self rnd _ _ _ _ Hinv Ha)
      as (day & slot & rn & bn & f & Hday & Hslot & _ & _ & _ & _ & Hcase).
    destruct ok.
    + destruct Hcase as (_ & _ & Hrooms & Hfree & _ & _ & ->).
      rewrite <- HP. unfold occupancy.
      apply (sum_map_bump _ _ (day, slot)).
      * by apply NoDup_grid_cells.
      * by apply elem_of_grid_cells.
      * intros [d sl]. simpl. rewrite Hrooms.
        case_bool_decide as Heq; [|done]. injection Heq as <- <-.
        rewrite size_union by (by apply disjoint_singleton_l).
        rewrite size_singleton. lia.
    + destruct Hcase as (_ & Hru & _ & _ & -> & _).
      rewrite <- HP. unfold occupancy, rooms_at. by rewrite Hru.
  - apply occupancy_initial.
Qed.

Lemma elem_of_bookable d s r :
  (d, s, r) ∈ bookable self
  <-> d ∈ days self /\ s ∈ time_slots self
      /\ exists n, 1 <= n <= classrooms self /\ r = "Room " +:+ str n.
Proof.
  unfold bookable. rewrite list_elem_of_bind. split.
  - intros (d' & Hin & Hd). apply list_elem_of_bind in Hin as (s' & Hin & Hs).
    apply list_elem_of_bind in Hin as (n & Hin & Hn).
    apply list_elem_of_singleton in Hin. injection Hin as -> -> ->.
    apply elem_of_seqZ in Hn. split; [done|]. split; [done|]. exists n. split; [lia|done].
  - intros (Hd & Hs & n & Hn & ->). exists d. split; [|done].
    apply list_elem_of_bind. exists s. split; [|done].
    apply list_elem_of_bind. exists n. split; [by left|].
    apply elem_of_seqZ. lia.
Qed.

Lemma length_bookable :
  Z.of_nat (length (bookable self))
  = Z.of_nat (length (days self)) * Z.of_nat (length (time_slots self))
    * Z.max 0 (classrooms self).
Proof.
  unfold bookable.
  assert (H3 : forall d s : string,
    length (n ← seqZ 1 (classrooms self); [(d, s, "Room " +:+ str n)])
    = Z.to_nat (classrooms self)).
  { intros d s. generalize (length_seqZ 1 (classrooms self)).
    generalize (seqZ 1 (classrooms self)). intros l <-.
    induction l as [|a l IH]; [done|].
    rewrite bind_cons, length_app, IH. done. }
  assert (H2 : forall d : string,
    length (s ← time_slots self; n ← seqZ 1 (classrooms self);
            [(d, s, "Room " +:+ str n)])
    = (length (time_slots self) * Z.to_nat (classrooms self))%nat).
  { intros d. induction (time_slots self) as [|s l IH]; [done|].
    rewrite bind_cons, length_app, H3, IH. done. }
  induction (days self) as [|d l IH]; [simpl; lia|].
  rewrite bind_cons, length_app, H2. simpl length. lia.
Qed.

(** There are no more classes than (day, slot, room) triples. *)
Lemma total_within_capacity st :
  place_all self rnd = Ok st ->
  0 <= total st
  <= Z.of_nat (length (days self)) * Z.of_nat (length (time_slots self))
     * Z.max 0 (classrooms self).
Proof.
  intros Hpl.
  destruct (place_all_Ok self rnd st Hpl) as (Hinv & _).
  pose proof (place_all_sessions_ok self rnd st Hpl) as Hok.
  rewrite (inv_total _ _ Hinv), <- length_bookable.
  split; [lia|].
  assert (Hlen : length (all_sessions (schedule st))
                 = length (room_bookings (schedule st))).
  { unfold all_sessions, room_bookings. by rewrite !length_map. }
  rewrite Hlen. apply inj_le. apply NoDup_incl_length.
  - apply NoDup_ListNoDup, (inv_room_bookings _ _ Hinv).
  - intros [[d s] r] Hin. apply list_elem_of_In. apply list_elem_of_In in Hin.
    unfold room_bookings in Hin.
    apply list_elem_of_In, in_map_iff in Hin as ([[d' s'] v] & [= -> -> <-] & Hin).
    apply list_elem_of_In in Hin. rewrite Forall_forall in Hok.
    destruct (Hok _ Hin) as (Hd & Hs & _ & Hr & _).
    apply elem_of_bookable. done.
Qed.
End occupancy_laws.

(** ** Rounding and bounds *)

(** Rounding to one decimal does not cross an integer. *)
Lemma round1_le_Z (x : Q) (k : Z) : (x <= inject_Z k -> round1 x <= inject_Z k)%Q.
Proof.
  intros Hx. destruct (round1_nearest x) as (n & -> & _ & Hhi).
  assert (H : (inject_Z n <= inject_Z k * 10 + (1 # 2))%Q) by lra.
  unfold Qle, Qplus, Qmult, inject_Z in H |- *. simpl in H |- *. lia.
Qed.

Lemma round1_ge_Z (x : Q) (k : Z) : (inject_Z k <= x -> inject_Z k <= round1 x)%Q.
Proof.
  intros Hx. destruct (round1_nearest x) as (n & -> & Hlo & _).
  assert (H : (inject_Z k * 10 - (1 # 2) <= inject_Z n)%Q) by lra.
  unfold Qle, Qminus, Qplus, Qopp, Qmult, inject_Z in H |- *. simpl in H |- *. lia.
Qed.

(** A rounded value below an integer comes from a value at least one
    twentieth below it, and conversely. *)
Lemma round1_lt_Z_inv (x : Q) (k : Z) :
  (round1 x < inject_Z k -> x <= inject_Z k - (1 # 20))%Q.
Proof.
  destruct (round1_nearest x) as (n & -> & Hlo & _). intros Hlt.
  assert (H : (inject_Z n <= inject_Z k * 10 - 1)%Q).
  { unfold Qlt, Qle, Qminus, Qplus, Qopp, Qmult, inject_Z in Hlt |- *.
    simpl in Hlt |- *. lia. }
  lra.
Qed.

Lemma round1_lt_Z (x : Q) (k : Z) :
  (x < inject_Z k - (1 # 20) -> round1 x < inject_Z k)%Q.
Proof.
  intros Hx. destruct (round1_nearest x) as (n & -> & _ & Hhi).
  assert (H : (inject_Z n < inject_Z k * 10)%Q) by lra.
  unfold Qlt, Qmult, inject_Z in H |- *. simpl in H |- *. lia.
Qed.

Lemma ratio_percent (a b : Z) :
  0 <= a <= Z.max 0 b -> b <> 0 ->
  (0 <= inject_Z a / inject_Z b * 100 <= 100)%Q.
Proof.
  intros Ha Hb. destruct b as [|b|b]; [done| |].
  - unfold Qle, Qdiv, Qinv, Qmult, inject_Z. simpl. lia.
  - assert (a = 0) as -> by lia.
    unfold Qle, Qdiv, Qinv, Qmult, inject_Z. simpl. lia.
Qed.

Lemma Qltb_true (x y : Q) : Qltb x y = true <-> (x < y)%Q.
Proof.
  unfold Qltb. rewrite negb_true_iff, <- not_true_iff_false, Qle_bool_iff.
  split; [apply Qnot_le_lt | apply Qlt_not_le].
Qed.

Lemma init_NoDup (cfg : Config) (self : ScheduleOptimizer) :
  init cfg = Ok self -> NoDup (days self) /\ NoDup (time_slots self).
Proof.
  intros (_ & -> & ->)%init_Ok. split.
  - destruct (bool_decide _); apply (bool_decide_unpack _); vm_compute; exact I.
  - apply (bool_decide_unpack _). vm_compute. exact I.
Qed.

Section metric_laws.
Variable self : ScheduleOptimizer.
Variable rnd : nat -> nat.
Hypothesis Hdays : NoDup (days self).
Hypothesis Hslots : NoDup (time_slots self).

(** The raw utilization of a run is the share of the (day, slot, room)
    triples that hold a class. *)
Lemma utilization_of_total st u :
  place_all self rnd = Ok st -> classroom_utilization_raw self st = Ok u ->
  total_possible_slots self <> 0
  /\ u = (inject_Z (total st) / inject_Z (total_possible_slots self) * 100)%Q
  /\ (0 <= u <= 100)%Q.
Proof.
  intros Hpl Hu.
  destruct (place_all_Ok self rnd st Hpl) as (Hinv & _).
  unfold classroom_utilization_raw in Hu.
  rewrite (occupied_rooms_occupancy self st Hinv) in Hu. simpl in Hu.
  rewrite (place_all_occupancy self rnd st Hdays Hslots Hpl) in Hu.
  destruct (total_possible_slots self =? 0) eqn:Hz; [discriminate|].
  apply Z.eqb_neq in Hz. injection Hu as <-.
  split; [done|]. split; [done|].
  apply ratio_percent; [|done].
  pose proof (total_within_capacity self rnd st Hpl) as Hcap.
  unfold total_possible_slots in *.
  pose proof (Nat2Z.is_nonneg (length (days self))) as HD.
  pose proof (Nat2Z.is_nonneg (length (time_slots self))) as HS.
  destruct (Z.max_spec 0 (classrooms self)) as [[? Hm]|[? Hm]];
    rewrite Hm in Hcap; nia.
Qed.

Lemma balance_within_range st b :
  faculty_balance st = Ok b -> 0 <= b <= 100.
Proof.
  intros Hb. destruct (faculty_balance_spec st) as (b' & Hb' & _ & Hspec).
  rewrite Hb in Hb'. injection Hb' as <-.
  destruct (faculty_loads st) as [|x l] eqn:Hl.
  - unfold faculty_balance in Hb. rewrite Hl in Hb. injection Hb as <-. lia.
  - destruct Hspec as (hi & lo & [_ Hhi] & [Hlo _] & ->); [done|].
    specialize (Hhi lo Hlo). lia.
Qed.
End metric_laws.

Lemma inject_Z_le (a b : Z) : a <= b -> (inject_Z a <= inject_Z b)%Q.
Proof. intros H. by rewrite <- Zle_Qle. Qed.

Lemma faculty_utilization_nonneg (self : ScheduleOptimizer) (st : Locals) :
  Inv self st -> (0 <= faculty_utilization_raw st)%Q.
Proof.
  intros Hinv. unfold faculty_utilization_raw.
  pose proof (inv_load_sum _ _ Hinv) as Hsum.
  pose proof (inv_total _ _ Hinv) as Htot.
  destruct (faculty_loads st) as [|x l]; [done|].
  assert (Hs : 0 <= sum (x :: l)) by lia.
  revert Hs. generalize (sum (x :: l)). intros s Hs.
  unfold Qle, Qdiv, Qinv, Qmult, inject_Z. simpl. lia.
Qed.

(** Each advice is given exactly when its threshold is crossed. *)
Lemma suggest_improvements_elem (t : Timetable) :
  (advice_utilization ∈ suggest_improvements t
   <-> Qltb (classroom_utilization (tt_metrics t)) 70 = true)
  /\ (advice_balance ∈ suggest_improvements t
      <-> Qltb (faculty_load_balance (tt_metrics t)) 80 = true)
  /\ (advice_conflicts ∈ suggest_improvements t
      <-> (5 <? conflict_count (tt_metrics t)) = true)
  /\ (advice_score ∈ suggest_improvements t
      <-> Qltb (optimization_score (tt_metrics t)) 85 = true).
Proof.
  unfold suggest_improvements. cbn zeta.
  destruct (Qltb _ 70), (Qltb _ 80), (5 <? _), (Qltb _ 85);
    repeat split; intros H; try done;
    try (by apply (bool_decide_unpack _); vm_compute);
    try (exfalso; revert H; apply (bool_decide_unpack _); by vm_compute).
Qed.



(** The metrics of a returned timetable are in range: utilization, load
    balance and score lie between 0 and 100, the faculty utilization and
    the two counts are not negative. *)
Theorem metrics_within_range :
  forall (cfg : Config) (self : ScheduleOptimizer) (rnd : nat -> nat)
         (option_num : Z) (t : Timetable),
    init cfg = Ok self ->
    generate_optimized_schedule self rnd option_num = Ok t ->
    let m := tt_metrics t in
    (0 <= classroom_utilization m <= 100)%Q
    /\ (0 <= faculty_load_balance m <= 100)%Q
    /\ (0 <= optimization_score m <= 100)%Q
    /\ (0 <= faculty_utilization m)%Q
    /\ 0 <= conflict_count m /\ 0 <= total_classes_scheduled m.
Proof.
  intros cfg self rnd option_num t Hinit Hgen.
  destruct (init_NoDup cfg self Hinit) as [Hd Hs].
  destruct (generate_Ok self rnd option_num t Hgen)
    as (st & u & b & Hpl & Hinv & Hu & Hb & _ & _ & ->).
  destruct (utilization_of_total self rnd Hd Hs st u Hpl Hu) as (_ & _ & Hu0 & Hu100).
  pose proof (balance_within_range st b Hb) as [Hb0 Hb100].
  apply inject_Z_le in Hb0, Hb100.
  change (inject_Z 0) with 0%Q in Hb0. change (inject_Z 100) with 100%Q in Hb100.
  cbn zeta. cbn [classroom_utilization faculty_load_balance optimization_score
                 faculty_utilization conflict_count total_classes_scheduled].
  set (k := Z.max 0 (100 - Z.of_nat (length (conflicts st)) * 5)).
  assert (Hk : 0 <= k <= 100) by lia.
  destruct Hk as [Hk0 Hk100]. apply inject_Z_le in Hk0, Hk100.
  change (inject_Z 0) with 0%Q in Hk0. change (inject_Z 100) with 100%Q in Hk100.
  split; [split; [apply (round1_ge_Z _ 0) | apply (round1_le_Z _ 100)]; done|].
  split; [split; [apply (round1_ge_Z _ 0) | apply (round1_le_Z _ 100)]; done|].
  split.
  { unfold optimization_score_raw. fold k.
    split; [apply (round1_ge_Z _ 0) | apply (round1_le_Z _ 100)];
      change (inject_Z 0) with 0%Q; change (inject_Z 100) with 100%Q; lra. }
  split; [apply (round1_ge_Z _ 0), (faculty_utilization_nonneg self st Hinv)|].
  split; [lia|]. rewrite (inv_total _ _ Hinv). lia.
Qed.

Lemma metrics_within_range_witness :
  let m := tt_metrics small_timetable in
  (0 <= classroom_utilization m <= 100)%Q
  /\ (0 <= faculty_load_balance m <= 100)%Q
  /\ (0 <= optimization_score m <= 100)%Q
  /\ (0 <= faculty_utilization m)%Q
  /\ 0 <= conflict_count m /\ 0 <= total_classes_scheduled m.
Proof.
  apply (metrics_within_range small_config small_optimizer counting_source 1).
  - reflexivity.
  - vm_compute. reflexivity.
Defined.

(** Suggestions for a generated timetable: with eight or more conflicts
    the advice on time slots and resources is always given, and so it is
    whenever the advice on classrooms and the advice on faculty workload are
    both given. *)
Theorem suggestions_for_generated :
  forall (cfg : Config) (self : ScheduleOptimizer) (rnd : nat -> nat)
         (option_num : Z) (t : Timetable),
    init cfg = Ok self ->
    generate_optimized_schedule self rnd option_num = Ok t ->
    (8 <= conflict_count (tt_metrics t) ->
     advice_conflicts ∈ suggest_improvements t
     /\ advice_score ∈ suggest_improvements t)
    /\ (advice_utilization ∈ suggest_improvements t ->
        advice_balance ∈ suggest_improvements t ->
        advice_score ∈ suggest_improvements t).
Proof.
  intros cfg self rnd option_num t Hinit Hgen.
  destruct (init_NoDup cfg self Hinit) as [Hd Hs].
  destruct (suggest_improvements_elem t) as (Hau & Hab & Hac & Has).
  rewrite Hau, Hab, Hac, Has, !Qltb_true. clear Hau Hab Hac Has.
  destruct (generate_Ok self rnd option_num t Hgen)
    as (st & u & b & Hpl & Hinv & Hu & Hb & _ & _ & ->).
  destruct (utilization_of_total self rnd Hd Hs st u Hpl Hu) as (_ & _ & Hu0 & Hu100).
  pose proof (balance_within_range st b Hb) as [Hb0 Hb100].
  cbn [classroom_utilization faculty_load_balance optimization_score
       conflict_count].
  unfold optimization_score_raw.
  set (c := Z.of_nat (length (conflicts st))).
  set (k := Z.max 0 (100 - c * 5)).
  assert (Hk100 : (inject_Z k <= 100)%Q) by (apply (inject_Z_le k 100); lia).
  split.
  - intros Hc. split; [apply Z.ltb_lt; lia|].
    assert (Hk60 : (inject_Z k <= 60)%Q) by (apply (inject_Z_le k 60); lia).
    apply (inject_Z_le b 100) in Hb100. change (inject_Z 100) with 100%Q in Hb100.
    apply (round1_lt_Z _ 85). change (inject_Z 85) with 85%Q. lra.
  - intros Hlu Hlb.
    apply (round1_lt_Z_inv u 70) in Hlu. change (inject_Z 70) with 70%Q in Hlu.
    rewrite round1_Z in Hlb.
    assert (Hb79 : (inject_Z b <= 79)%Q).
    { apply (inject_Z_le b 79). change 80%Q with (inject_Z 80) in Hlb.
      rewrite <- Zlt_Qlt in Hlb. lia. }
    apply (round1_lt_Z _ 85). change (inject_Z 85) with 85%Q. lra.
Qed.

Lemma suggestions_for_generated_witness :
  (8 <= conflict_count (tt_metrics negative_load_timetable) ->
   advice_conflicts ∈ suggest_improvements negative_load_timetable
   /\ advice_score ∈ suggest_improvements negative_load_timetable)
  /\ (advice_utilization ∈ suggest_improvements negative_load_timetable ->
      advice_balance ∈ suggest_improvements negative_load_timetable ->
      advice_score ∈ suggest_improvements negative_load_timetable).
Proof.
  apply (suggestions_for_generated negative_load_config negative_load_optimizer
           counting_source 1).
  - reflexivity.
  - vm_compute. reflexivity.
Defined.

(** ** The outcome of a run *)

Section outcome.
Variable self : ScheduleOptimizer.
Variable rnd : nat -> nat.
Hypothesis Hdays : days self <> [].
Hypothesis Hslots : time_slots self <> [].

(** Without a room or a batch the third or the fourth draw fails, without
    a faculty member the fifth. *)
Lemma attempt_raises s st :
  attempt self rnd s st
  = if (classrooms self <? 1) || (batches self <? 1) then Raise ValueError
    else if bool_decide (faculty_pool self = []) then Raise IndexError
    else attempt self rnd s st.
Proof.
  destruct (classrooms self <? 1) eqn:Hr; simpl.
  - apply Z.ltb_lt in Hr. unfold attempt.
    destruct (choice_returns rnd _ (rng_pos st) Hdays) as [day Hc1].
    rewrite (bind_Ok_eq _ _ _ Hc1). simpl.
    destruct (choice_returns rnd _ (S (rng_pos st)) Hslots) as [slot Hc2].
    rewrite (bind_Ok_eq _ _ _ Hc2). simpl.
    rewrite randint_empty by lia. reflexivity.
  - apply Z.ltb_ge in Hr. destruct (batches self <? 1) eqn:Hb; simpl.
    + apply Z.ltb_lt in Hb. unfold attempt.
      destruct (choice_returns rnd _ (rng_pos st) Hdays) as [day Hc1].
      rewrite (bind_Ok_eq _ _ _ Hc1). simpl.
      destruct (choice_returns rnd _ (S (rng_pos st)) Hslots) as [slot Hc2].
      rewrite (bind_Ok_eq _ _ _ Hc2). simpl.
      destruct (randint_returns rnd 1 _ (S (S (rng_pos st))) Hr) as [room_num Hc3].
      rewrite (bind_Ok_eq _ _ _ Hc3). simpl.
      rewrite randint_empty by lia. reflexivity.
    + apply Z.ltb_ge in Hb. case_bool_decide as Hp; [|reflexivity].
      unfold attempt.
      destruct (choice_returns rnd _ (rng_pos st) Hdays) as [day Hc1].
      rewrite (bind_Ok_eq _ _ _ Hc1). simpl.
      destruct (choice_returns rnd _ (S (rng_pos st)) Hslots) as [slot Hc2].
      rewrite (bind_Ok_eq _ _ _ Hc2). simpl.
      destruct (randint_returns rnd 1 _ (S (S (rng_pos st))) Hr) as [room_num Hc3].
      rewrite (bind_Ok_eq _ _ _ Hc3). simpl.
      destruct (randint_returns rnd 1 _ (S (S (S (rng_pos st)))) Hb) as [batch_num Hc4].
      rewrite (bind_Ok_eq _ _ _ Hc4). simpl.
      rewrite Hp, choice_empty. reflexivity.
Qed.

Lemma while_loop_first_raises fuel s st e :
  0 < classes_per_week self -> attempt self rnd s st = Raise e ->
  while_loop self rnd (S fuel) s 0 0 st = Raise e.
Proof.
  intros Htarget Hatt. simpl.
  replace (0 <? classes_per_week self) with true by (symmetry; by apply Z.ltb_lt).
  simpl. by rewrite Hatt.
Qed.

(** An exception of the first iteration is the exception of the run. *)
Lemma first_attempt_raises e option_num :
  subjects self <> [] -> 0 < classes_per_week self ->
  (forall s st, attempt self rnd s st = Raise e) ->
  generate_optimized_schedule self rnd option_num = Raise e.
Proof.
  intros Hsub Htarget Hatt.
  unfold generate_optimized_schedule, place_all.
  destruct (subjects self) as [|s l]; [done|].
  cbn [for_each]. unfold schedule_subject.
  change loop_fuel with (S 100).
  rewrite (while_loop_first_raises 100 s _ e Htarget (Hatt _ _)). reflexivity.
Qed.

Lemma generate_outcome option_num :
  match expected_exception self with
  | Some e => generate_optimized_schedule self rnd option_num = Raise e
  | None => returns (generate_optimized_schedule self rnd option_num)
  end.
Proof.
  unfold expected_exception.
  destruct (bool_decide (subjects self = []) || (classes_per_week self <=? 0)) eqn:Hidle.
  - assert (Hpl : place_all self rnd = Ok (initial_locals self)).
    { apply orb_true_iff in Hidle as [Hs|Ht].
      - apply bool_decide_eq_true_1 in Hs. unfold place_all. by rewrite Hs.
      - apply Z.leb_le in Ht. by apply place_all_zero_target. }
    unfold generate_optimized_schedule. rewrite (bind_Ok_eq _ _ _ Hpl).
    destruct (classrooms self =? 0) eqn:Hz.
    + apply Z.eqb_eq in Hz.
      rewrite (compute_metrics_zero_division self _ (initial_Inv self)); [done|].
      unfold total_possible_slots. rewrite Hz. lia.
    + apply Z.eqb_neq in Hz.
      destruct (compute_metrics_returns self _ (initial_Inv self)) as [m Hm].
      { by apply total_possible_slots_nonzero. }
      rewrite (bind_Ok_eq _ _ _ Hm). by eexists.
  - apply orb_false_iff in Hidle as [Hs Ht].
    apply bool_decide_eq_false_1 in Hs. apply Z.leb_gt in Ht.
    destruct ((classrooms self <? 1) || (batches self <? 1)) eqn:Hrb.
    + apply first_attempt_raises; [done|done|].
      intros s st. rewrite attempt_raises, Hrb. reflexivity.
    + case_bool_decide as Hp.
      * apply first_attempt_raises; [done|done|].
        intros s st. rewrite attempt_raises, Hrb.
        by rewrite bool_decide_eq_true_2.
      * apply orb_false_iff in Hrb as [Hr Hb].
        apply Z.ltb_ge in Hr, Hb. by apply generate_returns.
Qed.
End outcome.

(** The configuration alone decides how a run ends.  With nothing to place
    (no subject, or a weekly target of zero or less) no draw is made: the
    run returns unless the room count is 0, where the utilization divides
    by zero.  With something to place, a room count or a batch count below 1
    makes the first iteration raise [ValueError], an empty faculty pool
    makes it raise [IndexError], and in every other case the run returns.
    No run raises [KeyError]. *)
Theorem outcome_by_configuration :
  forall (cfg : Config) (self : ScheduleOptimizer) (rnd : nat -> nat) (option_num : Z),
    init cfg = Ok self ->
    let result := generate_optimized_schedule self rnd option_num in
    (subjects self = [] \/ classes_per_week self <= 0 ->
     (classrooms self = 0 -> result = Raise ZeroDivisionError)
     /\ (classrooms self <> 0 -> returns result))
    /\ (subjects self <> [] /\ 0 < classes_per_week self ->
        (classrooms self < 1 \/ batches self < 1 -> result = Raise ValueError)
        /\ (1 <= classrooms self /\ 1 <= batches self ->
            (faculty_pool self = [] -> result = Raise IndexError)
            /\ (faculty_pool self <> [] -> returns result)))
    /\ result <> Raise KeyError.
Proof.
  intros cfg self rnd option_num Hinit. cbn zeta.
  destruct (init_nonempty cfg self Hinit) as [Hd Hs].
  pose proof (generate_outcome self rnd Hd Hs option_num) as H.
  unfold expected_exception in H.
  destruct (bool_decide (subjects self = []) || (classes_per_week self <=? 0)) eqn:Hidle.
  - assert (Hi : subjects self = [] \/ classes_per_week self <= 0).
    { apply orb_true_iff in Hidle as [Hi|Hi]; [left|right].
      - by apply bool_decide_eq_true_1 in Hi.
      - by apply Z.leb_le in Hi. }
    split; [|split].
    + intros _. destruct (classrooms self =? 0) eqn:Hz.
      * apply Z.eqb_eq in Hz. by split.
      * apply Z.eqb_neq in Hz. by split.
    + intros [Hne Hpos]. destruct Hi; [done|lia].
    + destruct (classrooms self =? 0); [by rewrite H|].
      destruct H as [t ->]. done.
  - apply orb_false_iff in Hidle as [Hne Hpos].
    apply bool_decide_eq_false_1 in Hne. apply Z.leb_gt in Hpos.
    split; [|split].
    + intros [?|?]; [done|lia].
    + intros _. destruct ((classrooms self <? 1) || (batches self <? 1)) eqn:Hrb.
      * split; [done|]. apply orb_true_iff in Hrb as [Hr|Hb].
        -- apply Z.ltb_lt in Hr. lia.
        -- apply Z.ltb_lt in Hb. lia.
      * apply orb_false_iff in Hrb as [Hr Hb]. apply Z.ltb_ge in Hr, Hb.
        split; [lia|]. intros _. case_bool_decide; by split.
    + destruct ((classrooms self <? 1) || (batches self <? 1)); [by rewrite H|].
      case_bool_decide; [by rewrite H|]. destruct H as [t ->]. done.
Qed.

Lemma outcome_by_configuration_witness :
  let result := generate_optimized_schedule zero_rooms_optimizer counting_source 1 in
  (subjects zero_rooms_optimizer = [] \/ classes_per_week zero_rooms_optimizer <= 0 ->
   (classrooms zero_rooms_optimizer = 0 -> result = Raise ZeroDivisionError)
   /\ (classrooms zero_rooms_optimizer <> 0 -> returns result))
  /\ (subjects zero_rooms_optimizer <> []
      /\ 0 < classes_per_week zero_rooms_optimizer ->
      (classrooms zero_rooms_optimizer < 1 \/ batches zero_rooms_optimizer < 1 ->
       result = Raise ValueError)
      /\ (1 <= classrooms zero_rooms_optimizer /\ 1 <= batches zero_rooms_optimizer ->
          (faculty_pool zero_rooms_optimizer = [] -> result = Raise IndexError)
          /\ (faculty_pool zero_rooms_optimizer <> [] -> returns result)))
  /\ result <> Raise KeyError.
Proof.
  apply (outcome_by_configuration zero_rooms_config zero_rooms_optimizer
           counting_source 1).
  reflexivity.
Defined.

(** Whether a run returns, and which exception it raises otherwise, does
    not depend on the random draws or on the option number: the three
    candidate runs of one optimizer all return or all raise the same
    exception. *)
Theorem outcome_independent_of_draws :
  forall (cfg : Config) (self : ScheduleOptimizer) (rnd rnd' : nat -> nat)
         (option_num option_num' : Z),
    init cfg = Ok self ->
    (returns (generate_optimized_schedule self rnd option_num)
     <-> returns (generate_optimized_schedule self rnd' option_num'))
    /\ forall e,
         generate_optimized_schedule self rnd option_num = Raise e
         <-> generate_optimized_schedule self rnd' option_num' = Raise e.
Proof.
  intros cfg self rnd rnd' option_num option_num' Hinit.
  destruct (init_nonempty cfg self Hinit) as [Hd Hs].
  pose proof (generate_outcome self rnd Hd Hs option_num) as H.
  pose proof (generate_outcome self rnd' Hd Hs option_num') as H'.
  destruct (expected_exception self) as [e0|].
  - rewrite H, H'. split; [|done].
    split; intros [t Ht]; discriminate Ht.
  - destruct H as [t ->], H' as [t' ->]. split.
    + split; intros _; by eexists.
    + intros e. split; discriminate.
Qed.

Lemma outcome_independent_of_draws_witness :
  (returns (generate_optimized_schedule small_optimizer counting_source 1)
   <-> returns (generate_optimized_schedule small_optimizer (fun _ => 7%nat) 2))
  /\ forall e,
       generate_optimized_schedule small_optimizer counting_source 1 = Raise e
       <-> generate_optimized_schedule small_optimizer (fun _ => 7%nat) 2 = Raise e.
Proof.
  apply (outcome_independent_of_draws small_config small_optimizer). reflexivity.
Defined.

(** The faculty pool is the slice [faculty_names[:faculty_count]] of the
    eighteen fixed names: a count above 18 is capped at 18, a negative
    count drops that many names from the end, and no name occurs twice. *)
Theorem faculty_pool_size :
  forall self : ScheduleOptimizer,
    faculty_pool self `prefix_of` faculty_names
    /\ NoDup (faculty_pool self)
    /\ Z.of_nat (length (faculty_pool self))
       = if 0 <=? faculty_count self then Z.min 18 (faculty_count self)
         else Z.max 0 (18 + faculty_count self).
Proof.
  intros self. split; [|split].
  - unfold faculty_pool, slice_to. destruct (0 <=? _); apply prefix_take.
  - apply faculty_pool_NoDup.
  - unfold faculty_pool, slice_to.
    assert (Hlen : length faculty_names = 18%nat) by reflexivity.
    destruct (0 <=? faculty_count self) eqn:Hc.
    + apply Z.leb_le in Hc. rewrite length_take, Hlen. lia.
    + apply Z.leb_gt in Hc. rewrite length_take, Hlen. lia.
Qed.

(** ** The shape of the grid *)

Section dict_set_laws.
Context {K : Type} `{EqDecision K} {V : Type}.

Lemma elem_of_set (d : dict K V) (k : K) (v : V) (x : K * V) :
  x ∈ Dict.set d k v -> x = (k, v) \/ x ∈ d.
Proof.
  induction d as [|[k' v'] d IH]; simpl.
  - intros ->%list_elem_of_singleton. by left.
  - destruct (decide (k' = k)) as [->|Hne].
    + intros [->|Hin]%elem_of_cons; [by left|]. right. by right.
    + intros [->|Hin]%elem_of_cons; [right; left|].
      destruct (IH Hin) as [->|Hd]; [by left|]. right. by right.
Qed.

Lemma set_nonempty (d : dict K V) (k : K) (v : V) : Dict.set d k v <> [].
Proof. destruct d as [|[k' v'] d]; simpl; [done|]. by destruct (decide (k' = k)). Qed.

Lemma NoDup_keys_set (d : dict K V) (k : K) (v : V) :
  NoDup (Dict.keys d) -> NoDup (Dict.keys (Dict.set d k v)).
Proof.
  intros Hnd. destruct (Dict.get d k) as [v0|] eqn:Hget.
  - by rewrite keys_set_present.
  - rewrite (set_fresh _ _ _ Hget). unfold Dict.keys. rewrite map_app. simpl.
    apply NoDup_app. split; [done|]. split; [|apply NoDup_singleton].
    intros x Hx ->%list_elem_of_singleton.
    apply list_elem_of_In, in_map_iff in Hx as ([k' v'] & Hk & Hin%list_elem_of_In).
    simpl in Hk. subst k'. by apply (get_None_fresh _ _ v' Hget).
Qed.
End dict_set_laws.

Section grid_shape.
Variable self : ScheduleOptimizer.
Variable rnd : nat -> nat.

Lemma initial_schedule_empty day slots :
  (day, slots) ∈ schedule (initial_locals self) -> slots = [].
Proof.
  intros Hin.
  pose proof (fold_set_values_const (days self) ([] : dict string (dict string Session))
                [] (Forall_nil_2 _)) as Hall.
  rewrite Forall_forall in Hall. exact (Hall _ Hin).
Qed.

Lemma place_all_grid_shape st :
  place_all self rnd = Ok st ->
  Dict.keys (schedule st) = Dict.keys (schedule (initial_locals self))
  /\ grid_shaped self (schedule st).
Proof.
  apply (place_all_preserves self rnd
    (fun st => Dict.keys (schedule st) = Dict.keys (schedule (initial_locals self))
               /\ grid_shaped self (schedule st))).
  - intros s st0 ok st' _ Hinv [Hkeys Hshape] Ha.
    destruct (attempt_inv self rnd _ _ _ _ Ha)
      as (day & slot & rn & bn & f & Hday & Hslot & _ & _ & _ & Hp).
    set (st1 := with_pos st0 (rng_pos st0 + 5)) in Hp.
    assert (Hinv1 : Inv self st1)
      by exact (Inv_ext self st0 st1 eq_refl eq_refl eq_refl eq_refl eq_refl Hinv).
    destruct ok.
    + destruct (place_committed self _ _ _ _ _ _ _ _ Hinv1 Hday Hp)
        as (R & B & n & slots & ru' & bs' & fl' & _ & _ & _ & _ & _ & _ & _
            & Hslots & _ & _ & _ & ->).
      change (schedule st1) with (schedule st0) in *.
      cbn [schedule]. split.
      * rewrite keys_set_present by (by rewrite Hslots). exact Hkeys.
      * intros d sl [Heq|Hin]%elem_of_set.
        -- injection Heq as -> ->.
           destruct (Hshape day slots (get_Some_elem _ _ _ Hslots)) as [Hnd Hcells].
           split; [by apply NoDup_keys_set|].
           intros slot' cell [Heq|Hin]%elem_of_set.
           ++ injection Heq as -> ->. split; [done|apply set_nonempty].
           ++ exact (Hcells slot' cell Hin).
        -- exact (Hshape d sl Hin).
    + destruct (place_rejected self _ _ _ _ _ _ _ _ Hp) as (reasons & _ & _ & ->).
      done.
  - split; [done|]. intros day slots Hin.
    rewrite (initial_schedule_empty day slots Hin). split; [constructor|].
    by intros slot cell ?%elem_of_nil.
Qed.

Lemma initial_schedule_keys :
  NoDup (days self) -> Dict.keys (schedule (initial_locals self)) = days self.
Proof.
  intros Hnd. simpl.
  rewrite keys_fold_set_const; [done|done|]. by intros x _ ?%elem_of_nil.
Qed.
End grid_shape.

(** The grid of a returned timetable has one entry for every day of the
    week of the optimizer, in the order of the week, also for days without
    a class; a day's entry lists only slots of the optimizer, each once, and
    only slots in which at least one class was placed. *)
Theorem grid_days_and_slots :
  forall (cfg : Config) (self : ScheduleOptimizer) (rnd : nat -> nat)
         (option_num : Z) (t : Timetable),
    init cfg = Ok self ->
    generate_optimized_schedule self rnd option_num = Ok t ->
    Dict.keys (tt_schedule t) = days self
    /\ forall day slots, (day, slots) ∈ tt_schedule t ->
         NoDup (Dict.keys slots)
         /\ forall slot cell, (slot, cell) ∈ slots ->
              slot ∈ time_slots self /\ cell <> [].
Proof.
  intros cfg self rnd option_num t Hinit Hgen.
  destruct (init_NoDup cfg self Hinit) as [Hd _].
  destruct (generate_Ok self rnd option_num t Hgen)
    as (st & u & b & Hpl & _ & _ & _ & -> & _).
  destruct (place_all_grid_shape self rnd st Hpl) as [Hkeys Hshape].
  split; [|exact Hshape].
  rewrite Hkeys. by apply initial_schedule_keys.
Qed.

Lemma grid_days_and_slots_witness :
  Dict.keys (tt_schedule small_timetable) = days small_optimizer
  /\ forall day slots, (day, slots) ∈ tt_schedule small_timetable ->
       NoDup (Dict.keys slots)
       /\ forall slot cell, (slot, cell) ∈ slots ->
            slot ∈ time_slots small_optimizer /\ cell <> [].
Proof.
  apply (grid_days_and_slots small_config small_optimizer counting_source 1).
  - reflexivity.
  - vm_compute. reflexivity.
Defined.

(** ** What a run reads of the configuration *)

Section same_settings.
Variables self self' : ScheduleOptimizer.
Variable rnd : nat -> nat.
Hypothesis Hdays : days self' = days self.
Hypothesis Hslots : time_slots self' = time_slots self.
Hypothesis Hsubjects : subjects self' = subjects self.
Hypothesis Hrooms : classrooms self' = classrooms self.
Hypothesis Hbatches : batches self' = batches self.
Hypothesis Hfaculty : faculty_count self' = faculty_count self.
Hypothesis Htarget : classes_per_week self' = classes_per_week self.
Hypothesis Hload : max_daily_load self' = max_daily_load self.

Lemma faculty_pool_same : faculty_pool self' = faculty_pool self.
Proof. unfold faculty_pool. by rewrite Hfaculty. Qed.

Lemma initial_locals_same : initial_locals self' = initial_locals self.
Proof.
  unfold initial_locals, empty_slots.
  by rewrite Hdays, Hslots, faculty_pool_same.
Qed.

Lemma place_same s day slot r b f st :
  place self' s day slot r b f st = place self s day slot r b f st.
Proof. unfold place. by rewrite Hload. Qed.

Lemma attempt_same s st : attempt self' rnd s st = attempt self rnd s st.
Proof.
  unfold attempt.
  rewrite Hdays, Hslots, Hrooms, Hbatches, faculty_pool_same.
  destruct (choice rnd (days self) _) as [[day p1]| |]; [|done|done]. simpl.
  destruct (choice rnd (time_slots self) _) as [[slot p2]| |]; [|done|done]. simpl.
  destruct (randint rnd 1 (classrooms self) _) as [[rn p3]| |]; [|done|done]. simpl.
  destruct (randint rnd 1 (batches self) _) as [[bn p4]| |]; [|done|done]. simpl.
  destruct (choice rnd (faculty_pool self) _) as [[f p5]| |]; [|done|done]. simpl.
  apply place_same.
Qed.

Lemma while_loop_same fuel s c a st :
  while_loop self' rnd fuel s c a st = while_loop self rnd fuel s c a st.
Proof.
  revert c a st. induction fuel as [|fuel IH]; intros c a st; [done|].
  simpl. rewrite Htarget, attempt_same.
  destruct (_ && _); [|done].
  destruct (attempt self rnd s st) as [[ok st']| |]; [|done|done]. simpl. apply IH.
Qed.

Lemma schedule_subject_same st s :
  schedule_subject self' rnd st s = schedule_subject self rnd st s.
Proof. unfold schedule_subject. by rewrite while_loop_same. Qed.

Lemma for_each_same l st :
  for_each (schedule_subject self' rnd) l st
  = for_each (schedule_subject self rnd) l st.
Proof.
  revert st. induction l as [|s l IH]; intros st; [done|]. simpl.
  rewrite schedule_subject_same.
  destruct (schedule_subject self rnd st s) as [st'| |]; [|done|done].
  simpl. apply IH.
Qed.

Lemma compute_metrics_same st : compute_metrics self' st = compute_metrics self st.
Proof.
  unfold compute_metrics, classroom_utilization_raw, occupied_rooms,
    total_possible_slots.
  by rewrite Hdays, Hslots, Hrooms.
Qed.

(** Two optimizers with the same days and slots and the same eight values
    read from the configuration produce the same result from the same
    draws. *)
Lemma generate_same option_num :
  generate_optimized_schedule self' rnd option_num
  = generate_optimized_schedule self rnd option_num.
Proof.
  unfold generate_optimized_schedule, place_all.
  rewrite Hsubjects, initial_locals_same, for_each_same.
  destruct (for_each _ _ _) as [st| |]; [|done|done]. simpl.
  by rewrite compute_metrics_same.
Qed.
End same_settings.

(** The setting [academic.max_classes_day] is read (line 168) and never
    consulted: replacing it by any value, or removing it, changes nothing in
    the result of a run, whatever the draws. *)
Theorem max_classes_day_is_ignored :
  forall (cfg : Config) (x : option Z) (rnd : nat -> nat) (option_num : Z),
    run (with_max_classes_day cfg x) rnd option_num = run cfg rnd option_num.
Proof.
  intros cfg x rnd option_num. unfold run, init. simpl.
  by apply generate_same.
Qed.

Lemma attempt_budget_witness :
  0 <= 1 <= 100
  /\ (1 = Z.max 0 (classes_per_week small_optimizer) \/ 1 = 100)
  /\ 0 <= 1 <= Z.max 0 (classes_per_week small_optimizer)
  /\ total small_locals = total (initial_locals small_optimizer) + 1
  /\ Z.of_nat (length (conflicts small_locals))
     = Z.of_nat (length (conflicts (initial_locals small_optimizer))) + (1 - 1)
  /\ rng_pos small_locals
     = (rng_pos (initial_locals small_optimizer) + 5 * Z.to_nat 1)%nat.
Proof.
  apply (attempt_budget small_optimizer counting_source "Math"
           (initial_locals small_optimizer) small_locals 1 1).
  - apply initial_Inv.
  - vm_compute. reflexivity.
Defined.

Lemma zero_target_run_witness :
  exists t,
    generate_optimized_schedule zero_target_optimizer counting_source 1 = Ok t
    /\ all_sessions (tt_schedule t) = [] /\ grid_size (tt_schedule t) = 0
    /\ tt_conflicts t = []
    /\ (classroom_utilization (tt_metrics t) == 0)%Q
    /\ conflict_count (tt_metrics t) = 0
    /\ total_classes_scheduled (tt_metrics t) = 0
    /\ (faculty_load_balance (tt_metrics t) == 100)%Q
    /\ (optimization_score (tt_metrics t)
        == (3 # 10) * faculty_load_balance (tt_metrics t) + (4 # 10) * 100)%Q.
Proof.
  apply (zero_target_run zero_target_optimizer counting_source).
  - vm_compute. discriminate.
  - vm_compute. discriminate.
  - discriminate.
  - discriminate.
Defined.

(** ** The first class of a run *)

Lemma for_each_cons {A S} (body : S -> A -> Result S) (x : A) (l : list A) (s : S) :
  for_each body (x :: l) s = (s' ← body s x; for_each body l s').
Proof. reflexivity. Qed.

Lemma for_each_nil {A S} (body : S -> A -> Result S) (s : S) :
  for_each body [] s = Ok s.
Proof. reflexivity. Qed.

Section first_class.
Variable self : ScheduleOptimizer.
Variable rnd : nat -> nat.
Hypothesis Hdraw : drawable self.
Hypothesis Hload : 1 <= max_daily_load self.

(** On the empty grid no check can fail. *)
Lemma first_attempt_succeeds s :
  exists st1, attempt self rnd s (initial_locals self) = Ok (true, st1).
Proof.
  destruct Hdraw as (Hd & Hs & Hr & Hb & Hp).
  destruct (attempt_returns self rnd s (initial_locals self) (initial_Inv self)
              Hd Hs Hr Hb Hp) as (ok & st1 & Ha).
  destruct ok; [by exists st1|]. exfalso.
  destruct (attempt_inv self rnd _ _ _ _ Ha)
    as (day & slot & rn & bn & f & Hday & Hslot & _ & _ & Hf & Hplace).
  destruct (initial_room_usage self day slot Hday Hslot) as [HR HB].
  destruct (inv_loads _ _ (initial_Inv self) f day Hf Hday) as (n & Hn & Hn0 & _).
  rewrite initial_sessions_on in Hn0. change (Z.of_nat (taught_by f [])) with 0 in Hn0.
  subst n.
  unfold place in Hplace.
  change (room_usage (with_pos (initial_locals self) _))
    with (room_usage (initial_locals self)) in Hplace.
  change (batch_schedule (with_pos (initial_locals self) _))
    with (batch_schedule (initial_locals self)) in Hplace.
  change (faculty_load (with_pos (initial_locals self) _))
    with (faculty_load (initial_locals self)) in Hplace.
  rewrite (bind_Ok_eq _ _ _ HR), (bind_Ok_eq _ _ _ HB), (bind_Ok_eq _ _ _ Hn) in Hplace.
  rewrite faculty_busy_cell in Hplace.
  change (schedule (with_pos (initial_locals self) _))
    with (schedule (initial_locals self)) in Hplace.
  rewrite initial_cell in Hplace.
  rewrite !(bool_decide_eq_false_2 (_ ∈ ∅)) in Hplace by apply not_elem_of_empty.
  replace (max_daily_load self <=? 0) with false in Hplace
    by (symmetry; apply Z.leb_gt; lia).
  simpl in Hplace.
  inv_bind Hplace. inv_bind Hplace. inv_bind Hplace. inv_bind Hplace.
  discriminate Hplace.
Qed.

Lemma while_loop_first_placed fuel s st st1 :
  0 < classes_per_week self -> attempt self rnd s st = Ok (true, st1) ->
  while_loop self rnd (S fuel) s 0 0 st = while_loop self rnd fuel s 1 1 st1.
Proof.
  intros Htarget Hatt. simpl.
  replace (0 <? classes_per_week self) with true by (symmetry; by apply Z.ltb_lt).
  simpl. by rewrite Hatt.
Qed.

Lemma first_subject_total s l st0 st1 st :
  Inv self st0 -> 0 < classes_per_week self ->
  attempt self rnd s st0 = Ok (true, st1) ->
  for_each (schedule_subject self rnd) (s :: l) st0 = Ok st ->
  total st0 + 1 <= total st
  /\ (l = [] -> classes_per_week self = 1 ->
      total st = total st0 + 1 /\ conflicts st = conflicts st0).
Proof.
  intros Hinv0 Htarget Hatt H. rewrite for_each_cons in H.
  inv_bind H. rename a into st2.
  destruct (schedule_subject_Ok self rnd st0 s st2 Hinv0 Ha) as (c' & a' & Hw & _).
  change loop_fuel with (S 100) in Hw.
  rewrite (while_loop_first_placed 100 s _ st1 Htarget Hatt) in Hw.
  destruct (attempt_Ok self rnd s _ _ _ Hinv0 Hatt)
    as (Hinv1 & _ & [Htot1 Hcs1] & _).
  split.
  - destruct (while_loop_Ok self rnd _ _ _ _ _ _ _ _ Hinv1 Hw)
      as (Hinv2 & _ & _ & _ & Hc & Htot2 & _).
    destruct (for_each_totals self rnd l st2 st Hinv2 H) as [Hle _]. lia.
  - intros -> Hone. rewrite for_each_nil in H. injection H as <-.
    assert (Hmet : classes_per_week self <= 1 \/ 100 <= 1) by (left; lia).
    pose proof (while_loop_stop self rnd 99 s 1 1 st1 Hmet) as Hstop.
    rewrite Hw in Hstop. injection Hstop as _ _ ->. split; [lia|exact Hcs1].
Qed.
End first_class.

(** With at least one subject, one room, one batch and one faculty member,
    a weekly target of at least 1 and a daily load of at least 1, the first
    attempt of a run always succeeds, so that every run schedules at least
    one class.  With exactly one subject and a weekly target of 1 the run
    schedules exactly one class, at the first attempt, and records no
    conflict, whatever the draws. *)
Theorem first_class_is_scheduled :
  forall (cfg : Config) (self : ScheduleOptimizer) (rnd : nat -> nat) (option_num : Z),
    init cfg = Ok self ->
    subjects self <> [] -> 1 <= classes_per_week self ->
    1 <= classrooms self -> 1 <= batches self -> 1 <= faculty_count self ->
    1 <= max_daily_load self ->
    exists t,
      generate_optimized_schedule self rnd option_num = Ok t
      /\ 1 <= total_classes_scheduled (tt_metrics t)
      /\ (length (subjects self) = 1%nat -> classes_per_week self = 1 ->
          total_classes_scheduled (tt_metrics t) = 1
          /\ conflict_count (tt_metrics t) = 0 /\ tt_conflicts t = []).
Proof.
  intros cfg self rnd option_num Hinit Hsub Htarget Hr Hb Hf Hload.
  pose proof (drawable_intro cfg self Hinit Hr Hb Hf) as Hdraw.
  destruct (generate_returns self rnd option_num Hdraw) as [t Hgen].
  exists t. split; [done|].
  destruct (generate_Ok self rnd option_num t Hgen)
    as (st & u & b & Hpl & _ & _ & _ & _ & -> & ->).
  cbn [total_classes_scheduled conflict_count].
  unfold place_all in Hpl.
  destruct (subjects self) as [|s l] eqn:Hs; [done|].
  destruct (first_attempt_succeeds self rnd Hdraw Hload s) as [st1 Hatt].
  assert (Hpos : 0 < classes_per_week self) by lia.
  destruct (first_subject_total self rnd s l _ st1 st (initial_Inv self) Hpos Hatt Hpl)
    as [Hone Hexact].
  change (total (initial_locals self)) with 0 in Hone, Hexact.
  change (conflicts (initial_locals self)) with (@nil Conflict) in Hexact.
  split; [lia|]. intros Hlen Ht.
  destruct l; [|discriminate Hlen].
  destruct (Hexact eq_refl Ht) as [-> ->]. done.
Qed.

Lemma first_class_is_scheduled_witness :
  exists t,
    generate_optimized_schedule small_optimizer counting_source 1 = Ok t
    /\ 1 <= total_classes_scheduled (tt_metrics t)
    /\ (length (subjects small_optimizer) = 1%nat ->
        classes_per_week small_optimizer = 1 ->
        total_classes_scheduled (tt_metrics t) = 1
        /\ conflict_count (tt_metrics t) = 0 /\ tt_conflicts t = []).
Proof.
  apply (first_class_is_scheduled small_config small_optimizer counting_source 1);
    first [reflexivity | discriminate | by vm_compute].
Defined.

(** ** The draws that a run reads *)

Section draws_read.
Variable self : ScheduleOptimizer.
Variables rnd rnd' : nat -> nat.

Lemma choice_same_draw {A} (seq : list A) (pos : nat) :
  rnd' pos = rnd pos -> choice rnd' seq pos = choice rnd seq pos.
Proof. intros H. unfold choice. by rewrite H. Qed.

Lemma randint_same_draw (a b : Z) (pos : nat) :
  rnd' pos = rnd pos -> randint rnd' a b pos = randint rnd a b pos.
Proof. intros H. unfold randint. by rewrite H. Qed.

(** An iteration reads the five draws at its cursor. *)
Lemma attempt_same_draws s st :
  (forall i, (rng_pos st <= i < rng_pos st + 5)%nat -> rnd' i = rnd i) ->
  attempt self rnd' s st = attempt self rnd s st.
Proof.
  intros H. unfold attempt.
  rewrite (choice_same_draw _ (rng_pos st)) by (apply H; lia).
  destruct (choice rnd (days self) _) as [[day p1]| |] eqn:E1; [|done|done].
  apply choice_Ok in E1 as [_ ->]. simpl.
  rewrite (choice_same_draw _ (S (rng_pos st))) by (apply H; lia).
  destruct (choice rnd (time_slots self) _) as [[slot p2]| |] eqn:E2; [|done|done].
  apply choice_Ok in E2 as [_ ->]. simpl.
  rewrite (randint_same_draw _ _ (S (S (rng_pos st)))) by (apply H; lia).
  destruct (randint rnd 1 (classrooms self) _) as [[rn p3]| |] eqn:E3; [|done|done].
  apply randint_Ok in E3 as [_ ->]. simpl.
  rewrite (randint_same_draw _ _ (S (S (S (rng_pos st))))) by (apply H; lia).
  destruct (randint rnd 1 (batches self) _) as [[bn p4]| |] eqn:E4; [|done|done].
  apply randint_Ok in E4 as [_ ->]. simpl.
  by rewrite (choice_same_draw _ (S (S (S (S (rng_pos st)))))) by (apply H; lia).
Qed.

Lemma while_loop_same_draws fuel s c a st c' a' st' :
  Inv self st ->
  while_loop self rnd fuel s c a st = Ok (c', a', st') ->
  (forall i, (rng_pos st <= i < rng_pos st')%nat -> rnd' i = rnd i) ->
  while_loop self rnd' fuel s c a st = Ok (c', a', st').
Proof.
  revert c a st. induction fuel as [|fuel IH]; intros c a st Hinv; [discriminate|].
  simpl. destruct (_ && _); [|done].
  intros H Hsame. inv_bind H. destruct a0 as [ok st1].
  destruct (attempt_Ok self rnd s st ok st1 Hinv Ha) as (Hinv1 & Hpos1 & _).
  destruct (while_loop_Ok self rnd _ _ _ _ _ _ _ _ Hinv1 H)
    as (_ & _ & _ & _ & _ & _ & Hpos & _).
  rewrite attempt_same_draws by (intros i Hi; apply Hsame; lia).
  rewrite (bind_Ok_eq _ _ _ Ha). simpl.
  apply IH; [done|done|]. intros i Hi. apply Hsame. lia.
Qed.

Lemma schedule_subject_eq (r : nat -> nat) st s :
  schedule_subject self r st s
  = ('(_, _, st') ← while_loop self r loop_fuel s 0 0 st; Ok st').
Proof. reflexivity. Qed.

Lemma for_each_same_draws l st st' :
  Inv self st ->
  for_each (schedule_subject self rnd) l st = Ok st' ->
  (forall i, (rng_pos st <= i < rng_pos st')%nat -> rnd' i = rnd i) ->
  for_each (schedule_subject self rnd') l st = Ok st'.
Proof.
  revert st. induction l as [|s l IH]; intros st Hinv H Hsame.
  { rewrite for_each_nil in H. rewrite for_each_nil. exact H. }
  rewrite for_each_cons in H. rewrite for_each_cons.
  inv_bind H. rename a into st1.
  destruct (schedule_subject_Ok self rnd st s st1 Hinv Ha)
    as (c' & a' & Hw & Hinv1 & _ & _ & _ & _ & _ & Hpos1 & _).
  assert (Hmono : (rng_pos st1 <= rng_pos st')%nat).
  { clear -H Hinv1. revert st1 H Hinv1. induction l as [|x l IHl]; intros st1 H Hinv1.
    - rewrite for_each_nil in H. by injection H as <-.
    - rewrite for_each_cons in H. inv_bind H.
      destruct (schedule_subject_Ok self rnd st1 x a Hinv1 Ha)
        as (c & a0 & _ & Hinv2 & _ & _ & _ & _ & _ & Hp & _).
      specialize (IHl a H Hinv2). lia. }
  assert (Hs : schedule_subject self rnd' st s = Ok st1).
  { rewrite schedule_subject_eq.
    rewrite (while_loop_same_draws _ _ _ _ _ _ _ _ Hinv Hw); [reflexivity|].
    intros i Hi. apply Hsame. lia. }
  rewrite (bind_Ok_eq _ _ _ Hs).
  apply IH; [done|done|]. intros i Hi. apply Hsame. lia.
Qed.
End draws_read.

(** A run reads nothing of the generator but its first draws, five for
    each class and each conflict: on a source that gives the same draws up
    to there, the run returns the same timetable. *)
Theorem run_reads_its_draws_only :
  forall (self : ScheduleOptimizer) (rnd rnd' : nat -> nat) (option_num : Z)
         (t : Timetable),
    generate_optimized_schedule self rnd option_num = Ok t ->
    (forall i : nat,
       Z.of_nat i < 5 * (total_classes_scheduled (tt_metrics t)
                         + conflict_count (tt_metrics t)) ->
       rnd' i = rnd i) ->
    generate_optimized_schedule self rnd' option_num = Ok t.
Proof.
  intros self rnd rnd' option_num t Hgen Hsame.
  destruct (generate_Ok self rnd option_num t Hgen)
    as (st & u & b & Hpl & Hinv & _ & _ & _ & _ & Hm).
  rewrite Hm in Hsame. cbn [total_classes_scheduled conflict_count] in Hsame.
  rewrite <- (place_all_draws self rnd st Hpl) in Hsame.
  assert (Hpl' : place_all self rnd' = Ok st).
  { apply (for_each_same_draws self rnd rnd' _ _ _ (initial_Inv self) Hpl).
    intros i Hi. apply Hsame. lia. }
  unfold generate_optimized_schedule in Hgen |- *.
  rewrite (bind_Ok_eq _ _ _ Hpl) in Hgen. rewrite (bind_Ok_eq _ _ _ Hpl').
  exact Hgen.
Qed.

Lemma run_reads_its_draws_only_witness :
  generate_optimized_schedule small_optimizer (fun i => if (i <? 5)%nat then i else 7%nat)
    1 = Ok small_timetable.
Proof.
  apply (run_reads_its_draws_only small_optimizer counting_source).
  - vm_compute. reflexivity.
  - intros i Hi. change (conflict_count (tt_metrics small_timetable)) with 0 in Hi.
    change (total_classes_scheduled (tt_metrics small_timetable)) with 1 in Hi.
    unfold counting_source. destruct (Nat.ltb_spec i 5); [done|lia].
Defined.

(** * Properties of the routes *)

(** ** Rows of one candidate *)

Section conflict_rows.
Variable timetable_id : Z.

Lemma insert_conflicts_tables (cs : list Conflict) (db : Db) :
  let db' :=
    fold_left
      (fun db conflict =>
         insert_conflict db timetable_id "scheduling"
           (join ", " (c_reasons conflict))) cs db in
  db_configurations db' = db_configurations db
  /\ db_configurations_seq db' = db_configurations_seq db
  /\ db_timetables db' = db_timetables db
  /\ db_timetables_seq db' = db_timetables_seq db
  /\ db_conflicts_seq db' = db_conflicts_seq db + Z.of_nat (length cs)
  /\ exists rows,
       db_conflicts db' = db_conflicts db ++ rows
       /\ map (fun r => (kr_timetable_id r, kr_description r)) rows
          = map (fun c => (timetable_id, join ", " (c_reasons c))) cs
       /\ map kr_id rows = seqZ (db_conflicts_seq db + 1) (Z.of_nat (length cs))
       /\ Forall (fun r => kr_conflict_type r = "scheduling"
                           /\ kr_severity r = "medium" /\ kr_resolved r = false) rows.
Proof.
  revert db. induction cs as [|c cs IH]; intros db; cbn zeta.
  - simpl. do 4 (split; [done|]). split; [lia|]. exists [].
    rewrite app_nil_r. done.
  - simpl fold_left.
    destruct (IH (insert_conflict db timetable_id "scheduling"
                    (join ", " (c_reasons c))))
      as (H1 & H2 & H3 & H4 & H5 & rows & H6 & H7 & H8 & H9).
    rewrite H1, H2, H3, H4, H5, H6. cbn [insert_conflict db_configurations
      db_configurations_seq db_timetables db_timetables_seq db_conflicts
      db_conflicts_seq].
    do 4 (split; [done|]). split; [simpl length; lia|].
    eexists (_ :: rows). split; [by rewrite <- app_assoc|].
    split; [simpl; by rewrite H7|]. split.
    + simpl length. rewrite Nat2Z.inj_succ, seqZ_cons by lia.
      simpl. rewrite H8. cbn [insert_conflict db_conflicts_seq].
      do 2 f_equal. lia.
    + by constructor.
Qed.
End conflict_rows.

Section candidates.
Variable self : ScheduleOptimizer.
Variable rnd : nat -> nat.
Variable config_id : Z.

(** One turn of the loop, when the run returns. *)
Lemma candidate_Ok timetables pos db i t :
  generate_optimized_schedule self (shifted rnd pos) (i + 1) = Ok t ->
  exists used db',
    draws self (shifted rnd pos) = Ok used
    /\ Z.of_nat used
       = 5 * (total_classes_scheduled (tt_metrics t) + conflict_count (tt_metrics t))
    /\ candidate self rnd config_id (timetables, pos, db) i
       = Ok (timetables ++ [t], (pos + used)%nat, db')
    /\ candidate_stored config_id t db db'.
Proof.
  intros Hgen.
  destruct (generate_Ok self _ _ t Hgen)
    as (st & u & b & Hpl & _ & _ & _ & _ & _ & Hm).
  exists (rng_pos st). eexists. split; [|split; [|split]].
  - unfold draws. by rewrite (bind_Ok_eq _ _ _ Hpl).
  - rewrite Hm. cbn [total_classes_scheduled conflict_count].
    exact (place_all_draws self _ st Hpl).
  - unfold candidate. rewrite (bind_Ok_eq _ _ _ Hgen).
    unfold draws. rewrite (bind_Ok_eq _ _ _ Hpl). simpl. reflexivity.
  - destruct (insert_conflicts_tables (db_timetables_seq db + 1) (tt_conflicts t)
                (insert_timetable db (tt_name t) (tt_schedule t) (tt_metrics t)
                   "draft" config_id).2)
      as (H1 & H2 & H3 & H4 & H5 & rows & H6 & H7 & H8 & H9).
    unfold candidate_stored. simpl in *.
    rewrite H1, H2, H3, H4, H5. do 5 (split; [done|]).
    exists rows. done.
Qed.

(** A run that raises ends the loop at once. *)
Lemma candidate_Raise timetables pos db i e :
  generate_optimized_schedule self (shifted rnd pos) (i + 1) = Raise e ->
  candidate self rnd config_id (timetables, pos, db) i = Raise e.
Proof. intros Hgen. unfold candidate. by rewrite Hgen. Qed.
End candidates.

(** ** The three candidates *)

Section three_candidates.
Variable self : ScheduleOptimizer.
Variable rnd : nat -> nat.
Variable config_id : Z.
Hypothesis Hdays : days self <> [].
Hypothesis Hslots : time_slots self <> [].

(** If one run returns, every run of the optimizer returns. *)
Lemma returns_every_run rnd0 n0 rnd1 n1 :
  returns (generate_optimized_schedule self rnd0 n0) ->
  returns (generate_optimized_schedule self rnd1 n1).
Proof.
  intros [t Ht].
  pose proof (generate_outcome self rnd0 Hdays Hslots n0) as H0.
  pose proof (generate_outcome self rnd1 Hdays Hslots n1) as H1.
  destruct (expected_exception self) as [e|]; [|done].
  rewrite Ht in H0. discriminate H0.
Qed.

Lemma candidates_Ok db0 :
  returns (generate_optimized_schedule self rnd 1) ->
  exists t1 t2 t3 d1 d2 d3 db1 db2 db3,
    generate_optimized_schedule self rnd 1 = Ok t1
    /\ Z.of_nat d1 = 5 * (total_classes_scheduled (tt_metrics t1)
                          + conflict_count (tt_metrics t1))
    /\ generate_optimized_schedule self (shifted rnd d1) 2 = Ok t2
    /\ Z.of_nat d2 = 5 * (total_classes_scheduled (tt_metrics t2)
                          + conflict_count (tt_metrics t2))
    /\ generate_optimized_schedule self (shifted rnd (d1 + d2)) 3 = Ok t3
    /\ for_each (candidate self rnd config_id) [0; 1; 2] ([], O, db0)
       = Ok ([t1; t2; t3], d3, db3)
    /\ candidate_stored config_id t1 db0 db1
    /\ candidate_stored config_id t2 db1 db2
    /\ candidate_stored config_id t3 db2 db3.
Proof.
  intros Hret.
  destruct Hret as [t1 Ht1].
  destruct (candidate_Ok self rnd config_id [] O db0 0 t1 Ht1)
    as (d1 & db1 & _ & Hd1 & Hc1 & Hs1).
  destruct (returns_every_run rnd 1 (shifted rnd d1) 2 (ex_intro _ t1 Ht1)) as [t2 Ht2].
  destruct (candidate_Ok self rnd config_id [t1] d1 db1 1 t2 Ht2)
    as (d2 & db2 & _ & Hd2 & Hc2 & Hs2).
  destruct (returns_every_run rnd 1 (shifted rnd (d1 + d2)) 3 (ex_intro _ t1 Ht1))
    as [t3 Ht3].
  destruct (candidate_Ok self rnd config_id [t1; t2] (d1 + d2) db2 2 t3 Ht3)
    as (d3 & db3 & _ & _ & Hc3 & Hs3).
  exists t1, t2, t3, d1, d2, (d1 + d2 + d3)%nat, db1, db2, db3.
  do 5 (split; [done|]). split; [|done].
  cbn [for_each]. rewrite (bind_Ok_eq _ _ _ Hc1). cbn [app Nat.add].
  rewrite (bind_Ok_eq _ _ _ Hc2). cbn [app].
  rewrite (bind_Ok_eq _ _ _ Hc3). reflexivity.
Qed.

Lemma candidates_Raise db0 e :
  generate_optimized_schedule self rnd 1 = Raise e ->
  for_each (candidate self rnd config_id) [0; 1; 2] ([], O, db0) = Raise e.
Proof.
  intros He. cbn [for_each].
  by rewrite (candidate_Raise self rnd config_id [] O db0 0 e He).
Qed.
End three_candidates.

(** The route, authenticated, when the first run returns. *)
Lemma generate_schedules_Ok :
  forall (user_id : Z) (cfg : Config) (self : ScheduleOptimizer) (now : string)
         (rnd : nat -> nat) (db : Db),
    init cfg = Ok self ->
    returns (generate_optimized_schedule self rnd 1) ->
    let config_id := db_configurations_seq db + 1 in
    let last := db_timetables_seq db in
    exists t1 t2 t3 d1 d2 db',
      generate_optimized_schedule self rnd 1 = Ok t1
      /\ Z.of_nat d1 = 5 * (total_classes_scheduled (tt_metrics t1)
                            + conflict_count (tt_metrics t1))
      /\ generate_optimized_schedule self (shifted rnd d1) 2 = Ok t2
      /\ Z.of_nat d2 = 5 * (total_classes_scheduled (tt_metrics t2)
                            + conflict_count (tt_metrics t2))
      /\ generate_optimized_schedule self (shifted rnd (d1 + d2)) 3 = Ok t3
      /\ generate_schedules (Some user_id) cfg now rnd db
         = (Ok {| status_code := 200; body := TimetablesBody [t1; t2; t3] |}, db')
      /\ db_configurations db'
         = db_configurations db ++
           [{| cr_id := config_id; cr_name := "Auto_Config_" +:+ now;
               cr_config_data := cfg; cr_created_by := user_id;
               cr_is_active := false |}]
      /\ db_timetables db'
         = db_timetables db ++
           [draft_row (last + 1) config_id t1; draft_row (last + 2) config_id t2;
            draft_row (last + 3) config_id t3]
      /\ db_timetables_seq db' = last + 3
      /\ exists rows,
           db_conflicts db' = db_conflicts db ++ rows
           /\ map (fun r => (kr_timetable_id r, kr_description r)) rows
              = conflict_entries (last + 1) t1 ++ conflict_entries (last + 2) t2
                ++ conflict_entries (last + 3) t3
           /\ Forall (fun r => kr_conflict_type r = "scheduling"
                               /\ kr_severity r = "medium"
                               /\ kr_resolved r = false) rows.
Proof.
  intros user_id cfg self now rnd db Hinit Hret. cbn zeta.
  destruct (init_nonempty cfg self Hinit) as [Hd Hs].
  set (committed := (insert_configuration db ("Auto_Config_" +:+ now) cfg user_id).2).
  destruct (candidates_Ok self rnd (db_configurations_seq db + 1) Hd Hs committed Hret)
    as (t1 & t2 & t3 & d1 & d2 & d3 & db1 & db2 & db3
        & H1 & Hd1 & H2 & Hd2 & H3 & Hloop & Hs1 & Hs2 & Hs3).
  exists t1, t2, t3, d1, d2, db3. do 5 (split; [done|]).
  split.
  { unfold generate_schedules. cbn [insert_configuration].
    rewrite (bind_Ok_eq _ _ _ Hinit). fold committed.
    change (insert_configuration db ("Auto_Config_" +:+ now) cfg user_id).2
      with committed in Hloop.
    unfold committed, insert_configuration in Hloop |- *. cbn [snd] in Hloop.
    by rewrite Hloop. }
  destruct Hs1 as (A1 & _ & B1 & C1 & _ & r1 & E1 & F1 & _ & G1).
  destruct Hs2 as (A2 & _ & B2 & C2 & _ & r2 & E2 & F2 & _ & G2).
  destruct Hs3 as (A3 & _ & B3 & C3 & _ & r3 & E3 & F3 & _ & G3).
  split; [by rewrite A3, A2, A1|].
  split.
  { rewrite B3, B2, B1, C2, C1. unfold committed. cbn [insert_configuration snd
      db_timetables db_timetables_seq].
    replace (db_timetables_seq db + 1 + 1 + 1) with (db_timetables_seq db + 3) by lia.
    replace (db_timetables_seq db + 1 + 1) with (db_timetables_seq db + 2) by lia.
    by rewrite <- !app_assoc. }
  split.
  { rewrite C3, C2, C1. unfold committed.
    cbn [insert_configuration snd db_timetables_seq]. lia. }
  exists (r1 ++ r2 ++ r3). split; [|split].
  - rewrite E3, E2, E1. unfold committed. cbn [insert_configuration snd db_conflicts].
    by rewrite <- !app_assoc.
  - rewrite !map_app, F1, F2, F3, C2, C1. unfold committed.
    cbn [insert_configuration snd db_timetables_seq].
    replace (db_timetables_seq db + 1 + 1 + 1) with (db_timetables_seq db + 3) by lia.
    by replace (db_timetables_seq db + 1 + 1) with (db_timetables_seq db + 2) by lia.
  - by rewrite !Forall_app.
Qed.

(** [POST /api/generate-schedules] stores all three candidates or none.
    Without a session nothing is stored and the answer is 401.  With one,
    the configuration is stored and committed before the optimizer runs; then
    either the three runs return and three timetables are stored, or the
    first run raises, the route raises the same exception, and the database
    keeps the configuration without any timetable or conflict. *)
Theorem generate_schedules_all_or_nothing :
  forall (user_id : Z) (cfg : Config) (now : string) (rnd : nat -> nat) (db : Db),
    generate_schedules None cfg now rnd db
    = (Ok {| status_code := 401; body := ErrorBody "Not authenticated" |}, db)
    /\ let result := generate_schedules (Some user_id) cfg now rnd db in
       db_configurations result.2
       = db_configurations db ++
         [{| cr_id := db_configurations_seq db + 1;
             cr_name := "Auto_Config_" +:+ now; cr_config_data := cfg;
             cr_created_by := user_id; cr_is_active := false |}]
       /\ (forall e, result.1 = Raise e <-> run cfg rnd 1 = Raise e)
       /\ ((returns result.1
            /\ exists rows, db_timetables result.2 = db_timetables db ++ rows
                            /\ length rows = 3%nat)
           \/ (raises result.1
               /\ db_timetables result.2 = db_timetables db
               /\ db_conflicts result.2 = db_conflicts db)).
Proof.
  intros user_id cfg now rnd db. split; [reflexivity|]. cbn zeta.
  destruct (init cfg) as [self| |] eqn:Hinit; [|discriminate Hinit..].
  destruct (init_nonempty cfg self Hinit) as [Hd Hs].
  assert (Hrun : run cfg rnd 1 = generate_optimized_schedule self rnd 1).
  { unfold run. by rewrite (bind_Ok_eq _ _ _ Hinit). }
  rewrite Hrun.
  destruct (generate_optimized_schedule self rnd 1) as [t| e|] eqn:Hgen.
  - destruct (candidates_Ok self rnd (db_configurations_seq db + 1) Hd Hs
                (insert_configuration db ("Auto_Config_" +:+ now) cfg user_id).2
                (ex_intro _ t Hgen))
      as (t1 & t2 & t3 & d1 & d2 & d3 & db1 & db2 & db3
          & _ & _ & _ & _ & _ & Hloop & Hs1 & Hs2 & Hs3).
    unfold generate_schedules. cbn [insert_configuration].
    rewrite (bind_Ok_eq _ _ _ Hinit).
    cbn [insert_configuration snd] in Hloop. rewrite Hloop. cbn [fst snd].
    destruct Hs1 as (A1 & _ & B1 & _).
    destruct Hs2 as (A2 & _ & B2 & _).
    destruct Hs3 as (A3 & _ & B3 & _).
    split; [by rewrite A3, A2, A1|]. split; [done|]. left.
    split; [by eexists|].
    eexists [_; _; _]. split; [|done].
    rewrite B3, B2, B1. by rewrite <- !app_assoc.
  - pose proof (candidates_Raise self rnd (db_configurations_seq db + 1)
                  (insert_configuration db ("Auto_Config_" +:+ now) cfg user_id).2
                  e Hgen) as Hloop.
    unfold generate_schedules. cbn [insert_configuration].
    rewrite (bind_Ok_eq _ _ _ Hinit).
    cbn [insert_configuration snd] in Hloop. rewrite Hloop. cbn [fst snd].
    split; [done|]. split; [intros e0; split; intros [= ->]; reflexivity|]. right. split; [by eexists|done].
  - exfalso. by apply (generate_finishes self rnd 1).
Qed.

Lemma generate_id_name (self : ScheduleOptimizer) (rnd : nat -> nat)
    (option_num : Z) (t : Timetable) :
  generate_optimized_schedule self rnd option_num = Ok t ->
  tt_id t = option_num /\ tt_name t = "Timetable Option " +:+ str option_num.
Proof.
  unfold generate_optimized_schedule. intros H.
  inv_bind H. inv_bind H. by injection H as <-.
Qed.

(** An answer of the route comes from a first run that returned. *)
Lemma generate_schedules_inv (user_id : Z) (cfg : Config) (self : ScheduleOptimizer)
    (now : string) (rnd : nat -> nat) (db db' : Db) (response : Response) :
  init cfg = Ok self ->
  generate_schedules (Some user_id) cfg now rnd db = (Ok response, db') ->
  returns (generate_optimized_schedule self rnd 1).
Proof.
  intros Hinit Hroute.
  destruct (generate_optimized_schedule self rnd 1) as [t|e|] eqn:Hgen.
  - by eexists.
  - exfalso.
    pose proof (candidates_Raise self rnd (db_configurations_seq db + 1)
                  (insert_configuration db ("Auto_Config_" +:+ now) cfg user_id).2
                  e Hgen) as Hloop.
    unfold generate_schedules in Hroute. cbn [insert_configuration] in Hroute.
    rewrite (bind_Ok_eq _ _ _ Hinit) in Hroute.
    cbn [insert_configuration snd] in Hloop. rewrite Hloop in Hroute.
    discriminate Hroute.
  - exfalso. by apply (generate_finishes self rnd 1).
Qed.

(** The three candidates of [POST /api/generate-schedules] are three runs
    of one optimizer on one generator: the answer lists them in order, as
    options 1, 2 and 3; the second run reads the generator where the first
    stopped and the third where the second stopped, a run having made five
    draws for each of its classes and each of its conflicts. *)
Theorem candidates_share_the_generator :
  forall (user_id : Z) (cfg : Config) (self : ScheduleOptimizer) (now : string)
         (rnd : nat -> nat) (db db' : Db) (response : Response),
    init cfg = Ok self ->
    generate_schedules (Some user_id) cfg now rnd db = (Ok response, db') ->
    exists t1 t2 t3 d1 d2,
      response = {| status_code := 200; body := TimetablesBody [t1; t2; t3] |}
      /\ generate_optimized_schedule self rnd 1 = Ok t1
      /\ Z.of_nat d1 = 5 * (total_classes_scheduled (tt_metrics t1)
                            + conflict_count (tt_metrics t1))
      /\ generate_optimized_schedule self (shifted rnd d1) 2 = Ok t2
      /\ Z.of_nat d2 = 5 * (total_classes_scheduled (tt_metrics t2)
                            + conflict_count (tt_metrics t2))
      /\ generate_optimized_schedule self (shifted rnd (d1 + d2)) 3 = Ok t3
      /\ map tt_id [t1; t2; t3] = [1; 2; 3]
      /\ map tt_name [t1; t2; t3]
         = ["Timetable Option 1"; "Timetable Option 2"; "Timetable Option 3"].
Proof.
  intros user_id cfg self now rnd db db' response Hinit Hroute.
  pose proof (generate_schedules_inv _ _ _ _ _ _ _ _ Hinit Hroute) as Hret.
  destruct (generate_schedules_Ok user_id cfg self now rnd db Hinit Hret)
    as (t1 & t2 & t3 & d1 & d2 & db'' & H1 & Hd1 & H2 & Hd2 & H3 & Hr & _).
  rewrite Hr in Hroute. injection Hroute as <- <-.
  exists t1, t2, t3, d1, d2. do 6 (split; [done|]). cbn [map].
  destruct (generate_id_name _ _ _ _ H1) as [-> ->].
  destruct (generate_id_name _ _ _ _ H2) as [-> ->].
  destruct (generate_id_name _ _ _ _ H3) as [-> ->].
  done.
Qed.

Lemma small_request :
  generate_schedules (Some 1) small_config "20250101_090000" counting_source empty_db
  = (Ok small_answer.1, small_answer.2).
Proof. vm_compute. reflexivity. Qed.

Lemma candidates_share_the_generator_witness :
  exists t1 t2 t3 d1 d2,
    small_answer.1 = {| status_code := 200; body := TimetablesBody [t1; t2; t3] |}
    /\ generate_optimized_schedule small_optimizer counting_source 1 = Ok t1
    /\ Z.of_nat d1 = 5 * (total_classes_scheduled (tt_metrics t1)
                          + conflict_count (tt_metrics t1))
    /\ generate_optimized_schedule small_optimizer (shifted counting_source d1) 2 = Ok t2
    /\ Z.of_nat d2 = 5 * (total_classes_scheduled (tt_metrics t2)
                          + conflict_count (tt_metrics t2))
    /\ generate_optimized_schedule small_optimizer (shifted counting_source (d1 + d2)) 3
       = Ok t3
    /\ map tt_id [t1; t2; t3] = [1; 2; 3]
    /\ map tt_name [t1; t2; t3]
       = ["Timetable Option 1"; "Timetable Option 2"; "Timetable Option 3"].
Proof.
  apply (candidates_share_the_generator 1 small_config small_optimizer
           "20250101_090000" counting_source empty_db small_answer.2).
  - reflexivity.
  - vm_compute. reflexivity.
Defined.

(** What [POST /api/generate-schedules] stores when it answers: the
    configuration (inactive, owned by the user, under the next key), three
    rows of status 'draft' for the three timetables of the answer, under the
    next three keys and pointing to that configuration, and one row of type
    'scheduling' for every conflict of every timetable, in order, described
    by the reasons joined with ", ". *)
Theorem generate_schedules_rows :
  forall (user_id : Z) (cfg : Config) (self : ScheduleOptimizer) (now : string)
         (rnd : nat -> nat) (db db' : Db) (response : Response),
    init cfg = Ok self ->
    generate_schedules (Some user_id) cfg now rnd db = (Ok response, db') ->
    let config_id := db_configurations_seq db + 1 in
    let last := db_timetables_seq db in
    exists t1 t2 t3,
      response = {| status_code := 200; body := TimetablesBody [t1; t2; t3] |}
      /\ db_configurations db'
         = db_configurations db ++
           [{| cr_id := config_id; cr_name := "Auto_Config_" +:+ now;
               cr_config_data := cfg; cr_created_by := user_id;
               cr_is_active := false |}]
      /\ db_timetables db'
         = db_timetables db ++
           [draft_row (last + 1) config_id t1; draft_row (last + 2) config_id t2;
            draft_row (last + 3) config_id t3]
      /\ exists rows,
           db_conflicts db' = db_conflicts db ++ rows
           /\ map (fun r => (kr_timetable_id r, kr_description r)) rows
              = conflict_entries (last + 1) t1 ++ conflict_entries (last + 2) t2
                ++ conflict_entries (last + 3) t3
           /\ Forall (fun r => kr_conflict_type r = "scheduling"
                               /\ kr_severity r = "medium"
                               /\ kr_resolved r = false) rows.
Proof.
  intros user_id cfg self now rnd db db' response Hinit Hroute. cbn zeta.
  pose proof (generate_schedules_inv _ _ _ _ _ _ _ _ Hinit Hroute) as Hret.
  destruct (generate_schedules_Ok user_id cfg self now rnd db Hinit Hret)
    as (t1 & t2 & t3 & d1 & d2 & db'' & _ & _ & _ & _ & _ & Hr & Hc & Ht & _ & Hk).
  rewrite Hr in Hroute. injection Hroute as <- <-.
  exists t1, t2, t3. done.
Qed.

Lemma generate_schedules_rows_witness :
  let config_id := db_configurations_seq empty_db + 1 in
  let last := db_timetables_seq empty_db in
  exists t1 t2 t3,
    small_answer.1 = {| status_code := 200; body := TimetablesBody [t1; t2; t3] |}
    /\ db_configurations small_answer.2
       = db_configurations empty_db ++
         [{| cr_id := config_id; cr_name := "Auto_Config_" +:+ "20250101_090000";
             cr_config_data := small_config; cr_created_by := 1;
             cr_is_active := false |}]
    /\ db_timetables small_answer.2
       = db_timetables empty_db ++
         [draft_row (last + 1) config_id t1; draft_row (last + 2) config_id t2;
          draft_row (last + 3) config_id t3]
    /\ exists rows,
         db_conflicts small_answer.2 = db_conflicts empty_db ++ rows
         /\ map (fun r => (kr_timetable_id r, kr_description r)) rows
            = conflict_entries (last + 1) t1 ++ conflict_entries (last + 2) t2
              ++ conflict_entries (last + 3) t3
         /\ Forall (fun r => kr_conflict_type r = "scheduling"
                             /\ kr_severity r = "medium"
                             /\ kr_resolved r = false) rows.
Proof.
  apply (generate_schedules_rows 1 small_config small_optimizer
           "20250101_090000" counting_source empty_db small_answer.2).
  - reflexivity.
  - vm_compute. reflexivity.
Defined.

(** ** Approval *)

Lemma filter_unique_key {A} (P : A -> Prop) `{forall x, Decision (P x)}
    (key : A -> Z) (c : Z) (l : list A) :
  NoDup (map key l) -> (forall x, x ∈ l -> P x -> key x = c) ->
  (length (filter P l) <= 1)%nat.
Proof.
  induction l as [|x l IH]; intros Hnd Hkey; [simpl; lia|].
  simpl in Hnd. apply NoDup_cons in Hnd as [Hx Hnd].
  rewrite filter_cons. destruct (decide (P x)) as [HP|HP].
  - cbn [length]. rewrite (length_filter_none P l); [lia|].
    apply Forall_forall. intros y Hy HPy. apply Hx.
    rewrite (Hkey x ltac:(left) HP), <- (Hkey y ltac:(by right) HPy).
    apply list_elem_of_In, in_map, list_elem_of_In, Hy.
  - apply IH; [done|]. intros y Hy. apply Hkey. by right.
Qed.

Section approval.
Variable user_id : Z.
Variable timetable_id : option Z.
Variable now : string.

(** The two statements on one row. *)
Lemma approve_row (r0 : TimetableRow) :
  let r1 := if bool_decide (tr_status r0 = "approved")
            then with_status r0 "archived" (tr_approved_at r0) (tr_approved_by r0)
            else r0 in
  let r := if bool_decide (Some (tr_id r1) = timetable_id)
           then with_status r1 "approved" (Some now) (Some user_id)
           else r1 in
  tr_id r = tr_id r0 /\ tr_name r = tr_name r0
  /\ tr_schedule_data r = tr_schedule_data r0 /\ tr_metrics r = tr_metrics r0
  /\ tr_config_id r = tr_config_id r0
  /\ ((Some (tr_id r0) = timetable_id /\ tr_status r = "approved"
       /\ tr_approved_at r = Some now /\ tr_approved_by r = Some user_id)
      \/ (Some (tr_id r0) <> timetable_id /\ tr_status r0 = "approved"
          /\ r = with_status r0 "archived" (tr_approved_at r0) (tr_approved_by r0))
      \/ (Some (tr_id r0) <> timetable_id /\ tr_status r0 <> "approved" /\ r = r0)).
Proof.
  cbn zeta. destruct (bool_decide (tr_status r0 = "approved")) eqn:Ha;
    [apply bool_decide_eq_true_1 in Ha | apply bool_decide_eq_false_1 in Ha];
    cbn [with_status tr_id];
    (destruct (bool_decide (Some (tr_id r0) = timetable_id)) eqn:Hb;
     [apply bool_decide_eq_true_1 in Hb | apply bool_decide_eq_false_1 in Hb]);
    cbn [with_status tr_id tr_name tr_schedule_data tr_metrics tr_config_id
         tr_status tr_approved_at tr_approved_by];
    do 5 (split; [done|]); auto 10.
Qed.

Lemma approve_rows (db : Db) (r : TimetableRow) :
  r ∈ db_timetables (approve_timetable (Some user_id) timetable_id now db).2
  <-> exists r0, r0 ∈ db_timetables db
        /\ r = (let r1 := if bool_decide (tr_status r0 = "approved")
                          then with_status r0 "archived" (tr_approved_at r0)
                                 (tr_approved_by r0)
                          else r0 in
                if bool_decide (Some (tr_id r1) = timetable_id)
                then with_status r1 "approved" (Some now) (Some user_id)
                else r1).
Proof.
  unfold approve_timetable. cbn [snd db_timetables]. rewrite map_map.
  rewrite list_elem_of_In, in_map_iff. split.
  - intros (r0 & <- & Hin%list_elem_of_In). by exists r0.
  - intros (r0 & Hin%list_elem_of_In & ->). by exists r0.
Qed.

Lemma approve_keys (db : Db) :
  map tr_id (db_timetables (approve_timetable (Some user_id) timetable_id now db).2)
  = map tr_id (db_timetables db).
Proof.
  unfold approve_timetable. cbn [snd db_timetables]. rewrite !map_map.
  apply map_ext. intros r0. apply (approve_row r0).
Qed.
End approval.

(** [POST /api/approve-timetable].  Without a session nothing changes and
    the answer is 401.  With one the answer is always a success, the rows
    keep their keys and their data, and afterwards at most one timetable is
    approved: only a row of the given key is, stamped with the user and the
    time; rows that were approved before are archived, the others keep their
    status.  When no row has the given key, or no key is given, no timetable
    is approved any more, and the answer is a success all the same. *)
Theorem approve_timetable_exclusive :
  forall (user_id : Z) (timetable_id : option Z) (now : string) (db : Db),
    NoDup (map tr_id (db_timetables db)) ->
    approve_timetable None timetable_id now db
    = ({| status_code := 401; body := ErrorBody "Not authenticated" |}, db)
    /\ let answer := approve_timetable (Some user_id) timetable_id now db in
       let rows := db_timetables answer.2 in
       answer.1 = {| status_code := 200; body := SuccessBody |}
       /\ map tr_id rows = map tr_id (db_timetables db)
       /\ (length (filter (fun r => tr_status r = "approved") rows) <= 1)%nat
       /\ (forall r, r ∈ rows ->
             tr_status r = "approved" <-> Some (tr_id r) = timetable_id)
       /\ (forall r, r ∈ rows -> tr_status r = "approved" ->
             tr_approved_by r = Some user_id /\ tr_approved_at r = Some now)
       /\ ((forall r, r ∈ db_timetables db -> Some (tr_id r) <> timetable_id) ->
           forall r, r ∈ rows -> tr_status r <> "approved")
       /\ (forall r, r ∈ db_timetables db -> Some (tr_id r) <> timetable_id ->
             if bool_decide (tr_status r = "approved")
             then with_status r "archived" (tr_approved_at r) (tr_approved_by r) ∈ rows
             else r ∈ rows).
Proof.
  intros user_id timetable_id now db Hnd. split; [reflexivity|]. cbn zeta.
  pose proof (approve_keys user_id timetable_id now db) as Hkeys.
  assert (Hiff : forall r,
    r ∈ db_timetables (approve_timetable (Some user_id) timetable_id now db).2 ->
    (tr_status r = "approved" <-> Some (tr_id r) = timetable_id)
    /\ (tr_status r = "approved" ->
        tr_approved_by r = Some user_id /\ tr_approved_at r = Some now)).
  { intros r (r0 & Hin & ->)%approve_rows.
    destruct (approve_row user_id timetable_id now r0)
      as (Hid & _ & _ & _ & _ & Hcase). cbn zeta in Hid, Hcase |- *.
    rewrite Hid.
    destruct Hcase as [(Ht & Hs & Hat & Hby)|[(Ht & Hs & Hr)|(Ht & Hs & Hr)]].
    - by rewrite Hs.
    - rewrite Hr. cbn [with_status tr_status]. split; [split|]; done.
    - rewrite Hr. split; [split|]; done. }
  split; [reflexivity|]. split; [exact Hkeys|]. split; [|split; [|split; [|split]]].
  - destruct timetable_id as [c|].
    + apply (filter_unique_key _ tr_id c); [by rewrite Hkeys|].
      intros r Hr Hs. destruct (Hiff r Hr) as [[Hto _] _].
      apply Hto in Hs. by injection Hs.
    + rewrite length_filter_none; [lia|]. apply Forall_forall.
      intros r Hr Hs. destruct (Hiff r Hr) as [[Hto _] _].
      apply Hto in Hs. discriminate Hs.
  - intros r Hr. apply (Hiff r Hr).
  - intros r Hr. apply (Hiff r Hr).
  - intros Hmissing r Hr Hs. destruct (Hiff r Hr) as [[Hto _] _].
    apply Hto in Hs.
    assert (Hk : tr_id r ∈ map tr_id (db_timetables db)).
    { rewrite <- Hkeys. apply list_elem_of_In, in_map, list_elem_of_In, Hr. }
    apply list_elem_of_In, in_map_iff in Hk as (r0 & Hid & Hin%list_elem_of_In).
    apply (Hmissing r0 Hin). by rewrite Hid.
  - intros r0 Hin Hne.
    destruct (bool_decide (tr_status r0 = "approved")) eqn:Ha.
    + apply approve_rows. exists r0. split; [done|]. cbn zeta. rewrite Ha.
      cbn [with_status tr_id]. by rewrite bool_decide_eq_false_2.
    + apply approve_rows. exists r0. split; [done|]. cbn zeta. rewrite Ha.
      by rewrite bool_decide_eq_false_2.
Qed.

Lemma approve_timetable_exclusive_witness :
  approve_timetable None (Some 2) "2025-01-02T10:00:00" small_answer.2
  = ({| status_code := 401; body := ErrorBody "Not authenticated" |}, small_answer.2)
  /\ let answer :=
       approve_timetable (Some 1) (Some 2) "2025-01-02T10:00:00" small_answer.2 in
     let rows := db_timetables answer.2 in
     answer.1 = {| status_code := 200; body := SuccessBody |}
     /\ map tr_id rows = map tr_id (db_timetables small_answer.2)
     /\ (length (filter (fun r => tr_status r = "approved") rows) <= 1)%nat
     /\ (forall r, r ∈ rows ->
           tr_status r = "approved" <-> Some (tr_id r) = Some 2)
     /\ (forall r, r ∈ rows -> tr_status r = "approved" ->
           tr_approved_by r = Some 1 /\ tr_approved_at r = Some "2025-01-02T10:00:00")
     /\ ((forall r, r ∈ db_timetables small_answer.2 -> Some (tr_id r) <> Some 2) ->
         forall r, r ∈ rows -> tr_status r <> "approved")
     /\ (forall r, r ∈ db_timetables small_answer.2 -> Some (tr_id r) <> Some 2 ->
           if bool_decide (tr_status r = "approved")
           then with_status r "archived" (tr_approved_at r) (tr_approved_by r) ∈ rows
           else r ∈ rows).
Proof.
  apply (approve_timetable_exclusive 1 (Some 2) "2025-01-02T10:00:00" small_answer.2).
  apply (bool_decide_unpack _). vm_compute. exact I.
Defined.

(** ** Keys, conflicts and suggestions of the stored candidates *)

Lemma length_filter_map {A B} (f : A -> B) (P : B -> Prop)
    `{forall y, Decision (P y)} (l : list A) :
  length (filter (fun x => P (f x)) l) = length (filter P (map f l)).
Proof.
  induction l as [|x l IH]; [done|]. simpl map.
  rewrite !filter_cons. destruct (decide (P (f x))); simpl; by rewrite IH.
Qed.

Lemma conflict_entries_count (id id' : Z) (t : Timetable) :
  length (filter (fun e : Z * string => e.1 = id) (conflict_entries id' t))
  = if bool_decide (id' = id) then length (tt_conflicts t) else O.
Proof.
  unfold conflict_entries. case_bool_decide as Heq.
  - rewrite length_filter_all, length_map; [done|].
    apply Forall_map, Forall_forall. by intros c _.
  - apply length_filter_none. apply Forall_map, Forall_forall. by intros c _.
Qed.

Lemma generate_conflict_count (self : ScheduleOptimizer) (rnd : nat -> nat)
    (option_num : Z) (t : Timetable) :
  generate_optimized_schedule self rnd option_num = Ok t ->
  conflict_count (tt_metrics t) = Z.of_nat (length (tt_conflicts t)).
Proof.
  intros H. destruct (generate_Ok self rnd option_num t H)
    as (st & u & b & _ & _ & _ & _ & _ & -> & ->). done.
Qed.

Lemma find_fresh_key (old rows : list TimetableRow) (last id : Z) :
  Forall (fun r => tr_id r <= last) old -> last < id ->
  find (fun r => bool_decide (tr_id r = id)) (old ++ rows)
  = find (fun r => bool_decide (tr_id r = id)) rows.
Proof.
  intros Hold Hid. induction Hold as [|r old Hr Hold IH]; [done|].
  simpl. rewrite bool_decide_eq_false_2 by lia. exact IH.
Qed.

Lemma find_approved (user_id : Z) (timetable_id : option Z) (now : string)
    (db : Db) (id : Z) :
  match find (fun r => bool_decide (tr_id r = id)) (db_timetables db) with
  | Some r0 =>
      exists r,
        find (fun r => bool_decide (tr_id r = id))
          (db_timetables (approve_timetable (Some user_id) timetable_id now db).2)
        = Some r
        /\ tr_metrics r = tr_metrics r0
  | None =>
      find (fun r => bool_decide (tr_id r = id))
        (db_timetables (approve_timetable (Some user_id) timetable_id now db).2)
      = None
  end.
Proof.
  unfold approve_timetable. cbn [snd db_timetables]. rewrite map_map.
  induction (db_timetables db) as [|r0 l IH]; [done|].
  destruct (approve_row user_id timetable_id now r0) as (Hid & _ & _ & Hm & _).
  cbn zeta in Hid, Hm. simpl. rewrite Hid.
  destruct (bool_decide (tr_id r0 = id)); [|exact IH].
  eexists. split; [reflexivity|exact Hm].
Qed.

Lemma suggest_improvements_metrics (t t' : Timetable) :
  tt_metrics t = tt_metrics t' -> suggest_improvements t = suggest_improvements t'.
Proof. unfold suggest_improvements. by intros ->. Qed.

Lemma get_suggestions_found (viewer id : Z) (db : Db) (r : TimetableRow)
    (t : Timetable) :
  find (fun r => bool_decide (tr_id r = id)) (db_timetables db) = Some r ->
  tr_metrics r = tt_metrics t ->
  get_suggestions (Some viewer) id db
  = Ok {| status_code := 200; body := SuggestionsBody (suggest_improvements t) |}.
Proof.
  intros Hfind Hm. unfold get_suggestions. rewrite Hfind. simpl.
  do 3 f_equal. by apply suggest_improvements_metrics.
Qed.

(** Both routes keep the keys of the timetables pairwise different and
    below the counter, and the conflicts pointing to keys given out,
    whoever calls them and whatever the run does. *)
Theorem routes_keep_keys :
  forall (session_user_id : option Z) (cfg : Config) (now : string)
         (rnd : nat -> nat) (timetable_id : option Z) (db : Db),
    keys_ok db ->
    keys_ok (generate_schedules session_user_id cfg now rnd db).2
    /\ keys_ok (approve_timetable session_user_id timetable_id now db).2.
Proof.
  intros [user_id|] cfg now rnd timetable_id db (Hnd & Hle & Hfk); [|by split].
  split.
  - destruct (init cfg) as [self| |] eqn:Hinit; [|discriminate Hinit..].
    destruct (init_nonempty cfg self Hinit) as [Hd Hs].
    destruct (generate_optimized_schedule self rnd 1) as [t|e|] eqn:Hgen.
    + destruct (generate_schedules_Ok user_id cfg self now rnd db Hinit
                  (ex_intro _ t Hgen))
        as (t1 & t2 & t3 & d1 & d2 & db' & _ & _ & _ & _ & _ & Hr & _ & Ht & Hseq
            & rows & Hk & Hent & _).
      cbn zeta in Hr, Ht, Hseq, Hent. rewrite Hr. cbn [snd].
      unfold keys_ok. rewrite Ht, Hseq, Hk. split; [|split].
      * rewrite map_app. apply NoDup_app. split; [done|]. split.
        -- intros x Hx Hx'. apply list_elem_of_In, in_map_iff in Hx
             as (r & <- & Hin%list_elem_of_In).
           rewrite Forall_forall in Hle. specialize (Hle r Hin).
           cbn [map draft_row tr_id] in Hx'.
           repeat (apply elem_of_cons in Hx' as [Hx'|Hx']; [lia|]).
           by apply elem_of_nil in Hx'.
        -- cbn [map draft_row tr_id].
           repeat (apply NoDup_cons; split;
                   [intros Hx; repeat (apply elem_of_cons in Hx as [Hx|Hx]; [lia|]);
                    by apply elem_of_nil in Hx|]).
           constructor.
      * apply Forall_app. split.
        -- eapply Forall_impl; [exact Hle|]. simpl. lia.
        -- repeat (constructor; [cbn [draft_row tr_id]; lia|]). constructor.
      * apply Forall_app. split.
        -- eapply Forall_impl; [exact Hfk|]. simpl. lia.
        -- apply Forall_forall. intros k Hk'.
           assert (Hin : (kr_timetable_id k, kr_description k)
                         ∈ map (fun r => (kr_timetable_id r, kr_description r)) rows).
           { apply list_elem_of_In.
             apply (in_map (fun r => (kr_timetable_id r, kr_description r))).
             by apply list_elem_of_In. }
           rewrite Hent in Hin. unfold conflict_entries in Hin.
           rewrite !elem_of_app in Hin.
           destruct Hin as [Hin|[Hin|Hin]];
             apply list_elem_of_In, in_map_iff in Hin as (c & [= Hc _] & _); lia.
    + pose proof (candidates_Raise self rnd (db_configurations_seq db + 1)
                    (insert_configuration db ("Auto_Config_" +:+ now) cfg user_id).2
                    e Hgen) as Hloop.
      unfold generate_schedules. cbn [insert_configuration].
      rewrite (bind_Ok_eq _ _ _ Hinit).
      cbn [insert_configuration snd] in Hloop. rewrite Hloop. by cbn [snd].
    + exfalso. by apply (generate_finishes self rnd 1).
  - unfold keys_ok. rewrite (approve_keys user_id timetable_id now db).
    unfold approve_timetable. cbn [snd db_timetables_seq db_conflicts].
    split; [done|]. split; [|done].
    rewrite map_map. apply Forall_map, Forall_forall. intros r0 Hin.
    destruct (approve_row user_id timetable_id now r0) as (Hid & _).
    cbn zeta in Hid. simpl. rewrite Hid.
    rewrite Forall_forall in Hle. by apply Hle.
Qed.

Lemma routes_keep_keys_witness :
  keys_ok (generate_schedules (Some 1) small_config "20250101_090000"
             counting_source empty_db).2
  /\ keys_ok (approve_timetable (Some 1) (Some 2) "2025-01-02T10:00:00" empty_db).2.
Proof.
  apply (routes_keep_keys (Some 1) small_config "20250101_090000" counting_source
           (Some 2) empty_db).
  repeat split; constructor.
Defined.

(** The conflicts stored for a timetable are as many as its metrics say:
    after [POST /api/generate-schedules] has answered, the query [SELECT *
    FROM conflicts WHERE timetable_id = ?] finds, for each of the three new
    timetables, exactly [conflict_count] rows. *)
Theorem stored_conflicts_match_metrics :
  forall (user_id : Z) (cfg : Config) (self : ScheduleOptimizer) (now : string)
         (rnd : nat -> nat) (db db' : Db) (response : Response),
    init cfg = Ok self -> keys_ok db ->
    generate_schedules (Some user_id) cfg now rnd db = (Ok response, db') ->
    forall r, r ∈ db_timetables db' -> db_timetables_seq db < tr_id r ->
      Z.of_nat (length (filter (fun k => kr_timetable_id k = tr_id r)
                          (db_conflicts db')))
      = conflict_count (tr_metrics r).
Proof.
  intros user_id cfg self now rnd db db' response Hinit (Hnd & Hle & Hfk) Hroute r Hr Hnew.
  pose proof (generate_schedules_inv _ _ _ _ _ _ _ _ Hinit Hroute) as Hret.
  destruct (generate_schedules_Ok user_id cfg self now rnd db Hinit Hret)
    as (t1 & t2 & t3 & d1 & d2 & db'' & H1 & _ & H2 & _ & H3 & Hroute' & _ & Ht & _
        & rows & Hk & Hent & _).
  rewrite Hroute' in Hroute. injection Hroute as _ <-.
  cbn zeta in Ht, Hent.
  rewrite Hk, filter_app, length_app.
  rewrite (length_filter_none _ (db_conflicts db)).
  2:{ eapply Forall_impl; [exact Hfk|]. simpl. lia. }
  assert (Hlen :
    length (filter (fun k => kr_timetable_id k = tr_id r) rows)
    = length (filter (fun e : Z * string => e.1 = tr_id r)
                (map (fun k => (kr_timetable_id k, kr_description k)) rows)))
    by exact (length_filter_map (fun k => (kr_timetable_id k, kr_description k))
                (fun e => e.1 = tr_id r) rows).
  rewrite Hlen.
  rewrite Hent, !filter_app, !length_app, !conflict_entries_count.
  rewrite Ht in Hr. apply elem_of_app in Hr as [Hr|Hr].
  { rewrite Forall_forall in Hle. specialize (Hle r Hr). lia. }
  apply (generate_conflict_count self) in H1, H2, H3.
  repeat (apply elem_of_cons in Hr as [->|Hr]);
    [..|by apply elem_of_nil in Hr];
    cbn [draft_row tr_id tr_metrics];
    repeat case_bool_decide; lia.
Qed.

Lemma stored_conflicts_match_metrics_witness :
  keys_ok empty_db
  /\ forall r, r ∈ db_timetables small_answer.2 ->
       db_timetables_seq empty_db < tr_id r ->
       Z.of_nat (length (filter (fun k => kr_timetable_id k = tr_id r)
                           (db_conflicts small_answer.2)))
       = conflict_count (tr_metrics r).
Proof.
  split; [repeat split; constructor|].
  apply (stored_conflicts_match_metrics 1 small_config small_optimizer
           "20250101_090000" counting_source empty_db small_answer.2 small_answer.1).
  - reflexivity.
  - repeat split; constructor.
  - vm_compute. reflexivity.
Defined.

(** The suggestions that [GET /api/get-suggestions/<id>] gives for the
    three timetables stored by [POST /api/generate-schedules] are those of
    the three timetables of its answer, also after an approval; a key above
    the new ones gives 404, and a request without a session 401. *)
Theorem suggestions_of_stored_candidates :
  forall (user_id viewer : Z) (cfg : Config) (self : ScheduleOptimizer)
         (now now' : string) (rnd : nat -> nat) (db db' : Db) (response : Response)
         (approver approved_id : option Z),
    init cfg = Ok self -> keys_ok db ->
    generate_schedules (Some user_id) cfg now rnd db = (Ok response, db') ->
    let last := db_timetables_seq db in
    let db'' := (approve_timetable approver approved_id now' db').2 in
    exists t1 t2 t3,
      response = {| status_code := 200; body := TimetablesBody [t1; t2; t3] |}
      /\ get_suggestions (Some viewer) (last + 1) db''
         = Ok {| status_code := 200;
                 body := SuggestionsBody (suggest_improvements t1) |}
      /\ get_suggestions (Some viewer) (last + 2) db''
         = Ok {| status_code := 200;
                 body := SuggestionsBody (suggest_improvements t2) |}
      /\ get_suggestions (Some viewer) (last + 3) db''
         = Ok {| status_code := 200;
                 body := SuggestionsBody (suggest_improvements t3) |}
      /\ (forall id, last + 3 < id ->
            get_suggestions (Some viewer) id db''
            = Ok {| status_code := 404; body := ErrorBody "Timetable not found" |})
      /\ (forall id,
            get_suggestions None id db''
            = Ok {| status_code := 401; body := ErrorBody "Not authenticated" |}).
Proof.
  intros user_id viewer cfg self now now' rnd db db' response approver approved_id
    Hinit (Hnd & Hle & Hfk) Hroute. cbn zeta.
  pose proof (generate_schedules_inv _ _ _ _ _ _ _ _ Hinit Hroute) as Hret.
  destruct (generate_schedules_Ok user_id cfg self now rnd db Hinit Hret)
    as (t1 & t2 & t3 & d1 & d2 & db'' & _ & _ & _ & _ & _ & Hroute' & _ & Ht & _).
  rewrite Hroute' in Hroute. injection Hroute as <- <-.
  cbn zeta in Ht.
  exists t1, t2, t3. split; [done|].
  assert (Hfind : forall id, db_timetables_seq db < id ->
    find (fun r => bool_decide (tr_id r = id)) (db_timetables db'')
    = find (fun r => bool_decide (tr_id r = id))
        [draft_row (db_timetables_seq db + 1) (db_configurations_seq db + 1) t1;
         draft_row (db_timetables_seq db + 2) (db_configurations_seq db + 1) t2;
         draft_row (db_timetables_seq db + 3) (db_configurations_seq db + 1) t3]).
  { intros id Hid. rewrite Ht. by apply (find_fresh_key _ _ (db_timetables_seq db)). }
  assert (Hget : forall id r t,
    find (fun r => bool_decide (tr_id r = id)) (db_timetables db'') = Some r ->
    tr_metrics r = tt_metrics t ->
    get_suggestions (Some viewer) id (approve_timetable approver approved_id now' db'').2
    = Ok {| status_code := 200; body := SuggestionsBody (suggest_improvements t) |}).
  { intros id r t Hf Hm. destruct approver as [a|].
    - pose proof (find_approved a approved_id now' db'' id) as Hfa.
      rewrite Hf in Hfa. destruct Hfa as (r' & Hf' & Hm').
      apply (get_suggestions_found viewer id _ r'); [done|congruence].
    - by apply (get_suggestions_found viewer id _ r). }
  split; [|split; [|split; [|split]]].
  - apply (Hget _ (draft_row (db_timetables_seq db + 1) (db_configurations_seq db + 1) t1));
      [|done].
    rewrite Hfind by lia. cbn [find draft_row tr_id].
    by rewrite bool_decide_eq_true_2.
  - apply (Hget _ (draft_row (db_timetables_seq db + 2) (db_configurations_seq db + 1) t2));
      [|done].
    rewrite Hfind by lia. cbn [find draft_row tr_id].
    rewrite bool_decide_eq_false_2 by lia. by rewrite bool_decide_eq_true_2.
  - apply (Hget _ (draft_row (db_timetables_seq db + 3) (db_configurations_seq db + 1) t3));
      [|done].
    rewrite Hfind by lia. cbn [find draft_row tr_id].
    do 2 rewrite bool_decide_eq_false_2 by lia. by rewrite bool_decide_eq_true_2.
  - intros id Hid.
    assert (Hnone : find (fun r => bool_decide (tr_id r = id)) (db_timetables db'') = None).
    { rewrite Hfind by lia. cbn [find draft_row tr_id].
      by do 3 rewrite bool_decide_eq_false_2 by lia. }
    unfold get_suggestions. destruct approver as [a|].
    + pose proof (find_approved a approved_id now' db'' id) as Hfa.
      rewrite Hnone in Hfa. by rewrite Hfa.
    + cbn [approve_timetable snd]. by rewrite Hnone.
  - reflexivity.
Qed.

Lemma suggestions_of_stored_candidates_witness :
  let last := db_timetables_seq empty_db in
  let db'' := (approve_timetable (Some 1) (Some 2) "2025-01-02T10:00:00"
                 small_answer.2).2 in
  exists t1 t2 t3,
    small_answer.1 = {| status_code := 200; body := TimetablesBody [t1; t2; t3] |}
    /\ get_suggestions (Some 7) (last + 1) db''
       = Ok {| status_code := 200;
               body := SuggestionsBody (suggest_improvements t1) |}
    /\ get_suggestions (Some 7) (last + 2) db''
       = Ok {| status_code := 200;
               body := SuggestionsBody (suggest_improvements t2) |}
    /\ get_suggestions (Some 7) (last + 3) db''
       = Ok {| status_code := 200;
               body := SuggestionsBody (suggest_improvements t3) |}
    /\ (forall id, last + 3 < id ->
          get_suggestions (Some 7) id db''
          = Ok {| status_code := 404; body := ErrorBody "Timetable not found" |})
    /\ (forall id,
          get_suggestions None id db''
          = Ok {| status_code := 401; body := ErrorBody "Not authenticated" |}).
Proof.
  apply (suggestions_of_stored_candidates 1 7 small_config small_optimizer
           "20250101_090000" "2025-01-02T10:00:00" counting_source empty_db
           small_answer.2 small_answer.1 (Some 1) (Some 2)).
  - reflexivity.
  - repeat split; constructor.
  - vm_compute. reflexivity.
Defined.

(** * Properties of accounts and sessions *)

Section account_laws.
Variable sha256 : string -> string.

Lemma find_new_user (rows : list UserRow) (username h : string) (u : UserRow) :
  username ∉ map ur_username rows -> ur_username u = username ->
  find (fun u => bool_decide (ur_username u = username)
                 && bool_decide (ur_password_hash u = h)) (rows ++ [u])
  = if bool_decide (ur_password_hash u = h) then Some u else None.
Proof.
  intros Hfresh Hu. induction rows as [|r rows IH]; simpl.
  - by rewrite bool_decide_eq_true_2.
  - rewrite bool_decide_eq_false_2.
    + apply IH. intros Hin. apply Hfresh. simpl. by right.
    + intros Heq. apply Hfresh. simpl. rewrite <- Heq. left.
Qed.

Lemma username_taken_spec (users : Users) (username : string) :
  username_taken users username = true
  <-> username ∈ map ur_username (users_rows users).
Proof. unfold username_taken. apply bool_decide_eq_true. Qed.

Lemma insert_user_ok (users : Users) (username h role : string) :
  users_ok users -> username ∉ map ur_username (users_rows users) ->
  users_ok (insert_user users username h role).
Proof.
  intros [Hnd Hle] Hfresh. unfold users_ok, insert_user. cbn [users_rows users_seq].
  split.
  - rewrite map_app. apply NoDup_app. split; [done|]. split.
    + intros x Hx ->%list_elem_of_singleton. done.
    + apply NoDup_singleton.
  - apply Forall_app. split.
    + eapply Forall_impl; [exact Hle|]. simpl. lia.
    + constructor; [simpl; lia|constructor].
Qed.
End account_laws.

(** [POST /api/register] followed by [POST /api/login]: a new username
    with a password, both not empty, is registered without any session, with
    the role of the request ('user' when none is given, and 'admin' if the
    request says so); the same credentials then log in, and the session
    holds the new key, the username and that role.  A password with another
    digest does not log in and leaves the session as it was. *)
Theorem register_then_login :
  forall (sha256 : string -> string) (username password : string)
         (role : option string) (users : Users) (session : FlaskSession),
    username <> "" -> password <> "" ->
    username ∉ map ur_username (users_rows users) ->
    let answer := register sha256 (Some username) (Some password) role users in
    answer.1 = {| status_code := 200;
                  body := MessageBody "User registered successfully" |}
    /\ login sha256 (Some username) (Some password) answer.2 session
       = ({| status_code := 200;
             body := LoginBody username (default "user" role) |},
          {| s_user_id := Some (users_seq users + 1);
             s_username := Some username;
             s_role := Some (default "user" role) |})
    /\ forall other : string,
         sha256 other <> sha256 password ->
         status_code (login sha256 (Some username) (Some other) answer.2 session).1
         <> 200
         /\ (login sha256 (Some username) (Some other) answer.2 session).2 = session.
Proof.
  intros sha256 username password role users session Hu Hp Hfresh. cbn zeta.
  assert (Hreg : register sha256 (Some username) (Some password) role users
                 = ({| status_code := 200;
                       body := MessageBody "User registered successfully" |},
                    insert_user users username (sha256 password)
                      (default "user" role))).
  { unfold register. do 2 rewrite bool_decide_eq_false_2 by done. simpl.
    unfold username_taken. by rewrite bool_decide_eq_false_2. }
  rewrite Hreg. cbn [fst snd]. split; [done|]. split.
  - unfold login. do 2 rewrite bool_decide_eq_false_2 by done. simpl.
    rewrite (find_new_user _ username) by done.
    by rewrite bool_decide_eq_true_2.
  - intros other Hother. unfold login.
    rewrite (bool_decide_eq_false_2 (username = "")) by done. simpl.
    case_bool_decide; [by split|].
    cbn [insert_user users_rows].
    rewrite (find_new_user _ username) by done.
    cbn [ur_password_hash]. rewrite bool_decide_eq_false_2 by congruence.
    by split.
Qed.

Lemma register_then_login_witness :
  let answer := register (fun s => s) (Some "ada") (Some "secret") (Some "admin")
                  no_users in
  answer.1 = {| status_code := 200;
                body := MessageBody "User registered successfully" |}
  /\ login (fun s => s) (Some "ada") (Some "secret") answer.2 empty_session
     = ({| status_code := 200;
           body := LoginBody "ada" (default "user" (Some "admin")) |},
        {| s_user_id := Some (users_seq no_users + 1);
           s_username := Some "ada";
           s_role := Some (default "user" (Some "admin")) |})
  /\ forall other : string,
       (fun s : string => s) other <> (fun s : string => s) "secret" ->
       status_code (login (fun s => s) (Some "ada") (Some other) answer.2
                      empty_session).1 <> 200
       /\ (login (fun s => s) (Some "ada") (Some other) answer.2 empty_session).2
          = empty_session.
Proof.
  apply (register_then_login (fun s => s) "ada" "secret" (Some "admin") no_users
           empty_session).
  - discriminate.
  - discriminate.
  - apply (bool_decide_unpack _). vm_compute. exact I.
Defined.

(** [POST /api/register] keeps the usernames pairwise different: a taken
    username is refused with 400 and nothing is stored, and a request that
    is not answered by 200 stores nothing. *)
Theorem register_keeps_usernames_unique :
  forall (sha256 : string -> string) (username password role : option string)
         (users : Users),
    users_ok users ->
    let answer := register sha256 username password role users in
    users_ok answer.2
    /\ (status_code answer.1 <> 200 -> answer.2 = users)
    /\ (forall name word,
          username = Some name -> password = Some word ->
          name <> "" -> word <> "" ->
          name ∈ map ur_username (users_rows users) ->
          answer = ({| status_code := 400;
                       body := ErrorBody "Username already exists" |}, users)).
Proof.
  intros sha256 username password role users Hok. cbn zeta.
  unfold register.
  destruct username as [name|], password as [word|]; try by (split; [|split]).
  destruct (bool_decide (name = "") || bool_decide (word = "")) eqn:Hempty.
  - split; [done|]. split; [done|]. intros ? ? [= <-] [= <-] Hn Hw _.
    apply orb_true_iff in Hempty as [H|H]; by apply bool_decide_eq_true_1 in H.
  - destruct (username_taken users name) eqn:Htaken.
    + split; [done|]. split; [done|]. by intros ? ? [= <-] [= <-] _ _ _.
    + cbn [fst snd status_code]. split; [|split; [done|]].
      * apply insert_user_ok; [done|].
        intros Hin%username_taken_spec. congruence.
      * intros ? ? [= <-] [= <-] _ _ Hin%username_taken_spec. congruence.
Qed.

Lemma register_keeps_usernames_unique_witness :
  let answer := register (fun s => s) (Some "admin") (Some "guess") None
                  (init_db (fun s => s) no_users) in
  users_ok answer.2
  /\ (status_code answer.1 <> 200 -> answer.2 = init_db (fun s => s) no_users)
  /\ (forall name word,
        Some "admin" = Some name -> Some "guess" = Some word ->
        name <> "" -> word <> "" ->
        name ∈ map ur_username (users_rows (init_db (fun s => s) no_users)) ->
        answer = ({| status_code := 400;
                     body := ErrorBody "Username already exists" |},
                  init_db (fun s => s) no_users)).
Proof.
  apply (register_keeps_usernames_unique (fun s => s) (Some "admin") (Some "guess")
           None (init_db (fun s => s) no_users)).
  split; apply (bool_decide_unpack _); vm_compute; exact I.
Defined.


(** The session from login to logout: a login that is answered by 200
    stores the key, the name and the role of a row of [users] with the given
    username and the digest of the given password; any other answer leaves
    the session as it was; and after [POST /api/logout] the routes that need
    a session answer 401 and leave the database as it is. *)
Theorem session_from_login_to_logout :
  forall (sha256 : string -> string) (username password : option string)
         (users : Users) (session : FlaskSession) (cfg : Config) (now : string)
         (rnd : nat -> nat) (timetable_id : option Z) (id : Z) (db : Db),
    let answer := login sha256 username password users session in
    (status_code answer.1 = 200 ->
     exists user name word,
       user ∈ users_rows users
       /\ username = Some name /\ password = Some word
       /\ ur_username user = name /\ ur_password_hash user = sha256 word
       /\ answer.2 = {| s_user_id := Some (ur_id user);
                        s_username := Some name; s_role := Some (ur_role user) |})
    /\ (status_code answer.1 <> 200 -> answer.2 = session)
    /\ let closed := (logout answer.2).2 in
       generate_schedules (s_user_id closed) cfg now rnd db
       = (Ok {| status_code := 401; body := ErrorBody "Not authenticated" |}, db)
       /\ approve_timetable (s_user_id closed) timetable_id now db
          = ({| status_code := 401; body := ErrorBody "Not authenticated" |}, db)
       /\ get_suggestions (s_user_id closed) id db
          = Ok {| status_code := 401; body := ErrorBody "Not authenticated" |}.
Proof.
  intros sha256 username password users session cfg now rnd timetable_id id db.
  cbn zeta. split; [|split; [|done]].
  - unfold login. destruct username as [name|], password as [word|];
      try (simpl; discriminate).
    destruct (bool_decide (name = "") || bool_decide (word = ""));
      [simpl; discriminate|].
    destruct (find _ (users_rows users)) as [user|] eqn:Hfind; [|simpl; discriminate].
    intros _. apply find_some in Hfind as [Hin Hmatch].
    apply andb_true_iff in Hmatch as [Hn Hh].
    apply bool_decide_eq_true_1 in Hn, Hh.
    exists user, name, word. cbn [snd]. rewrite Hn.
    split; [by apply list_elem_of_In|]. done.
  - unfold login. destruct username as [name|], password as [word|]; try done.
    destruct (bool_decide (name = "") || bool_decide (word = "")); [done|].
    destruct (find _ (users_rows users)); [|done]. simpl. done.
Qed.

Lemma session_from_login_to_logout_witness :
  let answer := login (fun s => s) (Some "admin") (Some "admin123")
                  (init_db (fun s => s) no_users) empty_session in
  (status_code answer.1 = 200 ->
   exists user name word,
     user ∈ users_rows (init_db (fun s => s) no_users)
     /\ Some "admin" = Some name /\ Some "admin123" = Some word
     /\ ur_username user = name /\ ur_password_hash user = (fun s : string => s) word
     /\ answer.2 = {| s_user_id := Some (ur_id user);
                      s_username := Some name; s_role := Some (ur_role user) |})
  /\ (status_code answer.1 <> 200 -> answer.2 = empty_session)
  /\ let closed := (logout answer.2).2 in
     generate_schedules (s_user_id closed) small_config "20250101_090000"
       counting_source empty_db
     = (Ok {| status_code := 401; body := ErrorBody "Not authenticated" |}, empty_db)
     /\ approve_timetable (s_user_id closed) (Some 1) "20250101_090000" empty_db
        = ({| status_code := 401; body := ErrorBody "Not authenticated" |}, empty_db)
     /\ get_suggestions (s_user_id closed) 1 empty_db
        = Ok {| status_code := 401; body := ErrorBody "Not authenticated" |}.
Proof.
  exact (session_from_login_to_logout (fun s => s) (Some "admin") (Some "admin123")
           (init_db (fun s => s) no_users) empty_session small_config
           "20250101_090000" counting_source (Some 1) 1 empty_db).
Defined.

